(** * UPI log analyzer: risk scoring and anomaly rules

    A shallow embedding of the analytic core of [streamlit_upi_analyzer.py]:
    the composite fraud score of [create_fraud_score_gauge], the attacking-IP
    ranking of [create_top_ips_chart] and the five anomaly rules of the
    "Anomaly Detection" tab of [main].

    Modelling conventions.
    - A pandas [DataFrame] is the list of its rows, in index order; a row is
      a record with one field per CSV column.  String columns are [string],
      integer columns are [Z].
    - A pandas [Series] of group sizes is a list of (label, size) pairs.
    - Python [int] is [Z]; [len] is the length of the list as a [Z].
    - A Python [float] is a binary64 number, and a finite one is a
      rational.  The score is given twice.  [failed_login_rate] to
      [create_fraud_score_gauge] are the formulas of the code in the exact
      arithmetic of [Q]; the tier thresholds, the order of scores and the
      other properties that do not depend on rounding are stated on them.
      Module [pyfloat] is the score as the code computes it, every
      operation rounded to the nearest binary64 number by [round64];
      the part on the score in binary64 bounds the distance between the
      two, and module [machine] compares [round64] with the
      floating-point unit.
    - The lists above cannot be changed by the code that reads them.  To
      state that the analysis leaves the tables alone, the tables are also
      given as objects in a heap, with the pandas calls of the analysis as
      loads, allocations and stores (modules [pandas] and [by_reference]);
      the list model is what this code computes on well-formed tables.
    - An exception is a value of [exn]; code that can raise returns a
      [result]. *)

From Stdlib Require Import QArith Lqa Qround Qabs Qpower.
From Stdlib Require PrimFloat FloatOps SpecFloat Uint63.
From stdpp Require Import list strings sorting pretty.

Local Open Scope Z_scope.

(** ** Exceptions *)

Inductive exn : Set :=
  | ZeroDivisionError.

Inductive result (A : Type) : Type :=
  | Ok (a : A)
  | Raise (e : exn).

Arguments Ok {A} a.
Arguments Raise {A} e.

#[global] Instance result_ret : MRet result := λ A a, Ok a.

#[global] Instance result_bind : MBind result := λ A B k m,
  match m with
  | Ok a => k a
  | Raise e => Raise e
  end.

(** ** The five tables (spec section 3, columns as generated in
    [generate_synthetic_data]) *)

Module LoginEvent.
Record t : Set := mk {
  timestamp : string;
  user_id : string;
  ip_address : string;
  login_status : string;
  browser : string
}.
End LoginEvent.

Module SessionRecord.
Record t : Set := mk {
  session_id : string;
  user_id : string;
  start_time : string;
  end_time : string;
  duration_minutes : Z
}.
End SessionRecord.

Module AuthAttempt.
Record t : Set := mk {
  timestamp : string;
  ip_address : string;
  auth_status : string;
  attempt_count : Z;
  failure_reason : string
}.
End AuthAttempt.

Module RequestLog.
Record t : Set := mk {
  timestamp : string;
  ip_address : string;
  request_type : string;
  payload_size : Z;
  status_code : Z
}.
End RequestLog.

Module ServiceSubscription.
Record t : Set := mk {
  user_id : string;
  service_name : string;
  subscription_date : string;
  status : string;
  plan_type : string
}.
End ServiceSubscription.

(** ** Python and pandas primitives *)

(** [len(df)] *)
Definition len {A : Type} (df : list A) : Z := Z.of_nat (length df).

(** [a / b] on two ints: true division, raising on a zero divisor. *)
Definition truediv (a b : Z) : result Q :=
  if decide (b = 0) then Raise ZeroDivisionError
  else Ok (inject_Z a / inject_Z b)%Q.

(** [x < y] on floats, as a boolean. *)
Definition Qltb (x y : Q) : bool := negb (Qle_bool y x).

(** ** [create_fraud_score_gauge] *)

(** [len(login_df[login_df['login_status']=='failed']) / len(login_df) * 100] *)
Definition failed_login_rate (login_df : list LoginEvent.t) : result Q :=
  r ← truediv
        (len (filter (λ row, LoginEvent.login_status row = "failed") login_df))
        (len login_df) ;
  Ok (r * 100)%Q.

(** [len(unauth_df[unauth_df['auth_status']=='unauthenticated']) / len(unauth_df) * 100] *)
Definition unauth_rate (unauth_df : list AuthAttempt.t) : result Q :=
  r ← truediv
        (len (filter (λ row, AuthAttempt.auth_status row = "unauthenticated")
                unauth_df))
        (len unauth_df) ;
  Ok (r * 100)%Q.

(** [len(request_df[request_df['request_type'].isin(['blank', 'dos_attack'])]) / len(request_df) * 100] *)
Definition attack_rate (request_df : list RequestLog.t) : result Q :=
  r ← truediv
        (len (filter
                (λ row, RequestLog.request_type row ∈ ["blank"; "dos_attack"])
                request_df))
        (len request_df) ;
  Ok (r * 100)%Q.

(** [failed_login_rate * 0.3 + unauth_rate * 0.4 + attack_rate * 0.3] *)
Definition fraud_score (failed_login_rate unauth_rate attack_rate : Q) : Q :=
  (failed_login_rate * 0.3 + unauth_rate * 0.4 + attack_rate * 0.3)%Q.

(** The same two computations with every operation followed by a rounding
    [rnd], the way binary64 arithmetic carries them out: the literals 0.3
    and 0.4 are rounded, and so is each quotient, product and sum.  With
    [rnd] the identity these are the exact definitions above. *)
Definition percentage_rounded (rnd : Q → Q) (part whole : Z) : Q :=
  rnd (rnd (inject_Z part / inject_Z whole) * 100)%Q.

Definition fraud_score_rounded (rnd : Q → Q)
    (failed_login_rate unauth_rate attack_rate : Q) : Q :=
  rnd (rnd (rnd (failed_login_rate * rnd 0.3) + rnd (unauth_rate * rnd 0.4))
       + rnd (attack_rate * rnd 0.3))%Q.

(** The [if]/[elif] chain that picks the risk level. *)
Definition risk_level (fraud_score : Q) : string :=
  if Qltb fraud_score 15 then "LOW"
  else if Qltb fraud_score 30 then "MEDIUM"
  else if Qltb fraud_score 50 then "HIGH"
  else "CRITICAL".

(** The function returns [fig, fraud_score, risk_level]; the figure only
    displays the other two and is left out. *)
Definition create_fraud_score_gauge
    (login_df : list LoginEvent.t) (unauth_df : list AuthAttempt.t)
    (request_df : list RequestLog.t) : result (Q * string) :=
  failed_login_rate ← failed_login_rate login_df ;
  unauth_rate ← unauth_rate unauth_df ;
  attack_rate ← attack_rate request_df ;
  let fraud_score := fraud_score failed_login_rate unauth_rate attack_rate in
  Ok (fraud_score, risk_level fraud_score).

(** ** pandas [Series] of group sizes *)

(** [Series.unique()]: the distinct labels, in order of first appearance. *)
Fixpoint unique (keys : list string) : list string :=
  match keys with
  | [] => []
  | k :: keys => k :: filter (λ x, x ≠ k) (unique keys)
  end.

(** The number of rows carrying label [k]. *)
Definition group_size (k : string) (keys : list string) : Z :=
  len (filter (λ x, x = k) keys).

(** Python compares [str] by code point; so does [String.leb] on the bytes
    of UTF-8 text. *)
Definition string_le (a b : string) : Prop := String.leb a b = true.

#[global] Instance string_le_dec : RelDecision string_le.
Proof. intros a b. unfold string_le. apply _. Defined.

(** [df.groupby(col).size()] on the column [keys]: one entry per distinct
    label, labels in ascending order ([sort=True] is the default). *)
Definition groupby_size (keys : list string) : list (string * Z) :=
  (λ k, (k, group_size k keys)) <$> merge_sort string_le (unique keys).

(** Order of [sort_values(ascending=False)]: larger sizes first. *)
Definition size_ge (a b : string * Z) : Prop := b.2 ≤ a.2.

#[global] Instance size_ge_dec : RelDecision size_ge.
Proof. intros a b. unfold size_ge. apply _. Defined.

(** [s.sort_values(ascending=False)].  pandas does not fix the order of
    entries of equal size; here it is the one [merge_sort] produces, and no
    statement below depends on it. *)
Definition sort_values_desc (s : list (string * Z)) : list (string * Z) :=
  merge_sort size_ge s.

(** [col.value_counts()]: one entry per distinct label, larger sizes
    first. *)
Definition value_counts (keys : list string) : list (string * Z) :=
  sort_values_desc ((λ k, (k, group_size k keys)) <$> unique keys).

(** [s.head(n)] *)
Definition head {A : Type} (n : nat) (s : list A) : list A := take n s.

(** ** [create_top_ips_chart] *)

(** The bar chart plots [top_ips.values] against [top_ips.index]; the
    model returns [top_ips] itself. *)
Definition create_top_ips_chart (df : list RequestLog.t) (top_n : nat)
    : list (string * Z) :=
  let suspicious_df :=
    filter (λ row, RequestLog.request_type row ∈ ["blank"; "dos_attack"]) df in
  let top_ips :=
    head top_n (value_counts (RequestLog.ip_address <$> suspicious_df)) in
  top_ips.

(** ** The "Anomaly Detection" tab of [main] *)

(** [df1_login[df1_login['login_status']=='failed'].groupby('ip_address').size()] *)
Definition failed_by_ip (df1_login : list LoginEvent.t) : list (string * Z) :=
  groupby_size
    (LoginEvent.ip_address
       <$> filter (λ row, LoginEvent.login_status row = "failed") df1_login).

(** [failed_by_ip[failed_by_ip > 5].sort_values(ascending=False)] *)
Definition critical_ips (df1_login : list LoginEvent.t) : list (string * Z) :=
  sort_values_desc (filter (λ e, 5 < e.2) (failed_by_ip df1_login)).

Definition suspicious_sessions (df2_duration : list SessionRecord.t)
    : list SessionRecord.t :=
  filter (λ row, SessionRecord.duration_minutes row < 3
                 ∨ 180 < SessionRecord.duration_minutes row) df2_duration.

Definition brute_force (df3_unauth : list AuthAttempt.t)
    : list AuthAttempt.t :=
  filter (λ row, AuthAttempt.auth_status row = "unauthenticated"
                 ∧ 10 < AuthAttempt.attempt_count row) df3_unauth.

Definition dos_attacks (df4_requests : list RequestLog.t)
    : list RequestLog.t :=
  filter (λ row, RequestLog.request_type row = "dos_attack") df4_requests.

(** [dos_attacks.groupby('ip_address').size().sort_values(ascending=False).head(10)],
    computed only under [if len(dos_attacks) > 0]. *)
Definition dos_by_ip (df4_requests : list RequestLog.t)
    : option (list (string * Z)) :=
  let dos_attacks := dos_attacks df4_requests in
  if decide (0 < len dos_attacks) then
    Some (head 10 (sort_values_desc
                     (groupby_size (RequestLog.ip_address <$> dos_attacks))))
  else None.

Definition suspended_services (df5_services : list ServiceSubscription.t)
    : list ServiceSubscription.t :=
  filter (λ row, ServiceSubscription.status row = "suspended") df5_services.

(** ** Session state and the analysis pass *)

(** The entries of [st.session_state] that [main] writes after loading. *)
Record session_state : Set := mk_session_state {
  df1_login : list LoginEvent.t;
  df2_duration : list SessionRecord.t;
  df3_unauth : list AuthAttempt.t;
  df4_requests : list RequestLog.t;
  df5_services : list ServiceSubscription.t;
  data_loaded : bool
}.

(** Code that runs against the session state: it yields a result or an
    exception, and the state it leaves behind. *)
Definition app (A : Type) : Type := session_state → result A * session_state.

#[global] Instance app_ret : MRet app := λ A a st, (Ok a, st).

#[global] Instance app_bind : MBind app := λ A B k m st,
  match m st with
  | (Ok a, st') => k a st'
  | (Raise e, st') => (Raise e, st')
  end.

(** [st.session_state[key]] *)
Definition read {A : Type} (key : session_state → A) : app A :=
  λ st, (Ok (key st), st).

(** [st.session_state[...] = ...] for the five tables and the flag, as in
    the "Store in session state" block. *)
Definition store_tables
    (l : list LoginEvent.t) (d : list SessionRecord.t)
    (u : list AuthAttempt.t) (r : list RequestLog.t)
    (s : list ServiceSubscription.t) : app unit :=
  λ _, (Ok (), mk_session_state l d u r s true).

(** A computation that does not touch the state. *)
Definition pure {A : Type} (r : result A) : app A := λ st, (r, st).

(** Tab 1: the fraud risk score. *)
Definition tab1_fraud_score : app (Q * string) :=
  login_df ← read df1_login ;
  unauth_df ← read df3_unauth ;
  request_df ← read df4_requests ;
  pure (create_fraud_score_gauge login_df unauth_df request_df).

(** What tab 5 displays. *)
Record anomaly_report : Type := mk_anomaly_report {
  rep_critical_ips : list (string * Z);
  rep_suspicious_sessions : list SessionRecord.t;
  rep_brute_force : list AuthAttempt.t;
  rep_dos_attacks : list RequestLog.t;
  rep_dos_by_ip : option (list (string * Z));
  rep_suspended_services : list ServiceSubscription.t
}.

(** Tab 5: the five anomaly rules, in the order of the expanders. *)
Definition tab5_anomaly_detection : app anomaly_report :=
  logins ← read df1_login ;
  sessions ← read df2_duration ;
  attempts ← read df3_unauth ;
  requests ← read df4_requests ;
  services ← read df5_services ;
  mret (mk_anomaly_report
          (critical_ips logins) (suspicious_sessions sessions)
          (brute_force attempts) (dos_attacks requests) (dos_by_ip requests)
          (suspended_services services)).

(** One run of the dashboard body: nothing is analysed until the data is
    loaded; tab 1 runs before tab 5, and an exception ends the run. *)
Definition analysis_pass : app (option ((Q * string) * anomaly_report)) :=
  loaded ← read data_loaded ;
  if loaded : bool then
    score ← tab1_fraud_score ;
    report ← tab5_anomaly_detection ;
    mret (Some (score, report))
  else mret None.

(** A computation only reads when it hands back the state it was given,
    whether it yields a result or raises. *)
Definition reads_only {A : Type} (m : app A) : Prop :=
  ∀ st, (m st).2 = st.

(** ** Sample rows, used to evaluate the definitions on concrete tables *)

Definition login_row (ip status : string) : LoginEvent.t :=
  LoginEvent.mk "2026-02-01 00:00:00" "USR0001" ip status "Chrome".

Definition session_row (duration : Z) : SessionRecord.t :=
  SessionRecord.mk "SES00001" "USR0001" "2026-02-01 00:00:00"
    "2026-02-01 01:00:00" duration.

Definition auth_row (status : string) (attempts : Z) : AuthAttempt.t :=
  AuthAttempt.mk "2026-02-01 00:00:00" "10.0.0.1" status attempts "None".

Definition request_row (ip type : string) : RequestLog.t :=
  RequestLog.mk "2026-02-01 00:00:00" ip type 100 200.

Definition service_row (status : string) : ServiceSubscription.t :=
  ServiceSubscription.mk "USR0001" "UPI_Transfer" "2026-01-01" status "Basic".

(** The worked example of the spec: 8 of 100 logins failed, 60 of 200
    attempts unauthenticated, 30 of 150 requests blank or DOS. *)
Definition example_logins : list LoginEvent.t :=
  replicate 8 (login_row "10.0.0.1" "failed")
  ++ replicate 92 (login_row "10.0.0.2" "success").

Definition example_attempts : list AuthAttempt.t :=
  replicate 60 (auth_row "unauthenticated" 3)
  ++ replicate 140 (auth_row "authenticated" 1).

Definition example_requests : list RequestLog.t :=
  replicate 10 (request_row "10.0.0.1" "blank")
  ++ replicate 20 (request_row "10.0.0.3" "dos_attack")
  ++ replicate 120 (request_row "10.0.0.2" "normal").

(** ** Further pandas primitives *)

(** [df.tail(n)] *)
Definition tail {A : Type} (n : nat) (df : list A) : list A :=
  drop (length df - n) df.

(** [col.nunique()] *)
Definition nunique (keys : list string) : Z := len (unique keys).

(** [col.mean()] of an integer column: the sum over the count, and NaN,
    here [None], on an empty column. *)
Definition mean (col : list Z) : option Q :=
  if decide (col = []) then None
  else Some (inject_Z (foldr Z.add 0%Z col) / inject_Z (len col))%Q.

(** [s.sum()] of a series of sizes. *)
Definition series_sum (s : list (string * Z)) : Z :=
  foldr (λ e acc, e.2 + acc) 0 s.

(** [df.sort_values('attempt_count', ascending=False)]; as for
    [sort_values_desc], rows of equal count come in the order of
    [merge_sort]. *)
Definition attempt_ge (a b : AuthAttempt.t) : Prop :=
  AuthAttempt.attempt_count b ≤ AuthAttempt.attempt_count a.

#[global] Instance attempt_ge_dec : RelDecision attempt_ge.
Proof. intros a b. unfold attempt_ge. apply _. Defined.

Definition sort_by_attempt_count_desc (df : list AuthAttempt.t)
    : list AuthAttempt.t :=
  merge_sort attempt_ge df.

(** A series [s] is the census of column [col] of the table [df]: one
    entry per label that occurs, with the number of rows that carry it,
    larger numbers first, the numbers adding up to the number of rows. *)
Definition census {A : Type} (col : A → string) (df : list A)
    (s : list (string * Z)) : Prop :=
  NoDup s.*1
  ∧ StronglySorted (λ a b, b.2 ≤ a.2) s
  ∧ (∀ label n, (label, n) ∈ s
                ↔ n = len (filter (λ row, col row = label) df) ∧ 0 < n)
  ∧ series_sum s = len df.

(** ** The charts that plot [value_counts]

    Each function returns the series it hands to plotly. *)

Definition create_auth_pie_chart (df : list AuthAttempt.t)
    : list (string * Z) :=
  value_counts (AuthAttempt.auth_status <$> df).

Definition create_request_type_chart (df : list RequestLog.t)
    : list (string * Z) :=
  value_counts (RequestLog.request_type <$> df).

Definition create_service_chart (df : list ServiceSubscription.t)
    : list (string * Z) :=
  value_counts (ServiceSubscription.service_name <$> df).

(** The four risk levels in increasing order of severity; any other text
    ranks below them. *)
Definition risk_rank (risk_level : string) : Z :=
  if decide (risk_level = "LOW") then 0
  else if decide (risk_level = "MEDIUM") then 1
  else if decide (risk_level = "HIGH") then 2
  else if decide (risk_level = "CRITICAL") then 3
  else -1.

(** ** The dial of [create_fraud_score_gauge] *)

(** The [color] chosen next to [risk_level] in the same [if]/[elif]
    chain. *)
Definition gauge_color (fraud_score : Q) : string :=
  if Qltb fraud_score 15 then "green"
  else if Qltb fraud_score 30 then "yellow"
  else if Qltb fraud_score 50 then "orange"
  else "red".

(** [gauge['steps']]: the shaded bands of the dial, as (range, color). *)
Definition gauge_steps : list ((Q * Q) * string) :=
  [((0, 15), "lightgreen"); ((15, 30), "lightyellow");
   ((30, 50), "orange"); ((50, 100), "lightcoral")]%Q.

(** [gauge['threshold']['value']]: the red line. *)
Definition gauge_threshold : Q := 50.

(** ** Tab 1, "Dashboard Overview": the metrics and the alert cards *)

Record overview : Type := mk_overview {
  ov_fraud_score : Q;
  ov_risk_level : string;
  ov_total_login_attempts : Z;
  ov_failed_logins : Z;
  ov_unique_users : Z;
  ov_dos_attacks : Z;
  ov_blank_requests : Z;
  ov_unauth_attempts : Z;
  ov_failed_rate : Q;
  ov_login_alert : string;
  ov_avg_duration : option Q;
  ov_unauth_rate : Q;
  ov_unauth_alert : string;
  ov_attack_count : Z;
  ov_attack_alert : string
}.

(** The gauge comes first, then the six [st.metric] values, then the four
    cards; the two rates of the cards are computed by the same expressions
    as in the gauge. *)
Definition tab1_overview
    (df1_login : list LoginEvent.t) (df2_duration : list SessionRecord.t)
    (df3_unauth : list AuthAttempt.t) (df4_requests : list RequestLog.t)
    : result overview :=
  gauge ← create_fraud_score_gauge df1_login df3_unauth df4_requests ;
  failed_rate ← failed_login_rate df1_login ;
  let avg_duration := mean (SessionRecord.duration_minutes <$> df2_duration) in
  unauth_rate ← unauth_rate df3_unauth ;
  let attack_count :=
    len (filter (λ row, RequestLog.request_type row ∈ ["blank"; "dos_attack"])
           df4_requests) in
  Ok {|
    ov_fraud_score := gauge.1;
    ov_risk_level := gauge.2;
    ov_total_login_attempts := len df1_login;
    ov_failed_logins :=
      len (filter (λ row, LoginEvent.login_status row = "failed") df1_login);
    ov_unique_users := nunique (LoginEvent.user_id <$> df1_login);
    ov_dos_attacks :=
      len (filter (λ row, RequestLog.request_type row = "dos_attack")
             df4_requests);
    ov_blank_requests :=
      len (filter (λ row, RequestLog.request_type row = "blank") df4_requests);
    ov_unauth_attempts :=
      len (filter (λ row, AuthAttempt.auth_status row = "unauthenticated")
             df3_unauth);
    ov_failed_rate := failed_rate;
    ov_login_alert :=
      if Qltb 10 failed_rate then "alert-critical" else "alert-success";
    ov_avg_duration := avg_duration;
    ov_unauth_rate := unauth_rate;
    ov_unauth_alert :=
      if Qltb 30 unauth_rate then "alert-critical" else "alert-warning";
    ov_attack_count := attack_count;
    ov_attack_alert :=
      if decide (100 < attack_count) then "alert-critical"
      else "alert-warning"
  |}.

(** ** Tab 2, "Detailed Analysis" *)

(** "Recent Failed Logins" *)
Definition recent_failed_logins (df1_login : list LoginEvent.t)
    : list LoginEvent.t :=
  tail 10 (filter (λ row, LoginEvent.login_status row = "failed") df1_login).

(** [df1_login['browser'].value_counts()] *)
Definition browser_counts (df1_login : list LoginEvent.t)
    : list (string * Z) :=
  value_counts (LoginEvent.browser <$> df1_login).

(** The metrics "Very Short (<3 min)" and "Very Long (>180 min)"; the
    metric "Suspicious Sessions" is the length of the same filter as
    [suspicious_sessions]. *)
Definition very_short (df2_duration : list SessionRecord.t) : Z :=
  len (filter (λ row, SessionRecord.duration_minutes row < 3) df2_duration).

Definition very_long (df2_duration : list SessionRecord.t) : Z :=
  len (filter (λ row, 180 < SessionRecord.duration_minutes row) df2_duration).

(** [failure_df['failure_reason'].value_counts()] *)
Definition reason_counts (df3_unauth : list AuthAttempt.t)
    : list (string * Z) :=
  let failure_df :=
    filter (λ row, AuthAttempt.auth_status row = "unauthenticated")
      df3_unauth in
  value_counts (AuthAttempt.failure_reason <$> failure_df).

(** "High-Risk IPs"; the page shows [high_risk.head(10)]. *)
Definition high_risk (df3_unauth : list AuthAttempt.t)
    : list AuthAttempt.t :=
  sort_by_attempt_count_desc
    (filter (λ row, 5 < AuthAttempt.attempt_count row) df3_unauth).

(** "Recent Attack Logs" *)
Definition recent_attacks (df4_requests : list RequestLog.t)
    : list RequestLog.t :=
  tail 10
    (filter (λ row, RequestLog.request_type row ∈ ["blank"; "dos_attack"])
       df4_requests).

(** [df5_services['status'].value_counts()] *)
Definition status_counts (df5_services : list ServiceSubscription.t)
    : list (string * Z) :=
  value_counts (ServiceSubscription.status <$> df5_services).

(** "Suspended/Inactive Services"; the page shows [suspended.head(10)]. *)
Definition suspended_or_inactive (df5_services : list ServiceSubscription.t)
    : list ServiceSubscription.t :=
  filter (λ row, ServiceSubscription.status row ∈ ["suspended"; "inactive"])
    df5_services.

(** ** Tab 4: the numbers of the summary report *)

Record summary : Type := mk_summary {
  sum_total_logins : Z;
  sum_successful : Z;
  sum_failed : Z;
  sum_unique_users : Z;
  sum_total_sessions : Z;
  sum_average_duration : option Q;
  sum_suspicious_short : Z;
  sum_suspicious_long : Z;
  sum_total_attempts : Z;
  sum_authenticated : Z;
  sum_unauthenticated : Z;
  sum_total_requests : Z;
  sum_normal : Z;
  sum_blank_requests : Z;
  sum_dos_attacks : Z;
  sum_total_subscriptions : Z;
  sum_active : Z;
  sum_suspended : Z;
  sum_fraud_score : Q;
  sum_risk_level : string
}.

(** The values interpolated into the report text; [fraud_score] and
    [risk_level] are the variables tab 1 has set. *)
Definition summary_report (fraud_score : Q) (risk_level : string)
    (df1_login : list LoginEvent.t) (df2_duration : list SessionRecord.t)
    (df3_unauth : list AuthAttempt.t) (df4_requests : list RequestLog.t)
    (df5_services : list ServiceSubscription.t) : summary :=
  {|
    sum_total_logins := len df1_login;
    sum_successful :=
      len (filter (λ row, LoginEvent.login_status row = "success") df1_login);
    sum_failed :=
      len (filter (λ row, LoginEvent.login_status row = "failed") df1_login);
    sum_unique_users := nunique (LoginEvent.user_id <$> df1_login);
    sum_total_sessions := len df2_duration;
    sum_average_duration :=
      mean (SessionRecord.duration_minutes <$> df2_duration);
    sum_suspicious_short :=
      len (filter (λ row, SessionRecord.duration_minutes row < 3)
             df2_duration);
    sum_suspicious_long :=
      len (filter (λ row, 180 < SessionRecord.duration_minutes row)
             df2_duration);
    sum_total_attempts := len df3_unauth;
    sum_authenticated :=
      len (filter (λ row, AuthAttempt.auth_status row = "authenticated")
             df3_unauth);
    sum_unauthenticated :=
      len (filter (λ row, AuthAttempt.auth_status row = "unauthenticated")
             df3_unauth);
    sum_total_requests := len df4_requests;
    sum_normal :=
      len (filter (λ row, RequestLog.request_type row = "normal")
             df4_requests);
    sum_blank_requests :=
      len (filter (λ row, RequestLog.request_type row = "blank")
             df4_requests);
    sum_dos_attacks :=
      len (filter (λ row, RequestLog.request_type row = "dos_attack")
             df4_requests);
    sum_total_subscriptions := len df5_services;
    sum_active :=
      len (filter (λ row, ServiceSubscription.status row = "active")
             df5_services);
    sum_suspended :=
      len (filter (λ row, ServiceSubscription.status row = "suspended")
             df5_services);
    sum_fraud_score := fraud_score;
    sum_risk_level := risk_level
  |}.

(** ** [main]: loading the data and showing the dashboard *)

Inductive data_source : Set :=
  | UploadCsvFiles
  | GenerateSyntheticData.

(** Five tables, as [generate_synthetic_data] returns them. *)
Record dataset : Set := mk_dataset {
  ds_login : list LoginEvent.t;
  ds_duration : list SessionRecord.t;
  ds_unauth : list AuthAttempt.t;
  ds_requests : list RequestLog.t;
  ds_services : list ServiceSubscription.t
}.

(** The five [st.file_uploader] widgets: [None] while no file is chosen,
    otherwise the table [pd.read_csv] makes of the file.  Parsing itself is
    not modelled. *)
Record uploads : Set := mk_uploads {
  uploaded_login : option (list LoginEvent.t);
  uploaded_duration : option (list SessionRecord.t);
  uploaded_unauth : option (list AuthAttempt.t);
  uploaded_request : option (list RequestLog.t);
  uploaded_service : option (list ServiceSubscription.t)
}.

(** [all([uploaded_login, ..., uploaded_service])] and the five
    [pd.read_csv] that follow. *)
Definition read_uploads (up : uploads) : option dataset :=
  l ← uploaded_login up ;
  d ← uploaded_duration up ;
  u ← uploaded_unauth up ;
  r ← uploaded_request up ;
  s ← uploaded_service up ;
  Some (mk_dataset l d u r s).

(** What one run of the script leaves on the page. *)
Inductive page : Type :=
  | UploadError
  | WelcomeScreen
  | Dashboard (score : Q * string) (report : anomaly_report).

(** The session state of a fresh session: no key is set, so
    [st.session_state.get('data_loaded', False)] is [False]. *)
Definition fresh_session : session_state :=
  mk_session_state [] [] [] [] [] false.

(** One run of [main].  [synthetic] is what the cached
    [generate_synthetic_data] returns.  A click on the button loads and
    stores the data, or, with a file missing, reports the error and
    returns; then the dashboard is shown if data is loaded and the welcome
    screen otherwise. *)
Definition main (analyze_button : bool) (source : data_source)
    (up : uploads) (synthetic : dataset) : app page :=
  loaded ←
    (if analyze_button then
       match source with
       | UploadCsvFiles =>
           match read_uploads up with
           | Some ds =>
               _ ← store_tables (ds_login ds) (ds_duration ds) (ds_unauth ds)
                     (ds_requests ds) (ds_services ds) ;
               mret true
           | None => mret false
           end
       | GenerateSyntheticData =>
           _ ← store_tables (ds_login synthetic) (ds_duration synthetic)
                 (ds_unauth synthetic) (ds_requests synthetic)
                 (ds_services synthetic) ;
           mret true
       end
     else mret true) ;
  if loaded : bool then
    shown ← analysis_pass ;
    mret (match shown with
          | Some (score, report) => Dashboard score report
          | None => WelcomeScreen
          end)
  else mret UploadError.

(** ** Random numbers

    [generate_synthetic_data] draws from Python's [random] and from
    [numpy.random].  Each generator is modelled as a stream of raw integers
    that is read front to back; a library call turns the next raw integer
    into a value of its range.  Nothing is assumed about the streams, so a
    statement about all streams covers every outcome the calls can have,
    the one of seed 42 included. *)

Record rng : Type := mk_rng {
  py_stream : nat → Z;
  py_pos : nat;
  np_stream : nat → Z;
  np_pos : nat
}.

Definition gen (A : Type) : Type := rng → A * rng.

#[global] Instance gen_ret : MRet gen := λ A a g, (a, g).

#[global] Instance gen_bind : MBind gen := λ A B k m g,
  let '(a, g') := m g in k a g'.

(** The next raw integer of Python's generator, and of numpy's. *)
Definition py_draw : gen Z := λ g,
  (py_stream g (py_pos g),
   mk_rng (py_stream g) (S (py_pos g)) (np_stream g) (np_pos g)).

Definition np_draw : gen Z := λ g,
  (np_stream g (np_pos g),
   mk_rng (py_stream g) (py_pos g) (np_stream g) (S (np_pos g))).

(** [random.random()]: a multiple of 2^-53 in [0, 1). *)
Definition random_random : gen Q :=
  k ← py_draw ;
  mret (inject_Z (k `mod` 2 ^ 53) / inject_Z (2 ^ 53))%Q.

(** [random.randint(a, b)]: an integer between [a] and [b], both
    included. *)
Definition random_randint (a b : Z) : gen Z :=
  k ← py_draw ;
  mret (a + k `mod` (b - a + 1)).

(** [random.choice(seq)] on a non-empty sequence. *)
Definition random_choice {A : Type} `{Inhabited A} (seq : list A) : gen A :=
  k ← py_draw ;
  mret (seq !!! Z.to_nat (k `mod` len seq)).

(** [np.random.choice(a, p=...)] with every probability positive: any
    element of [a]. *)
Definition np_random_choice {A : Type} `{Inhabited A} (a : list A) : gen A :=
  k ← np_draw ;
  mret (a !!! Z.to_nat (k `mod` len a)).

(** [[body for _ in range(n)]] *)
Fixpoint gen_for {A : Type} (n : nat) (body : gen A) : gen (list A) :=
  match n with
  | O => mret []
  | S n => x ← body ; xs ← gen_for n body ; mret (x :: xs)
  end.

(** A [for] loop that appends one row per element of [xs]. *)
Fixpoint gen_for_each {A B : Type} (xs : list A) (body : A → gen B)
    : gen (list B) :=
  match xs with
  | [] => mret []
  | x :: xs => y ← body x ; ys ← gen_for_each xs body ; mret (y :: ys)
  end.

(** [g] can only produce values that satisfy [P]. *)
Definition gen_all {A : Type} (g : gen A) (P : A → Prop) : Prop :=
  ∀ r : rng, P (g r).1.

(** ** [generate_synthetic_data] and its helpers *)

(** [s.zfill(width)] for a string of digits. *)
Fixpoint zeros (n : nat) : string :=
  match n with
  | O => ""
  | S n => "0" +:+ zeros n
  end.

Definition zfill (width : nat) (s : string) : string :=
  zeros (width - String.length s) +:+ s.

(** [[f"USR{str(i).zfill(4)}" for i in range(1, 301)]] and
    [[f"SUS{str(i).zfill(4)}" for i in range(1, 51)]] *)
Definition user_ids : list string :=
  (λ i : nat, "USR" +:+ zfill 4 (pretty i)) <$> seq 1 300.

Definition suspicious_users : list string :=
  (λ i : nat, "SUS" +:+ zfill 4 (pretty i)) <$> seq 1 50.

Definition browsers : list string :=
  ["Chrome"; "Firefox"; "Safari"; "Edge"; "Opera"; "Mobile_App"].

Definition failure_reasons : list string :=
  ["Invalid_Credentials"; "Expired_Token"; "Missing_Auth_Header";
   "Brute_Force_Detected"; "Account_Locked"; "Invalid_OTP"].

Definition services : list string :=
  ["UPI_Transfer"; "Bill_Payment"; "Mobile_Recharge"; "DTH_Recharge";
   "Money_Request"; "QR_Payment"; "Merchant_Payment";
   "International_Transfer"].

Definition plans : list string := ["Basic"; "Premium"; "Gold"; "Enterprise"].

(** [df.sort_values(col)] on a text column, ascending; rows with equal
    text come in the order of [merge_sort]. *)
Definition column_le {A : Type} (col : A → string) (a b : A) : Prop :=
  string_le (col a) (col b).

#[global] Instance column_le_dec {A : Type} (col : A → string) :
  RelDecision (column_le col).
Proof. intros a b. unfold column_le. apply _. Defined.

Definition sort_by_column {A : Type} (col : A → string) (df : list A)
    : list A :=
  merge_sort (column_le col) df.

(** [generate_ip] *)
Definition generate_ip : gen string :=
  a ← random_randint 1 255 ;
  b ← random_randint 0 255 ;
  c ← random_randint 0 255 ;
  d ← random_randint 1 255 ;
  mret (pretty a +:+ "." +:+ pretty b +:+ "." +:+ pretty c +:+ "."
        +:+ pretty d).

Section synthetic.

(** A [datetime] is the number of seconds from [base_date],
    2026-02-01 00:00:00, and [strftime fmt t] is the text of the datetime
    [t] in the format [fmt].  Calendar arithmetic and formatting belong to
    Python's library and are not modelled. *)
Variable strftime : string → Z → string.

Definition base_date : Z := 0.

(** [generate_timestamps]; [hours_range] has the default 24 at every
    call. *)
Definition generate_timestamps (n : nat) (base_date : Z) (hours_range : Z)
    : gen (list string) :=
  gen_for n
    (random_seconds ← random_randint 0 (hours_range * 3600) ;
     let timestamp := base_date + random_seconds in
     mret (strftime "%Y-%m-%d %H:%M:%S" timestamp)).

(** One pass of the loop of FILE 1. *)
Definition login_loop_body (normal_ips suspicious_ips : list string)
    (timestamp : string) : gen LoginEvent.t :=
  x ← random_random ;
  '(user_id, ip_address, login_status) ←
    (if Qltb x 0.85 then
       u ← random_choice user_ids ;
       i ← random_choice normal_ips ;
       s ← np_random_choice ["success"; "failed"] ;
       mret (u, i, s)
     else
       u ← random_choice suspicious_users ;
       i ← random_choice suspicious_ips ;
       s ← np_random_choice ["success"; "failed"] ;
       mret (u, i, s)) ;
  browser ← random_choice browsers ;
  mret (LoginEvent.mk timestamp user_id ip_address login_status browser).

(** One pass of the loop of FILE 2; [i] runs over [range(1, 501)] for the
    session id. *)
Definition session_loop_body (i : nat) : gen SessionRecord.t :=
  s ← random_randint 0 (24 * 3600) ;
  let start := base_date + s in
  x ← random_random ;
  '(duration_min, user_id) ←
    (if Qltb x 0.80 then
       d ← random_randint 5 60 ;
       u ← random_choice user_ids ;
       mret (d, u)
     else
       y ← random_random ;
       d ← (if Qltb y 0.5 then random_randint 1 3
            else random_randint 180 480) ;
       u ← random_choice suspicious_users ;
       mret (d, u)) ;
  let end_ := start + duration_min * 60 in
  mret (SessionRecord.mk ("SES" +:+ zfill 5 (pretty i)) user_id
          (strftime "%Y-%m-%d %H:%M:%S" start)
          (strftime "%Y-%m-%d %H:%M:%S" end_) duration_min).

(** One pass of the loop of FILE 3. *)
Definition unauth_loop_body (normal_ips suspicious_ips : list string)
    (timestamp : string) : gen AuthAttempt.t :=
  x ← random_random ;
  if Qltb x 0.70 then
    i ← random_choice normal_ips ;
    mret (AuthAttempt.mk timestamp i "authenticated" 1 "None")
  else
    i ← random_choice suspicious_ips ;
    n ← random_randint 1 15 ;
    r ← random_choice failure_reasons ;
    mret (AuthAttempt.mk timestamp i "unauthenticated" n r).

(** One pass of the loop of FILE 4. *)
Definition request_loop_body (normal_ips suspicious_ips : list string)
    (timestamp : string) : gen RequestLog.t :=
  rand ← random_random ;
  if Qltb rand 0.75 then
    i ← random_choice normal_ips ;
    p ← random_randint 100 5000 ;
    c ← np_random_choice [200; 400] ;
    mret (RequestLog.mk timestamp i "normal" p c)
  else if Qltb rand 0.90 then
    i ← random_choice suspicious_ips ;
    p ← random_randint 0 50 ;
    c ← np_random_choice [400; 403] ;
    mret (RequestLog.mk timestamp i "blank" p c)
  else
    i ← random_choice suspicious_ips ;
    p ← random_randint 10000 50000 ;
    c ← np_random_choice [429; 503] ;
    mret (RequestLog.mk timestamp i "dos_attack" p c).

(** One pass of the loop of FILE 5. *)
Definition service_loop_body : gen ServiceSubscription.t :=
  x ← random_random ;
  '(user_id, status) ←
    (if Qltb x 0.85 then
       u ← random_choice user_ids ;
       s ← np_random_choice ["active"; "inactive"] ;
       mret (u, s)
     else
       u ← random_choice suspicious_users ;
       s ← np_random_choice ["active"; "inactive"; "suspended"; "pending"] ;
       mret (u, s)) ;
  service_name ← random_choice services ;
  days ← random_randint 0 180 ;
  let sub_date := base_date - days * 86400 in
  plan_type ← random_choice plans ;
  mret (ServiceSubscription.mk user_id service_name
          (strftime "%Y-%m-%d" sub_date) status plan_type).

(** The whole function, without the two [seed] calls: the streams stand
    for the seeded generators. *)
Definition generate_synthetic_data : gen dataset :=
  normal_ips ← gen_for 200 generate_ip ;
  suspicious_ips ← gen_for 30 generate_ip ;
  login_ts ← generate_timestamps 500 base_date 24 ;
  login_rows ← gen_for_each login_ts
                  (login_loop_body normal_ips suspicious_ips) ;
  let df1_login := sort_by_column LoginEvent.timestamp login_rows in
  session_rows ← gen_for_each (seq 1 500) session_loop_body ;
  let df2_duration := sort_by_column SessionRecord.start_time session_rows in
  unauth_ts ← generate_timestamps 500 base_date 24 ;
  unauth_rows ← gen_for_each unauth_ts
                   (unauth_loop_body normal_ips suspicious_ips) ;
  let df3_unauth := sort_by_column AuthAttempt.timestamp unauth_rows in
  request_ts ← generate_timestamps 500 base_date 24 ;
  request_rows ← gen_for_each request_ts
                    (request_loop_body normal_ips suspicious_ips) ;
  let df4_requests := sort_by_column RequestLog.timestamp request_rows in
  service_rows ← gen_for 500 service_loop_body ;
  let df5_services :=
    sort_by_column ServiceSubscription.subscription_date service_rows in
  mret (mk_dataset df1_login df2_duration df3_unauth df4_requests
          df5_services).

End synthetic.

(** What the branches of the five loops allow a generated row to be. *)
Definition synthetic_login (row : LoginEvent.t) : Prop :=
  (LoginEvent.user_id row ∈ user_ids
   ∨ LoginEvent.user_id row ∈ suspicious_users)
  ∧ LoginEvent.login_status row ∈ ["success"; "failed"]
  ∧ LoginEvent.browser row ∈ browsers.

Definition synthetic_session (row : SessionRecord.t) : Prop :=
  (SessionRecord.user_id row ∈ user_ids
   ∧ 5 ≤ SessionRecord.duration_minutes row ≤ 60)
  ∨ (SessionRecord.user_id row ∈ suspicious_users
     ∧ (1 ≤ SessionRecord.duration_minutes row ≤ 3
        ∨ 180 ≤ SessionRecord.duration_minutes row ≤ 480)).

Definition synthetic_auth (row : AuthAttempt.t) : Prop :=
  (AuthAttempt.auth_status row = "authenticated"
   ∧ AuthAttempt.attempt_count row = 1
   ∧ AuthAttempt.failure_reason row = "None")
  ∨ (AuthAttempt.auth_status row = "unauthenticated"
     ∧ 1 ≤ AuthAttempt.attempt_count row ≤ 15
     ∧ AuthAttempt.failure_reason row ∈ failure_reasons).

Definition synthetic_request (row : RequestLog.t) : Prop :=
  (RequestLog.request_type row = "normal"
   ∧ 100 ≤ RequestLog.payload_size row ≤ 5000
   ∧ RequestLog.status_code row ∈ [200; 400])
  ∨ (RequestLog.request_type row = "blank"
     ∧ 0 ≤ RequestLog.payload_size row ≤ 50
     ∧ RequestLog.status_code row ∈ [400; 403])
  ∨ (RequestLog.request_type row = "dos_attack"
     ∧ 10000 ≤ RequestLog.payload_size row ≤ 50000
     ∧ RequestLog.status_code row ∈ [429; 503]).

Definition synthetic_service (row : ServiceSubscription.t) : Prop :=
  ((ServiceSubscription.user_id row ∈ user_ids
    ∧ ServiceSubscription.status row ∈ ["active"; "inactive"])
   ∨ (ServiceSubscription.user_id row ∈ suspicious_users
      ∧ ServiceSubscription.status row
        ∈ ["active"; "inactive"; "suspended"; "pending"]))
  ∧ ServiceSubscription.service_name row ∈ services
  ∧ ServiceSubscription.plan_type row ∈ plans.

(** Five tables of 500 rows each, every row as its loop allows. *)
Definition synthetic_dataset (ds : dataset) : Prop :=
  (length (ds_login ds) = 500%nat ∧ Forall synthetic_login (ds_login ds))
  ∧ (length (ds_duration ds) = 500%nat
     ∧ Forall synthetic_session (ds_duration ds))
  ∧ (length (ds_unauth ds) = 500%nat ∧ Forall synthetic_auth (ds_unauth ds))
  ∧ (length (ds_requests ds) = 500%nat
     ∧ Forall synthetic_request (ds_requests ds))
  ∧ (length (ds_services ds) = 500%nat
     ∧ Forall synthetic_service (ds_services ds)).

(** ** Python floats: binary64 arithmetic

    A Python [float] is a binary64 number, and every operation on floats
    returns the exact result rounded to the nearest binary64 number, ties
    going to the one with an even significand.  A finite float is a
    rational, so the floats of the program are values of [Q] here, and
    [round64] is the rounding.  The exponent range of binary64 is not
    modelled: the quotients, products and sums of
    [create_fraud_score_gauge] are 0 or lie between 1 / len(df) and 100, far
    from overflow and from the subnormal numbers for any table that fits in
    memory. *)

(** The integer nearest to [x], the even one of the two when [x] lies
    halfway. *)
Definition round_half_even (x : Q) : Z :=
  let f := Qfloor x in
  match (x - inject_Z f ?= 1 # 2)%Q with
  | Lt => f
  | Eq => if Z.even f then f else f + 1
  | Gt => f + 1
  end.

(** The exponent [e] with 2^e <= x < 2^(e+1), for a positive [x]. *)
Definition binade (x : Q) : Z :=
  let e := Z.log2 (Qnum x) - Z.log2 (Z.pos (Qden x)) in
  if Qle_bool (2 ^ e) x then e else e - 1.

(** A positive [x] rounded to 53 significant bits: the nearest multiple of
    2^(e-52), where [e] is the binade of [x]. *)
Definition round53 (x : Q) : Q :=
  let ulp := (2 ^ (binade x - 52))%Q in
  (inject_Z (round_half_even (x / ulp)) * ulp)%Q.

Definition round64 (x : Q) : Q :=
  Qred match Qnum x with
       | Z0 => 0
       | Z.pos _ => round53 x
       | Z.neg _ => - round53 (- x)
       end%Q.

(** [approx] lies between [exact * lo] and [exact * hi]. *)
Definition within (lo hi approx exact : Q) : Prop :=
  (exact * lo <= approx)%Q ∧ (approx <= exact * hi)%Q.

(** [create_fraud_score_gauge] as Python runs it.  The literals [0.3] and
    [0.4] are the binary64 numbers nearest to them; [100] is exact; [/] on
    two ints returns their quotient correctly rounded. *)
Module pyfloat.

(** [a / b] on two ints *)
Definition truediv (a b : Z) : result Q :=
  if decide (b = 0) then Raise ZeroDivisionError
  else Ok (round64 (inject_Z a / inject_Z b)).

(** [x * y] and [x + y] on two floats *)
Definition mul (x y : Q) : Q := round64 (x * y).

Definition add (x y : Q) : Q := round64 (x + y).

(** [len(login_df[login_df['login_status']=='failed']) / len(login_df) * 100] *)
Definition failed_login_rate (login_df : list LoginEvent.t) : result Q :=
  r ← truediv
        (len (filter (λ row, LoginEvent.login_status row = "failed") login_df))
        (len login_df) ;
  Ok (mul r 100).

(** [len(unauth_df[unauth_df['auth_status']=='unauthenticated']) / len(unauth_df) * 100] *)
Definition unauth_rate (unauth_df : list AuthAttempt.t) : result Q :=
  r ← truediv
        (len (filter (λ row, AuthAttempt.auth_status row = "unauthenticated")
                unauth_df))
        (len unauth_df) ;
  Ok (mul r 100).

(** [len(request_df[request_df['request_type'].isin(['blank', 'dos_attack'])]) / len(request_df) * 100] *)
Definition attack_rate (request_df : list RequestLog.t) : result Q :=
  r ← truediv
        (len (filter
                (λ row, RequestLog.request_type row ∈ ["blank"; "dos_attack"])
                request_df))
        (len request_df) ;
  Ok (mul r 100).

(** [(failed_login_rate * 0.3 + unauth_rate * 0.4 + attack_rate * 0.3)],
    the sum taken from left to right. *)
Definition fraud_score (failed_login_rate unauth_rate attack_rate : Q) : Q :=
  add (add (mul failed_login_rate (round64 0.3))
           (mul unauth_rate (round64 0.4)))
      (mul attack_rate (round64 0.3)).

(** The comparisons of the [if]/[elif] chain are exact on floats, so
    [risk_level] is the one above. *)
Definition create_fraud_score_gauge
    (login_df : list LoginEvent.t) (unauth_df : list AuthAttempt.t)
    (request_df : list RequestLog.t) : result (Q * string) :=
  failed_login_rate ← failed_login_rate login_df ;
  unauth_rate ← unauth_rate unauth_df ;
  attack_rate ← attack_rate request_df ;
  let fraud_score := fraud_score failed_login_rate unauth_rate attack_rate in
  Ok (fraud_score, risk_level fraud_score).

End pyfloat.

(** One of three logins failed, one of eight attempts unauthenticated, no
    attack: in exact arithmetic the score is 15. *)
Definition inexact_logins : list LoginEvent.t :=
  [login_row "10.0.0.1" "failed"; login_row "10.0.0.2" "success";
   login_row "10.0.0.2" "success"].

Definition inexact_attempts : list AuthAttempt.t :=
  auth_row "unauthenticated" 3 :: replicate 7 (auth_row "authenticated" 1).

Definition inexact_requests : list RequestLog.t :=
  [request_row "10.0.0.2" "normal"].

(** The same arithmetic on the binary64 numbers of the machine, to compare
    [round64] with.  Counts are converted to floats before the division,
    which gives the correctly rounded quotient as long as they are below
    2^53. *)
Definition float_to_Q (f : PrimFloat.float) : option Q :=
  match FloatOps.Prim2SF f with
  | SpecFloat.S754_zero _ => Some 0%Q
  | SpecFloat.S754_finite s m e =>
      Some (Qred ((if s then -1 else 1) * inject_Z (Z.pos m) * 2 ^ e)%Q)
  | _ => None
  end.

(** The float [f] is the rational [q]. *)
Definition float_is (f : PrimFloat.float) (q : Q) : bool :=
  match float_to_Q f with
  | Some q' => Qeq_bool q' q
  | None => false
  end.

Module machine.
Import PrimFloat.
#[local] Set Warnings "-inexact-float".

Definition of_int (n : Z) : float := of_uint63 (Uint63.of_Z n).

Definition percentage (part whole : Z) : float :=
  (of_int part / of_int whole * 100)%float.

Definition fraud_score (failed_login_rate unauth_rate attack_rate : float)
    : float :=
  (failed_login_rate * 0.3 + unauth_rate * 0.4 + attack_rate * 0.3)%float.

(** The pairs [(part, whole)] with [0 <= part <= whole] and
    [1 <= whole <= n]. *)
Definition fractions (n : nat) : list (Z * Z) :=
  whole ← seq 1 n ; part ← seq 0 (S whole) ;
  [(Z.of_nat part, Z.of_nat whole)].

End machine.

(** ** The tables as shared objects

    In Python the five tables are objects: the session state, the local
    variables of [main] and the arguments of the functions it calls all
    refer to the same five [DataFrame]s, and pandas has operations that
    change a frame where it stands ([df[name] = ...], which
    [create_login_trend_chart] uses) beside those that build a new object.
    Here the objects live in a heap, a variable holds a reference, and
    every pandas call is written out as loads, allocations and stores. *)

(** A cell of a table: text, a number, a truth value or a datetime (in
    seconds from 2026-02-01 00:00:00). *)
Inductive value : Set :=
  | VStr (s : string)
  | VInt (n : Z)
  | VBool (b : bool)
  | VTime (t : Z).

#[global] Instance value_eq_dec : EqDecision value.
Proof. solve_decision. Defined.

(** The pandas objects of the program: a frame with its columns in
    order, a column or a mask, and the sizes of the groups of a
    [groupby], which are indexed by the group keys. *)
Inductive object : Set :=
  | DataFrame (columns : list (string * list value))
  | Series (data : list value)
  | SizeSeries (names : list string) (sizes : list (list value * Z)).

(** A reference is the position of an object in the heap; objects are
    never freed. *)
Definition ref : Set := nat.

Definition heap : Set := list object.

(** What ends a call early: [ZeroDivisionError], a column that is not
    there, an operation on the wrong kind of object or cell, operands of
    different lengths. *)
Inductive fault : Set :=
  | Exception (e : exn)
  | KeyError (key : string)
  | TypeError
  | ValueError.

Inductive outcome (A : Type) : Type :=
  | Returns (a : A)
  | Fails (f : fault).

Arguments Returns {A} a.
Arguments Fails {A} f.

(** Code that runs against the heap. *)
Definition py (A : Type) : Type := heap → outcome A * heap.

#[global] Instance py_ret : MRet py := λ A a h, (Returns a, h).

#[global] Instance py_bind : MBind py := λ A B k m h,
  match m h with
  | (Returns a, h') => k a h'
  | (Fails f, h') => (Fails f, h')
  end.

Definition fail {A : Type} (f : fault) : py A := λ h, (Fails f, h).

(** The object a reference points to. *)
Definition load (r : ref) : py object := λ h,
  match h !! r with
  | Some o => (Returns o, h)
  | None => (Fails TypeError, h)
  end.

(** A new object, at a reference not used so far. *)
Definition alloc (o : object) : py ref := λ h, (Returns (length h), h ++ [o]).

(** The object at [r] is replaced: every holder of [r] sees the change. *)
Definition store (r : ref) (o : object) : py unit := λ h,
  if decide (r < length h)%nat then (Returns (), <[r := o]> h)
  else (Fails TypeError, h).

(** Arithmetic that may raise, run inside [py]. *)
Definition lift {A : Type} (r : result A) : py A :=
  match r with
  | Ok a => mret a
  | Raise e => fail (Exception e)
  end.

(** *** pandas on objects

    An object of the wrong kind for a call cannot arise in the program,
    where each variable holds one kind of object; the model ends such a
    call with [TypeError]. *)

Module pandas.

(** The column called [name]. *)
Fixpoint column (name : string) (columns : list (string * list value))
    : option (list value) :=
  match columns with
  | [] => None
  | (n, data) :: columns =>
      if decide (n = name) then Some data else column name columns
  end.

(** The number of rows of a frame. *)
Definition nrows (columns : list (string * list value)) : nat :=
  match columns with
  | [] => 0
  | (_, data) :: _ => length data
  end.

(** [df[name]] *)
Definition getitem (df : ref) (name : string) : py ref :=
  o ← load df ;
  match o with
  | DataFrame columns =>
      match column name columns with
      | Some data => alloc (Series data)
      | None => fail (KeyError name)
      end
  | _ => fail TypeError
  end.

(** The values a comparison runs over: the data of a column, the sizes of
    a size series. *)
Definition values (o : object) : option (list value) :=
  match o with
  | Series data => Some data
  | SizeSeries _ sizes => Some (VInt ∘ snd <$> sizes)
  | DataFrame _ => None
  end.

(** An elementwise operation on a series; the result is a new series. *)
Definition series_map (f : value → option value) (s : ref) : py ref :=
  o ← load s ;
  match values o ≫= mapM f with
  | Some data => alloc (Series data)
  | None => fail TypeError
  end.

(** [s == v] and [s.isin(vs)] *)
Definition series_eq (s : ref) (v : value) : py ref :=
  series_map (λ x, Some (VBool (bool_decide (x = v)))) s.

Definition series_isin (s : ref) (vs : list value) : py ref :=
  series_map (λ x, Some (VBool (bool_decide (x ∈ vs)))) s.

(** Python compares a [bool] with a number as 0 or 1. *)
Definition as_int (v : value) : option Z :=
  match v with
  | VInt n => Some n
  | VBool b => Some (if b then 1 else 0)
  | _ => None
  end.

(** [s < n] and [s > n] *)
Definition series_lt (s : ref) (n : Z) : py ref :=
  series_map (λ x, k ← as_int x ; Some (VBool (bool_decide (k < n)))) s.

Definition series_gt (s : ref) (n : Z) : py ref :=
  series_map (λ x, k ← as_int x ; Some (VBool (bool_decide (n < k)))) s.

Definition as_bool (v : value) : option bool :=
  match v with
  | VBool b => Some b
  | _ => None
  end.

(** [a | b] and [a & b] on two boolean series *)
Definition series_zip (f : bool → bool → bool) (a b : ref) : py ref :=
  x ← load a ;
  y ← load b ;
  match values x ≫= mapM as_bool, values y ≫= mapM as_bool with
  | Some xs, Some ys =>
      if decide (length xs = length ys)
      then alloc (Series (VBool <$> zip_with f xs ys))
      else fail ValueError
  | _, _ => fail TypeError
  end.

Definition series_or : ref → ref → py ref := series_zip orb.
Definition series_and : ref → ref → py ref := series_zip andb.

(** The elements at which the mask is true. *)
Fixpoint mask_filter {A : Type} (mask : list bool) (l : list A) : list A :=
  match mask, l with
  | b :: mask, x :: l => if b then x :: mask_filter mask l else mask_filter mask l
  | _, _ => []
  end.

(** [obj[mask]]: the rows, or entries, at which the mask is true, as a new
    object. *)
Definition getitem_mask (obj mask : ref) : py ref :=
  o ← load obj ;
  m ← load mask ;
  match values m ≫= mapM as_bool with
  | Some bs =>
      match o with
      | DataFrame columns =>
          if decide (length bs = nrows columns)
          then alloc (DataFrame ((λ c, (c.1, mask_filter bs c.2)) <$> columns))
          else fail ValueError
      | Series data =>
          if decide (length bs = length data)
          then alloc (Series (mask_filter bs data))
          else fail ValueError
      | SizeSeries names sizes =>
          if decide (length bs = length sizes)
          then alloc (SizeSeries names (mask_filter bs sizes))
          else fail ValueError
      end
  | None => fail TypeError
  end.

(** [len(obj)] *)
Definition len_ (obj : ref) : py Z :=
  o ← load obj ;
  mret (Z.of_nat match o with
                 | DataFrame columns => nrows columns
                 | Series data => length data
                 | SizeSeries _ sizes => length sizes
                 end).

(** The key of each row: its values in the key columns. *)
Fixpoint key_rows (n : nat) (key_columns : list (list value))
    : list (list value) :=
  match key_columns with
  | [] => replicate n []
  | c :: key_columns => zip_with cons c (key_rows n key_columns)
  end.

(** The order of group keys: numbers by size, text by code point, keys of
    several columns column by column.  Cells of different kinds do not
    meet in one column of the tables of the program; they are ordered by
    kind. *)
Definition value_leb (a b : value) : bool :=
  match a, b with
  | VBool x, VBool y => implb x y
  | VBool _, _ => true
  | VInt _, VBool _ => false
  | VInt x, VInt y => bool_decide (x ≤ y)
  | VInt _, _ => true
  | VTime _, (VBool _ | VInt _) => false
  | VTime x, VTime y => bool_decide (x ≤ y)
  | VTime _, VStr _ => true
  | VStr x, VStr y => String.leb x y
  | VStr _, _ => false
  end.

Fixpoint key_leb (a b : list value) : bool :=
  match a, b with
  | [], _ => true
  | _ :: _, [] => false
  | x :: a, y :: b =>
      if decide (x = y) then key_leb a b else value_leb x y
  end.

Definition key_le (a b : list value) : Prop := key_leb a b = true.

#[global] Instance key_le_dec : RelDecision key_le.
Proof. intros a b. unfold key_le. apply _. Defined.

(** Larger counts first. *)
Definition count_ge {K : Type} (a b : K * Z) : Prop := b.2 ≤ a.2.

#[global] Instance count_ge_dec {K : Type} : RelDecision (@count_ge K).
Proof. intros a b. unfold count_ge. apply _. Defined.

(** The distinct keys, in order of first appearance. *)
Fixpoint unique_keys (keys : list (list value)) : list (list value) :=
  match keys with
  | [] => []
  | k :: keys => k :: filter (λ x, x ≠ k) (unique_keys keys)
  end.

(** The columns called [names], or the first name that is no column. *)
Fixpoint key_columns (names : list string)
    (columns : list (string * list value)) : string + list (list value) :=
  match names with
  | [] => inr []
  | n :: names =>
      match column n columns with
      | None => inl n
      | Some c =>
          match key_columns names columns with
          | inl missing => inl missing
          | inr cs => inr (c :: cs)
          end
      end
  end.

(** One entry per distinct key with the number of rows that carry it, keys
    in ascending order ([sort=True] is the default). *)
Definition group_sizes (keys : list (list value)) : list (list value * Z) :=
  (λ k, (k, len (filter (λ x, x = k) keys)))
    <$> merge_sort key_le (unique_keys keys).

(** [df.groupby(names).size()]: one entry per distinct key, keys in
    ascending order. *)
Definition groupby_size (df : ref) (names : list string) : py ref :=
  o ← load df ;
  match o with
  | DataFrame columns =>
      match key_columns names columns with
      | inr cs => alloc (SizeSeries names (group_sizes (key_rows (nrows columns) cs)))
      | inl missing => fail (KeyError missing)
      end
  | _ => fail TypeError
  end.

(** [s.sort_values(ascending=False)] on a size series; entries of equal
    size come in the order of [merge_sort]. *)
Definition sort_values_descending (s : ref) : py ref :=
  o ← load s ;
  match o with
  | SizeSeries names sizes => alloc (SizeSeries names (merge_sort count_ge sizes))
  | _ => fail TypeError
  end.

(** [obj.head(n)] *)
Definition head (obj : ref) (n : nat) : py ref :=
  o ← load obj ;
  alloc match o with
        | DataFrame columns => DataFrame ((λ c, (c.1, take n c.2)) <$> columns)
        | Series data => Series (take n data)
        | SizeSeries names sizes => SizeSeries names (take n sizes)
        end.

(** [s.reset_index(name=name)]: the keys become columns, the sizes the
    column [name]; without [name] that column is called 0. *)
Definition reset_index (s : ref) (name : string) : py ref :=
  o ← load s ;
  match o with
  | SizeSeries names sizes =>
      alloc (DataFrame
               (imap (λ i n, (n, (λ e, default (VInt 0) (e.1 !! i)) <$> sizes))
                     names
                ++ [(name, VInt ∘ snd <$> sizes)]))
  | _ => fail TypeError
  end.

(** [df.rename(columns={old: new})] *)
Definition rename (df : ref) (old new : string) : py ref :=
  o ← load df ;
  match o with
  | DataFrame columns =>
      alloc (DataFrame
               ((λ c, (if decide (c.1 = old) then new else c.1, c.2))
                  <$> columns))
  | _ => fail TypeError
  end.

(** [df.copy()] *)
Definition copy (df : ref) : py ref :=
  o ← load df ;
  alloc o.

(** The columns after [df[name] = data]: an existing column is replaced
    where it stands, a new one is added at the end. *)
Fixpoint assign (name : string) (data : list value)
    (columns : list (string * list value)) : list (string * list value) :=
  match columns with
  | [] => [(name, data)]
  | (n, old) :: columns =>
      if decide (n = name) then (n, data) :: columns
      else (n, old) :: assign name data columns
  end.

(** [df[name] = s]: the frame itself is changed. *)
Definition setitem (df : ref) (name : string) (s : ref) : py unit :=
  o ← load df ;
  d ← load s ;
  match o, d with
  | DataFrame columns, Series data =>
      if decide (columns = [] ∨ length data = nrows columns)
      then store df (DataFrame (assign name data columns))
      else fail ValueError
  | _, _ => fail TypeError
  end.

(** [pd.to_datetime(s)] on a column of text: [parse] reads a timestamp
    as the number of seconds from 2026-02-01 00:00:00, and a text it cannot
    read ends the call. *)
Definition to_datetime (parse : string → option Z) (s : ref) : py ref :=
  o ← load s ;
  match o with
  | Series data =>
      match mapM (λ v, match v with
                       | VStr text => VTime <$> parse text
                       | VTime t => Some (VTime t)
                       | _ => None
                       end) data with
      | Some times => alloc (Series times)
      | None => fail ValueError
      end
  | _ => fail TypeError
  end.

(** [s.dt.hour] on a column of datetimes *)
Definition dt_hour (s : ref) : py ref :=
  o ← load s ;
  match o with
  | Series data =>
      match mapM (λ v, match v with
                       | VTime t => Some (VInt ((t `div` 3600) `mod` 24))
                       | _ => None
                       end) data with
      | Some hours => alloc (Series hours)
      | None => fail TypeError
      end
  | _ => fail TypeError
  end.

End pandas.

(** [st.dataframe(obj)]: the object is read and shown.  The messages of
    [st.warning], [st.error] and [st.success] show counts only and are left
    out. *)
Definition st_dataframe (obj : ref) : py unit :=
  _ ← load obj ;
  mret ().

(** *** The analysis on shared objects *)

Module by_reference.

(** [len(login_df[login_df['login_status']=='failed']) / len(login_df) * 100] *)
Definition failed_login_rate (login_df : ref) : py Q :=
  s ← pandas.getitem login_df "login_status" ;
  m ← pandas.series_eq s (VStr "failed") ;
  failed ← pandas.getitem_mask login_df m ;
  n ← pandas.len_ failed ;
  d ← pandas.len_ login_df ;
  q ← lift (pyfloat.truediv n d) ;
  mret (pyfloat.mul q 100).

(** [len(unauth_df[unauth_df['auth_status']=='unauthenticated']) / len(unauth_df) * 100] *)
Definition unauth_rate (unauth_df : ref) : py Q :=
  s ← pandas.getitem unauth_df "auth_status" ;
  m ← pandas.series_eq s (VStr "unauthenticated") ;
  unauthenticated ← pandas.getitem_mask unauth_df m ;
  n ← pandas.len_ unauthenticated ;
  d ← pandas.len_ unauth_df ;
  q ← lift (pyfloat.truediv n d) ;
  mret (pyfloat.mul q 100).

(** [len(request_df[request_df['request_type'].isin(['blank', 'dos_attack'])]) / len(request_df) * 100] *)
Definition attack_rate (request_df : ref) : py Q :=
  s ← pandas.getitem request_df "request_type" ;
  m ← pandas.series_isin s [VStr "blank"; VStr "dos_attack"] ;
  attacks ← pandas.getitem_mask request_df m ;
  n ← pandas.len_ attacks ;
  d ← pandas.len_ request_df ;
  q ← lift (pyfloat.truediv n d) ;
  mret (pyfloat.mul q 100).

(** The three rates are computed one after the other, on the objects the
    arguments refer to; the figure is left out as before. *)
Definition create_fraud_score_gauge (login_df unauth_df request_df : ref)
    : py (Q * string) :=
  failed_login_rate ← failed_login_rate login_df ;
  unauth_rate ← unauth_rate unauth_df ;
  attack_rate ← attack_rate request_df ;
  let fraud_score :=
    pyfloat.fraud_score failed_login_rate unauth_rate attack_rate in
  mret (fraud_score, risk_level fraud_score).

(** The objects bound to the variables of tab 5. *)
Record anomaly_refs : Set := mk_anomaly_refs {
  critical_ips : ref;
  suspicious_sessions : ref;
  brute_force : ref;
  dos_attacks : ref;
  dos_by_ip : option ref;
  suspended_services : ref
}.

Definition tab5_anomaly_detection
    (df1_login df2_duration df3_unauth df4_requests df5_services : ref)
    : py anomaly_refs :=
  s ← pandas.getitem df1_login "login_status" ;
  m ← pandas.series_eq s (VStr "failed") ;
  failed ← pandas.getitem_mask df1_login m ;
  failed_by_ip ← pandas.groupby_size failed ["ip_address"] ;
  m ← pandas.series_gt failed_by_ip 5 ;
  above ← pandas.getitem_mask failed_by_ip m ;
  critical_ips ← pandas.sort_values_descending above ;
  n ← pandas.len_ critical_ips ;
  _ ← (if decide (0 < n) then
         t ← pandas.reset_index critical_ips "0" ;
         t ← pandas.rename t "0" "Failed Attempts" ;
         st_dataframe t
       else mret ()) ;
  s ← pandas.getitem df2_duration "duration_minutes" ;
  short ← pandas.series_lt s 3 ;
  s ← pandas.getitem df2_duration "duration_minutes" ;
  long ← pandas.series_gt s 180 ;
  m ← pandas.series_or short long ;
  suspicious_sessions ← pandas.getitem_mask df2_duration m ;
  n ← pandas.len_ suspicious_sessions ;
  _ ← (if decide (0 < n) then
         t ← pandas.head suspicious_sessions 10 ;
         st_dataframe t
       else mret ()) ;
  s ← pandas.getitem df3_unauth "auth_status" ;
  unauthenticated ← pandas.series_eq s (VStr "unauthenticated") ;
  s ← pandas.getitem df3_unauth "attempt_count" ;
  many ← pandas.series_gt s 10 ;
  m ← pandas.series_and unauthenticated many ;
  brute_force ← pandas.getitem_mask df3_unauth m ;
  n ← pandas.len_ brute_force ;
  _ ← (if decide (0 < n) then st_dataframe brute_force else mret ()) ;
  s ← pandas.getitem df4_requests "request_type" ;
  m ← pandas.series_eq s (VStr "dos_attack") ;
  dos_attacks ← pandas.getitem_mask df4_requests m ;
  n ← pandas.len_ dos_attacks ;
  dos_by_ip ← (if decide (0 < n) then
                 g ← pandas.groupby_size dos_attacks ["ip_address"] ;
                 sorted ← pandas.sort_values_descending g ;
                 dos_by_ip ← pandas.head sorted 10 ;
                 t ← pandas.reset_index dos_by_ip "0" ;
                 t ← pandas.rename t "0" "Attack Count" ;
                 _ ← st_dataframe t ;
                 mret (Some dos_by_ip)
               else mret None) ;
  s ← pandas.getitem df5_services "status" ;
  m ← pandas.series_eq s (VStr "suspended") ;
  suspended_services ← pandas.getitem_mask df5_services m ;
  n ← pandas.len_ suspended_services ;
  _ ← (if decide (0 < n) then
         t ← pandas.head suspended_services 10 ;
         st_dataframe t
       else mret ()) ;
  mret (mk_anomaly_refs critical_ips suspicious_sessions brute_force
          dos_attacks dos_by_ip suspended_services).

(** Tab 1 and then tab 5, on the five tables the session state refers
    to. *)
Definition analysis_pass
    (df1_login df2_duration df3_unauth df4_requests df5_services : ref)
    : py ((Q * string) * anomaly_refs) :=
  score ← create_fraud_score_gauge df1_login df3_unauth df4_requests ;
  refs ← tab5_anomaly_detection df1_login df2_duration df3_unauth
           df4_requests df5_services ;
  mret (score, refs).

(** [create_login_trend_chart]; the model returns [trend], which the
    line chart plots. *)
Definition create_login_trend_chart (parse : string → option Z) (df : ref)
    : py ref :=
  df_copy ← pandas.copy df ;
  s ← pandas.getitem df_copy "timestamp" ;
  t ← pandas.to_datetime parse s ;
  _ ← pandas.setitem df_copy "timestamp" t ;
  s ← pandas.getitem df_copy "timestamp" ;
  hour ← pandas.dt_hour s ;
  _ ← pandas.setitem df_copy "hour" hour ;
  sizes ← pandas.groupby_size df_copy ["hour"; "login_status"] ;
  trend ← pandas.reset_index sizes "count" ;
  mret trend.

End by_reference.

(** *** The tables of spec section 3 as data frames *)

(** A frame whose columns are read off typed rows: [schema] gives the name
    of each column and the cell it holds for a row. *)
Definition frame {A : Type} (schema : list (string * (A → value)))
    (rows : list A) : list (string * list value) :=
  (λ c, (c.1, c.2 <$> rows)) <$> schema.

Definition login_schema : list (string * (LoginEvent.t → value)) :=
  [("timestamp", VStr ∘ LoginEvent.timestamp);
   ("user_id", VStr ∘ LoginEvent.user_id);
   ("ip_address", VStr ∘ LoginEvent.ip_address);
   ("login_status", VStr ∘ LoginEvent.login_status);
   ("browser", VStr ∘ LoginEvent.browser)].

Definition session_schema : list (string * (SessionRecord.t → value)) :=
  [("session_id", VStr ∘ SessionRecord.session_id);
   ("user_id", VStr ∘ SessionRecord.user_id);
   ("start_time", VStr ∘ SessionRecord.start_time);
   ("end_time", VStr ∘ SessionRecord.end_time);
   ("duration_minutes", VInt ∘ SessionRecord.duration_minutes)].

Definition auth_schema : list (string * (AuthAttempt.t → value)) :=
  [("timestamp", VStr ∘ AuthAttempt.timestamp);
   ("ip_address", VStr ∘ AuthAttempt.ip_address);
   ("auth_status", VStr ∘ AuthAttempt.auth_status);
   ("attempt_count", VInt ∘ AuthAttempt.attempt_count);
   ("failure_reason", VStr ∘ AuthAttempt.failure_reason)].

Definition request_schema : list (string * (RequestLog.t → value)) :=
  [("timestamp", VStr ∘ RequestLog.timestamp);
   ("ip_address", VStr ∘ RequestLog.ip_address);
   ("request_type", VStr ∘ RequestLog.request_type);
   ("payload_size", VInt ∘ RequestLog.payload_size);
   ("status_code", VInt ∘ RequestLog.status_code)].

Definition service_schema
    : list (string * (ServiceSubscription.t → value)) :=
  [("user_id", VStr ∘ ServiceSubscription.user_id);
   ("service_name", VStr ∘ ServiceSubscription.service_name);
   ("subscription_date", VStr ∘ ServiceSubscription.subscription_date);
   ("status", VStr ∘ ServiceSubscription.status);
   ("plan_type", VStr ∘ ServiceSubscription.plan_type)].

Definition login_frame (df : list LoginEvent.t) : object :=
  DataFrame (frame login_schema df).

Definition session_frame (df : list SessionRecord.t) : object :=
  DataFrame (frame session_schema df).

Definition auth_frame (df : list AuthAttempt.t) : object :=
  DataFrame (frame auth_schema df).

Definition request_frame (df : list RequestLog.t) : object :=
  DataFrame (frame request_schema df).

Definition service_frame (df : list ServiceSubscription.t) : object :=
  DataFrame (frame service_schema df).

(** A size series keyed by one text column. *)
Definition size_series (name : string) (s : list (string * Z)) : object :=
  SizeSeries [name] ((λ e, ([VStr e.1], e.2)) <$> s).

(** How an exception of the list model shows in this one. *)
Definition outcome_of {A : Type} (r : result A) : outcome A :=
  match r with
  | Ok a => Returns a
  | Raise e => Fails (Exception e)
  end.

(** The objects of tab 5 hold what the list model reports. *)
Definition holds_report (refs : by_reference.anomaly_refs)
    (report : anomaly_report) (h : heap) : Prop :=
  h !! by_reference.critical_ips refs
  = Some (size_series "ip_address" (rep_critical_ips report))
  ∧ h !! by_reference.suspicious_sessions refs
    = Some (session_frame (rep_suspicious_sessions report))
  ∧ h !! by_reference.brute_force refs
    = Some (auth_frame (rep_brute_force report))
  ∧ h !! by_reference.dos_attacks refs
    = Some (request_frame (rep_dos_attacks report))
  ∧ match by_reference.dos_by_ip refs, rep_dos_by_ip report with
    | Some r, Some s => h !! r = Some (size_series "ip_address" s)
    | None, None => True
    | _, _ => False
    end
  ∧ h !! by_reference.suspended_services refs
    = Some (service_frame (rep_suspended_services report)).

(** Running [m] in [h] ends in an outcome and a heap that satisfy [Q],
    and the heap has only grown: every object of [h] is still there, at
    its reference and with its contents. *)
Definition wp {A : Type} (m : py A) (h : heap)
    (Q : outcome A → heap → Prop) : Prop :=
  ∃ o h', m h = (o, h') ∧ h `prefix_of` h' ∧ Q o h'.

(** [m] leaves the objects of [h] alone, though it may change the object
    allocated right after them. *)
Definition keeps (h : heap) {A : Type} (m : py A) : Prop :=
  ∀ o new, ∃ o' new', (m (h ++ o :: new)).2 = h ++ o' :: new'.

(** [m] only allocates: whatever the heap and the outcome. *)
Definition allocates_only {A : Type} (m : py A) : Prop :=
  ∀ h, ∃ new, (m h).2 = h ++ new.

(** The worked example as a heap of five tables. *)
Definition example_heap : heap :=
  [login_frame example_logins;
   session_frame [session_row 2; session_row 30; session_row 200];
   auth_frame example_attempts;
   request_frame example_requests;
   service_frame [service_row "active"; service_row "suspended"]].

(** [pd.to_datetime] on the one timestamp of the sample rows: midnight of
    the base date. *)
Definition sample_parse (s : string) : option Z :=
  if decide (s = "2026-02-01 00:00:00") then Some 0 else None.

(** * Properties *)

(** ** Arithmetic of the rates *)

Lemma len_nonneg {A : Type} (df : list A) : 0 ≤ len df.
Proof. unfold len. lia. Qed.

Lemma len_pos {A : Type} (df : list A) : df ≠ [] → 0 < len df.
Proof. destruct df; [done | intros _; unfold len; simpl; lia]. Qed.

Lemma len_zero {A : Type} (df : list A) : len df = 0 ↔ df = [].
Proof.
  unfold len. split.
  - destruct df; [done | simpl; lia].
  - by intros ->.
Qed.

Lemma len_filter_le {A : Type} (P : A → Prop) `{!∀ x, Decision (P x)}
    (df : list A) :
  len (filter P df) ≤ len df.
Proof. unfold len. pose proof (length_filter P df). lia. Qed.

Lemma truediv_ok (a b : Z) :
  b ≠ 0 → truediv a b = Ok (inject_Z a / inject_Z b)%Q.
Proof. intros Hb. unfold truediv. by rewrite decide_False. Qed.

Lemma truediv_zero (a : Z) : truediv a 0 = Raise ZeroDivisionError.
Proof. reflexivity. Qed.

(** A share of a non-empty whole, as a percentage, is between 0 and 100. *)
Lemma percentage_range (a b : Z) :
  0 ≤ a ≤ b → 0 < b →
  (0 <= inject_Z a / inject_Z b * 100 <= 100)%Q.
Proof.
  intros [Ha Hab] Hb.
  assert (Hb' : (0 < inject_Z b)%Q).
  { change (inject_Z 0 < inject_Z b)%Q. by rewrite <- Zlt_Qlt. }
  assert (H0 : (0 <= inject_Z a / inject_Z b)%Q).
  { apply Qle_shift_div_l; [done |].
    rewrite Qmult_0_l. change (inject_Z 0 <= inject_Z a)%Q.
    by rewrite <- Zle_Qle. }
  assert (H1 : (inject_Z a / inject_Z b <= 1)%Q).
  { apply Qle_shift_div_r; [done |].
    rewrite Qmult_1_l. by rewrite <- Zle_Qle. }
  split; lra.
Qed.

Lemma Qltb_lt (x y : Q) : Qltb x y = true ↔ (x < y)%Q.
Proof.
  unfold Qltb. rewrite negb_true_iff, <- not_true_iff_false, Qle_bool_iff.
  split; [apply Qnot_le_lt | apply Qlt_not_le].
Qed.

Lemma Qltb_ge (x y : Q) : Qltb x y = false ↔ (y <= x)%Q.
Proof. unfold Qltb. by rewrite negb_false_iff, Qle_bool_iff. Qed.

Lemma failed_login_rate_ok (login_df : list LoginEvent.t) :
  login_df ≠ [] →
  failed_login_rate login_df
  = Ok (inject_Z (len (filter (λ row, LoginEvent.login_status row = "failed")
                         login_df))
        / inject_Z (len login_df) * 100)%Q.
Proof.
  intros Hne. unfold failed_login_rate.
  rewrite truediv_ok; [done |]. by rewrite len_zero.
Qed.

Lemma unauth_rate_ok (unauth_df : list AuthAttempt.t) :
  unauth_df ≠ [] →
  unauth_rate unauth_df
  = Ok (inject_Z (len (filter
                         (λ row, AuthAttempt.auth_status row = "unauthenticated")
                         unauth_df))
        / inject_Z (len unauth_df) * 100)%Q.
Proof.
  intros Hne. unfold unauth_rate.
  rewrite truediv_ok; [done |]. by rewrite len_zero.
Qed.

Lemma attack_rate_ok (request_df : list RequestLog.t) :
  request_df ≠ [] →
  attack_rate request_df
  = Ok (inject_Z (len (filter
                         (λ row, RequestLog.request_type row
                                 ∈ ["blank"; "dos_attack"]) request_df))
        / inject_Z (len request_df) * 100)%Q.
Proof.
  intros Hne. unfold attack_rate.
  rewrite truediv_ok; [done |]. by rewrite len_zero.
Qed.

(** The weighted sum is monotone in all three rates at once. *)
Lemma fraud_score_mono (f u a f' u' a' : Q) :
  (f <= f')%Q → (u <= u')%Q → (a <= a')%Q →
  (fraud_score f u a <= fraud_score f' u' a')%Q.
Proof. unfold fraud_score. intros. lra. Qed.

Lemma fraud_score_range (f u a : Q) :
  (0 <= f <= 100)%Q → (0 <= u <= 100)%Q → (0 <= a <= 100)%Q →
  (0 <= fraud_score f u a <= 100)%Q.
Proof. unfold fraud_score. intros. split; lra. Qed.

(** ** The fraud score *)

(** The formula in exact arithmetic.  On non-empty logins, auth attempts
    and requests, the score of the exact model is
    0.3 x failed_login_rate + 0.4 x unauth_rate + 0.3 x attack_rate, where
    each rate is 100 x (matching rows) / (all rows) of its table (failed
    logins, unauthenticated attempts, blank or dos_attack requests), and it
    lies between 0 and 100.  What the code returns is this number up to
    rounding, as the part on the score in binary64 shows. *)
Theorem create_fraud_score_gauge_score
    (login_df : list LoginEvent.t) (unauth_df : list AuthAttempt.t)
    (request_df : list RequestLog.t) :
  login_df ≠ [] → unauth_df ≠ [] → request_df ≠ [] →
  let failed :=
    len (filter (λ row, LoginEvent.login_status row = "failed") login_df) in
  let unauthenticated :=
    len (filter (λ row, AuthAttempt.auth_status row = "unauthenticated")
           unauth_df) in
  let attacks :=
    len (filter (λ row, RequestLog.request_type row = "blank"
                        ∨ RequestLog.request_type row = "dos_attack")
           request_df) in
  ∃ (score : Q) (tier : string),
    create_fraud_score_gauge login_df unauth_df request_df = Ok (score, tier)
    ∧ (score == 0.3 * (100 * inject_Z failed / inject_Z (len login_df))
                + 0.4 * (100 * inject_Z unauthenticated
                         / inject_Z (len unauth_df))
                + 0.3 * (100 * inject_Z attacks
                         / inject_Z (len request_df)))%Q
    ∧ (0 <= score <= 100)%Q.
Proof.
  intros Hl Hu Hr failed unauthenticated attacks.
  assert (Hattacks : attacks
    = len (filter (λ row, RequestLog.request_type row
                          ∈ ["blank"; "dos_attack"]) request_df)).
  { unfold attacks. f_equal. apply list_filter_iff. intros row.
    rewrite !elem_of_cons, elem_of_nil. tauto. }
  unfold create_fraud_score_gauge.
  rewrite failed_login_rate_ok, unauth_rate_ok, attack_rate_ok by done.
  simpl. rewrite <- Hattacks. fold failed unauthenticated.
  eexists _, _. split; [reflexivity |].
  assert (Hzl : ¬ (inject_Z (len login_df) == 0)%Q).
  { pose proof (len_pos _ Hl).
    change 0%Q with (inject_Z 0). rewrite inject_Z_injective. lia. }
  assert (Hzu : ¬ (inject_Z (len unauth_df) == 0)%Q).
  { pose proof (len_pos _ Hu).
    change 0%Q with (inject_Z 0). rewrite inject_Z_injective. lia. }
  assert (Hzr : ¬ (inject_Z (len request_df) == 0)%Q).
  { pose proof (len_pos _ Hr).
    change 0%Q with (inject_Z 0). rewrite inject_Z_injective. lia. }
  split.
  - unfold fraud_score. field. auto.
  - apply fraud_score_range; apply percentage_range;
      first [ by apply len_pos
            | split; [apply len_nonneg | apply len_filter_le] ].
Qed.

(** The worked example of the spec: its three tables are non-empty, with
    8 of 100, 60 of 200 and 30 of 150 matching rows. *)
Lemma create_fraud_score_gauge_score_witness :
  ∃ (score : Q) (tier : string),
    create_fraud_score_gauge example_logins example_attempts example_requests
    = Ok (score, tier)
    ∧ (score == 0.3 * (100 * inject_Z 8 / inject_Z 100)
                + 0.4 * (100 * inject_Z 60 / inject_Z 200)
                + 0.3 * (100 * inject_Z 30 / inject_Z 150))%Q
    ∧ (0 <= score <= 100)%Q.
Proof.
  apply (create_fraud_score_gauge_score
           example_logins example_attempts example_requests);
    vm_compute; discriminate.
Defined.

(** The risk level depends on the value of the score only. *)
Lemma risk_level_proper (x y : Q) : (x == y)%Q → risk_level x = risk_level y.
Proof.
  intros Hxy. unfold risk_level, Qltb.
  assert (H : ∀ c, Qle_bool c x = Qle_bool c y).
  { intros c. apply eq_true_iff_eq. rewrite !Qle_bool_iff. by rewrite Hxy. }
  by rewrite !H.
Qed.

(** C2.  The risk level returned with a score is a step function of it:
    LOW below 15, MEDIUM from 15 up to but excluding 30, HIGH from 30 up to
    but excluding 50, CRITICAL from 50 on; so 14.99 is LOW, 15.0 MEDIUM,
    29.99 MEDIUM, 30.0 HIGH, 49.99 HIGH and 50.0 CRITICAL. *)
Theorem risk_level_step :
  (∀ login_df unauth_df request_df score tier,
     create_fraud_score_gauge login_df unauth_df request_df = Ok (score, tier)
     → tier = risk_level score)
  ∧ (∀ score : Q,
       ((score < 15)%Q → risk_level score = "LOW")
       ∧ ((15 <= score)%Q → (score < 30)%Q → risk_level score = "MEDIUM")
       ∧ ((30 <= score)%Q → (score < 50)%Q → risk_level score = "HIGH")
       ∧ ((50 <= score)%Q → risk_level score = "CRITICAL"))
  ∧ risk_level 14.99 = "LOW" ∧ risk_level 15.0 = "MEDIUM"
  ∧ risk_level 29.99 = "MEDIUM" ∧ risk_level 30.0 = "HIGH"
  ∧ risk_level 49.99 = "HIGH" ∧ risk_level 50.0 = "CRITICAL".
Proof.
  split; [| split; [| by vm_compute]].
  - intros login_df unauth_df request_df score tier.
    unfold create_fraud_score_gauge.
    destruct (failed_login_rate login_df) as [f | e]; [| done].
    destruct (unauth_rate unauth_df) as [u | e]; [| done].
    destruct (attack_rate request_df) as [a | e]; [| done].
    simpl. by intros [= <- <-].
  - intros score. unfold risk_level.
    destruct (Qltb score 15) eqn:H15;
      destruct (Qltb score 30) eqn:H30;
      destruct (Qltb score 50) eqn:H50;
      rewrite ?Qltb_lt, ?Qltb_ge in *;
      repeat split; intros; first [ reflexivity | lra ].
Qed.

(** The score of the worked example, 20.4, is MEDIUM. *)
Lemma risk_level_step_witness : risk_level 20.4%Q = "MEDIUM".
Proof.
  apply (proj1 (proj2 (proj1 (proj2 risk_level_step) 20.4%Q)));
    vm_compute; [discriminate | reflexivity].
Defined.

(** C3 as stated fails: with an empty login table the call yields no
    result. *)
Lemma create_fraud_score_gauge_empty_logins :
  ¬ ∃ result,
      create_fraud_score_gauge [] example_attempts example_requests
      = Ok result.
Proof. intros [result H]. vm_compute in H. discriminate. Qed.

(** C3, amended.  When any one of the three tables is empty the zero
    denominator is not handled: [create_fraud_score_gauge] raises
    [ZeroDivisionError] and returns no score. *)
Theorem create_fraud_score_gauge_empty
    (login_df : list LoginEvent.t) (unauth_df : list AuthAttempt.t)
    (request_df : list RequestLog.t) :
  login_df = [] ∨ unauth_df = [] ∨ request_df = [] →
  create_fraud_score_gauge login_df unauth_df request_df
  = Raise ZeroDivisionError.
Proof.
  intros H. unfold create_fraud_score_gauge.
  destruct login_df as [| l login_df]; [done |].
  rewrite failed_login_rate_ok by done. simpl.
  destruct unauth_df as [| u unauth_df]; [done |].
  rewrite unauth_rate_ok by done. simpl.
  destruct request_df as [| r request_df]; [done |].
  destruct H as [H | [H | H]]; discriminate.
Qed.

(** The worked example with its auth attempts taken away. *)
Lemma create_fraud_score_gauge_empty_witness :
  create_fraud_score_gauge example_logins [] example_requests
  = Raise ZeroDivisionError.
Proof.
  apply (create_fraud_score_gauge_empty example_logins [] example_requests).
  right; left; reflexivity.
Defined.

(** C8.  The score is non-decreasing in each rate taken alone: of two
    inputs whose rates agree on two of failed_login_rate, unauth_rate and
    attack_rate, the one with the larger third rate gets a score at least as
    large. *)
Theorem create_fraud_score_gauge_monotone
    (login_df login_df' : list LoginEvent.t)
    (unauth_df unauth_df' : list AuthAttempt.t)
    (request_df request_df' : list RequestLog.t)
    (f u a f' u' a' score score' : Q) (tier tier' : string) :
  failed_login_rate login_df = Ok f → unauth_rate unauth_df = Ok u →
  attack_rate request_df = Ok a →
  failed_login_rate login_df' = Ok f' → unauth_rate unauth_df' = Ok u' →
  attack_rate request_df' = Ok a' →
  create_fraud_score_gauge login_df unauth_df request_df = Ok (score, tier) →
  create_fraud_score_gauge login_df' unauth_df' request_df'
  = Ok (score', tier') →
  ((f <= f')%Q ∧ (u == u')%Q ∧ (a == a')%Q)
  ∨ ((f == f')%Q ∧ (u <= u')%Q ∧ (a == a')%Q)
  ∨ ((f == f')%Q ∧ (u == u')%Q ∧ (a <= a')%Q) →
  (score <= score')%Q.
Proof.
  intros Hf Hu Ha Hf' Hu' Ha'. unfold create_fraud_score_gauge.
  rewrite Hf, Hu, Ha, Hf', Hu', Ha'. simpl.
  intros [= <- _] [= <- _] H.
  apply fraud_score_mono;
    destruct H as [(? & ? & ?) | [(? & ? & ?) | (? & ? & ?)]]; lra.
Qed.

(** One more failed login on top of the worked example: the failed-login
    rate grows from 8 to 900/101 and the score from 20.4 to about 20.67. *)
Lemma create_fraud_score_gauge_monotone_witness :
  (61200000000 # 3000000000 <= 62640000000 # 3030000000)%Q.
Proof.
  apply (create_fraud_score_gauge_monotone
           example_logins (login_row "10.0.0.9" "failed" :: example_logins)
           example_attempts example_attempts
           example_requests example_requests
           (800 # 100) (6000 # 200) (3000 # 150)
           (900 # 101) (6000 # 200) (3000 # 150)
           (61200000000 # 3000000000) (62640000000 # 3030000000)
           "MEDIUM" "MEDIUM");
    try (vm_compute; reflexivity).
  left. repeat split; vm_compute; discriminate.
Defined.

(** ** Robustness under rounding

    The range and the monotonicity of the score do not rest on exact
    arithmetic.  They hold for every rounding that is monotone, keeps the
    integers from 0 to 100, and takes 100 x 0.3 to 30 and 100 x 0.4 to 40,
    as round-to-nearest binary64 does. *)

Section rounding.
Variable rnd : Q → Q.
Hypothesis rnd_mono : ∀ x y : Q, (x <= y)%Q → (rnd x <= rnd y)%Q.
Hypothesis rnd_int :
  ∀ n : Z, 0 ≤ n ≤ 100 → (rnd (inject_Z n) == inject_Z n)%Q.
Hypothesis rnd_30 : (rnd (100 * rnd 0.3) == 30)%Q.
Hypothesis rnd_40 : (rnd (100 * rnd 0.4) == 40)%Q.

#[local] Instance rnd_proper : Proper (Qeq ==> Qeq) rnd.
Proof.
  intros x y Hxy. apply Qle_antisym; apply rnd_mono; rewrite Hxy;
    apply Qle_refl.
Qed.

Lemma rnd_0 : (rnd 0 == 0)%Q.
Proof. apply (rnd_int 0). lia. Qed.

Lemma rnd_1 : (rnd 1 == 1)%Q.
Proof. apply (rnd_int 1). lia. Qed.

Lemma rnd_100 : (rnd 100 == 100)%Q.
Proof. apply (rnd_int 100). lia. Qed.

Lemma rnd_nonneg (w : Q) : (0 <= w)%Q → (0 <= rnd w)%Q.
Proof. intros Hw. rewrite <- rnd_0. by apply rnd_mono. Qed.

Lemma percentage_rounded_range (part whole : Z) :
  0 ≤ part ≤ whole → 0 < whole →
  (0 <= percentage_rounded rnd part whole <= 100)%Q.
Proof.
  intros Hpart Hwhole. unfold percentage_rounded.
  pose proof (percentage_range part whole Hpart Hwhole) as [Hlo Hhi].
  set (q := (inject_Z part / inject_Z whole)%Q) in *. clearbody q.
  assert (H0 : (0 <= rnd q)%Q) by (apply rnd_nonneg; lra).
  assert (H1 : (rnd q <= 1)%Q).
  { rewrite <- rnd_1. apply rnd_mono. lra. }
  split.
  - apply rnd_nonneg. lra.
  - apply Qle_trans with (rnd 100); [apply rnd_mono; lra |].
    rewrite rnd_100. apply Qle_refl.
Qed.

Lemma fraud_score_rounded_mono (f u a f' u' a' : Q) :
  (f <= f')%Q → (u <= u')%Q → (a <= a')%Q →
  (fraud_score_rounded rnd f u a <= fraud_score_rounded rnd f' u' a')%Q.
Proof.
  intros Hf Hu Ha. unfold fraud_score_rounded.
  assert (H3 : (0 <= rnd 0.3)%Q) by (by apply rnd_nonneg).
  assert (H4 : (0 <= rnd 0.4)%Q) by (by apply rnd_nonneg).
  apply rnd_mono, Qplus_le_compat; [apply rnd_mono, Qplus_le_compat |];
    apply rnd_mono, Qmult_le_compat_r; assumption.
Qed.

Lemma fraud_score_rounded_range (f u a : Q) :
  (0 <= f <= 100)%Q → (0 <= u <= 100)%Q → (0 <= a <= 100)%Q →
  (0 <= fraud_score_rounded rnd f u a <= 100)%Q.
Proof.
  intros [Hf0 Hf1] [Hu0 Hu1] [Ha0 Ha1].
  pose proof rnd_0 as Hr0.
  assert (Hlo : (fraud_score_rounded rnd 0 0 0 == 0)%Q).
  { unfold fraud_score_rounded.
    rewrite !Qmult_0_l, !Hr0. reflexivity. }
  assert (Hhi : (fraud_score_rounded rnd 100 100 100 == 100)%Q).
  { unfold fraud_score_rounded. rewrite rnd_30, rnd_40.
    change (rnd (rnd (inject_Z 70) + 30) == 100)%Q.
    rewrite (rnd_int 70) by lia. apply rnd_100. }
  split.
  - rewrite <- Hlo. by apply fraud_score_rounded_mono.
  - rewrite <- Hhi. by apply fraud_score_rounded_mono.
Qed.
End rounding.

(** Exact arithmetic is the instance with no rounding at all, so the
    hypotheses of the section can be met. *)
Lemma fraud_score_rounded_id (f u a : Q) :
  fraud_score_rounded id f u a = fraud_score f u a.
Proof. reflexivity. Qed.

Lemma fraud_score_range_by_rounding (f u a : Q) :
  (0 <= f <= 100)%Q → (0 <= u <= 100)%Q → (0 <= a <= 100)%Q →
  (0 <= fraud_score f u a <= 100)%Q.
Proof.
  rewrite <- fraud_score_rounded_id.
  apply fraud_score_rounded_range; try done; reflexivity.
Qed.

(** ** Row filters of the anomaly tab *)

(** C5.  The flagged sessions are exactly the rows with
    duration_minutes < 3 together with the rows with duration_minutes > 180;
    a session lasting exactly 3 or exactly 180 minutes is not flagged. *)
Theorem suspicious_sessions_exact (df2_duration : list SessionRecord.t) :
  (∀ row, row ∈ suspicious_sessions df2_duration
          ↔ row ∈ df2_duration
            ∧ (SessionRecord.duration_minutes row < 3
               ∨ SessionRecord.duration_minutes row > 180))
  ∧ suspicious_sessions df2_duration
    ≡ₚ filter (λ row, SessionRecord.duration_minutes row < 3) df2_duration
       ++ filter (λ row, 180 < SessionRecord.duration_minutes row)
            df2_duration
  ∧ (∀ row, SessionRecord.duration_minutes row = 3
            ∨ SessionRecord.duration_minutes row = 180
            → row ∉ suspicious_sessions df2_duration).
Proof.
  unfold suspicious_sessions. split; [| split].
  - intros row. rewrite list_elem_of_filter. split.
    + intros [[H | H] Hin]; split; auto; lia.
    + intros [Hin [H | H]]; split; auto; lia.
  - induction df2_duration as [| row df IH]; [done |].
    rewrite !filter_cons. repeat case_decide; try lia; simpl.
    + apply perm_skip, IH.
    + rewrite <- Permutation_middle. apply perm_skip, IH.
    + apply IH.
  - intros row H. rewrite list_elem_of_filter. lia.
Qed.

(** Sessions of 2, 3, 180 and 181 minutes: the first and the last are
    flagged. *)
Lemma suspicious_sessions_exact_witness :
  session_row 3 ∉ suspicious_sessions
                    [session_row 2; session_row 3; session_row 180;
                     session_row 181].
Proof.
  apply (proj2 (proj2 (suspicious_sessions_exact
                         [session_row 2; session_row 3; session_row 180;
                          session_row 181]))).
  left. reflexivity.
Defined.

(** C6.  The brute-force rows are exactly the rows with auth_status
    "unauthenticated" and attempt_count strictly above 10; an
    unauthenticated row with attempt_count 10 is not flagged. *)
Theorem brute_force_exact (df3_unauth : list AuthAttempt.t) :
  (∀ row, row ∈ brute_force df3_unauth
          ↔ row ∈ df3_unauth
            ∧ AuthAttempt.auth_status row = "unauthenticated"
            ∧ AuthAttempt.attempt_count row > 10)
  ∧ (∀ row, AuthAttempt.auth_status row = "unauthenticated"
            → AuthAttempt.attempt_count row = 10
            → row ∉ brute_force df3_unauth).
Proof.
  unfold brute_force. split.
  - intros row. rewrite list_elem_of_filter. split.
    + intros [[Hs Hc] Hin]. repeat split; auto; lia.
    + intros (Hin & Hs & Hc). repeat split; auto; lia.
  - intros row _ Hc. rewrite list_elem_of_filter. lia.
Qed.

(** Ten attempts are not flagged, eleven are, and an authenticated row is
    not, whatever its count. *)
Lemma brute_force_exact_witness :
  auth_row "unauthenticated" 10
  ∉ brute_force [auth_row "unauthenticated" 10;
                 auth_row "unauthenticated" 11; auth_row "authenticated" 12].
Proof.
  apply (proj2 (brute_force_exact
                  [auth_row "unauthenticated" 10;
                   auth_row "unauthenticated" 11;
                   auth_row "authenticated" 12])
           (auth_row "unauthenticated" 10));
    reflexivity.
Defined.

(** C10.  Each row filter of the anomaly tab (sessions, brute force, DOS
    attacks, suspended services) returns a subsequence of its table: the
    flagged rows keep their relative order and none is repeated. *)
Theorem anomaly_filters_subsequence
    (df2_duration : list SessionRecord.t) (df3_unauth : list AuthAttempt.t)
    (df4_requests : list RequestLog.t)
    (df5_services : list ServiceSubscription.t) :
  suspicious_sessions df2_duration `sublist_of` df2_duration
  ∧ brute_force df3_unauth `sublist_of` df3_unauth
  ∧ dos_attacks df4_requests `sublist_of` df4_requests
  ∧ suspended_services df5_services `sublist_of` df5_services.
Proof.
  unfold suspicious_sessions, brute_force, dos_attacks, suspended_services.
  repeat split; apply sublist_filter.
Qed.

(** ** Group sizes *)

Lemma elem_of_unique (keys : list string) (k : string) :
  k ∈ unique keys ↔ k ∈ keys.
Proof.
  induction keys as [| x keys IH]; simpl; [done |].
  rewrite !elem_of_cons, list_elem_of_filter, IH.
  destruct (decide (k = x)); tauto.
Qed.

Lemma NoDup_unique (keys : list string) : NoDup (unique keys).
Proof.
  induction keys as [| x keys IH]; simpl; [constructor |].
  constructor; [| by apply NoDup_filter].
  rewrite list_elem_of_filter. tauto.
Qed.

Lemma group_size_nonneg (k : string) (keys : list string) :
  0 ≤ group_size k keys.
Proof. apply len_nonneg. Qed.

Lemma group_size_pos (k : string) (keys : list string) :
  0 < group_size k keys ↔ k ∈ keys.
Proof.
  unfold group_size. split.
  - intros H. destruct (filter (λ x, x = k) keys) as [| x l] eqn:E.
    + by vm_compute in H.
    + assert (Hx : x ∈ filter (λ x, x = k) keys) by (rewrite E; left).
      apply list_elem_of_filter in Hx as [-> Hx]. done.
  - intros Hk. apply len_pos. intros E.
    assert (Hx : k ∈ filter (λ x, x = k) keys)
      by (by apply list_elem_of_filter).
    rewrite E in Hx. by apply elem_of_nil in Hx.
Qed.

(** The size of a group of a filtered table, counted on the rows. *)
Lemma group_size_fmap_filter {A : Type} (P : A → Prop)
    `{!∀ x, Decision (P x)} (key : A → string) (df : list A) (k : string) :
  group_size k (key <$> filter P df)
  = len (filter (λ row, P row ∧ key row = k) df).
Proof.
  unfold group_size, len. f_equal.
  induction df as [| row df IH]; [done |].
  rewrite !filter_cons.
  destruct (decide (P row)) as [HP | HP]; simpl.
  - rewrite filter_cons.
    destruct (decide (key row = k)) as [Hk | Hk]; simpl.
    + rewrite decide_True by done. simpl. f_equal. exact IH.
    + rewrite decide_False by tauto. exact IH.
  - rewrite decide_False by tauto. exact IH.
Qed.

#[global] Instance size_ge_trans : Transitive size_ge.
Proof. unfold size_ge. intros a b c. lia. Qed.

#[global] Instance size_ge_total : Total size_ge.
Proof. unfold size_ge. intros a b. lia. Qed.

Lemma sort_values_desc_perm (s : list (string * Z)) :
  sort_values_desc s ≡ₚ s.
Proof. apply merge_sort_Permutation. Qed.

Lemma sort_values_desc_sorted (s : list (string * Z)) :
  StronglySorted size_ge (sort_values_desc s).
Proof. apply StronglySorted_merge_sort; apply _. Qed.

(** A table of group sizes over any arrangement [ks] of the distinct
    labels. *)
Lemma elem_of_size_table (keys ks : list string) (k : string) (n : Z) :
  ks ≡ₚ unique keys →
  (k, n) ∈ (λ k, (k, group_size k keys)) <$> ks
  ↔ k ∈ keys ∧ n = group_size k keys.
Proof.
  intros Hks. rewrite list_elem_of_fmap. split.
  - intros (k' & [= -> ->] & Hin). split; [| done].
    by rewrite <- elem_of_unique, <- Hks.
  - intros [Hin ->]. exists k. split; [done |].
    by rewrite Hks, elem_of_unique.
Qed.

Lemma NoDup_size_table (keys ks : list string) :
  ks ≡ₚ unique keys →
  NoDup ((λ k, (k, group_size k keys)) <$> ks).*1.
Proof.
  intros Hks. rewrite <- list_fmap_compose.
  replace (fst ∘ (λ k, (k, group_size k keys))) with (@id string) by done.
  rewrite list_fmap_id, Hks. apply NoDup_unique.
Qed.

Lemma elem_of_groupby_size (keys : list string) (k : string) (n : Z) :
  (k, n) ∈ groupby_size keys ↔ k ∈ keys ∧ n = group_size k keys.
Proof. apply elem_of_size_table, merge_sort_Permutation. Qed.

Lemma NoDup_groupby_size (keys : list string) :
  NoDup (groupby_size keys).*1.
Proof. apply NoDup_size_table, merge_sort_Permutation. Qed.

Lemma elem_of_value_counts (keys : list string) (k : string) (n : Z) :
  (k, n) ∈ value_counts keys ↔ k ∈ keys ∧ n = group_size k keys.
Proof.
  unfold value_counts. rewrite sort_values_desc_perm.
  by apply elem_of_size_table.
Qed.

Lemma NoDup_value_counts (keys : list string) :
  NoDup (value_counts keys).*1.
Proof.
  unfold value_counts. rewrite sort_values_desc_perm.
  by apply NoDup_size_table.
Qed.

Lemma isin_blank_dos_attack (s : string) :
  s ∈ ["blank"; "dos_attack"] ↔ s = "blank" ∨ s = "dos_attack".
Proof. rewrite !elem_of_cons, elem_of_nil. tauto. Qed.

(** The first [n] entries of a sorted series dominate every entry that was
    cut off, and entries are cut off only when [n] are kept. *)
Lemma head_sorted_top (n : nat) (s : list (string * Z)) (e : string * Z) :
  StronglySorted size_ge s → e ∈ s → e ∉ head n s →
  length (head n s) = n ∧ ∀ e', e' ∈ head n s → e.2 ≤ e'.2.
Proof.
  unfold head. intros Hs He Hhead.
  rewrite <- (take_drop n s) in He, Hs.
  apply elem_of_app in He as [He | He]; [done |].
  split.
  - apply length_take_le.
    destruct (decide (n ≤ length s)%nat) as [Hle | Hgt]; [done |].
    rewrite drop_ge in He by lia. by apply elem_of_nil in He.
  - intros e' He'.
    apply (StronglySorted_app_1_elem_of size_ge _ _ e' e Hs He' He).
Qed.

(** ** Grouped anomaly rules *)

(** C7.  The failed-login anomaly groups the rows with login_status
    "failed" by ip_address and lists exactly the IPs whose number of failed
    logins is strictly above 5, each once with that number, in descending
    order of the number. *)
Theorem critical_ips_exact (df1_login : list LoginEvent.t) :
  let failed_count (ip : string) :=
    len (filter (λ row, LoginEvent.login_status row = "failed"
                        ∧ LoginEvent.ip_address row = ip) df1_login) in
  (∀ ip n, (ip, n) ∈ critical_ips df1_login ↔ n = failed_count ip ∧ n > 5)
  ∧ NoDup (critical_ips df1_login).*1
  ∧ StronglySorted (λ a b, b.2 ≤ a.2) (critical_ips df1_login).
Proof.
  intros failed_count. unfold critical_ips, failed_by_ip.
  split; [| split].
  - intros ip n.
    rewrite sort_values_desc_perm, list_elem_of_filter, elem_of_groupby_size.
    rewrite <- group_size_pos, group_size_fmap_filter. fold (failed_count ip).
    simpl. lia.
  - rewrite sort_values_desc_perm.
    eapply sublist_NoDup; [apply NoDup_groupby_size |].
    apply fmap_sublist, sublist_filter.
  - apply sort_values_desc_sorted.
Qed.

(** C4.  The DOS rule of the anomaly tab flags exactly the request rows
    with request_type "dos_attack"; [create_top_ips_chart] with [top_n = 10]
    lists the top ten attacking IP addresses ranked by count among the
    requests whose request_type is "blank" or "dos_attack": at most ten
    distinct IPs, each with its number of such requests, larger numbers
    first, and an attacking IP is left out only when ten are listed, none of
    them with fewer such requests. *)
Theorem dos_attacks_and_top_ips (df4_requests : list RequestLog.t) :
  let attack_count (ip : string) :=
    len (filter (λ row, (RequestLog.request_type row = "blank"
                         ∨ RequestLog.request_type row = "dos_attack")
                        ∧ RequestLog.ip_address row = ip) df4_requests) in
  let top_ips := create_top_ips_chart df4_requests 10 in
  (∀ row, row ∈ dos_attacks df4_requests
          ↔ row ∈ df4_requests ∧ RequestLog.request_type row = "dos_attack")
  ∧ dos_attacks df4_requests
    ++ filter (λ row, RequestLog.request_type row ≠ "dos_attack") df4_requests
    ≡ₚ df4_requests
  ∧ (length top_ips ≤ 10)%nat
  ∧ NoDup top_ips.*1
  ∧ StronglySorted (λ a b, b.2 ≤ a.2) top_ips
  ∧ (∀ ip n, (ip, n) ∈ top_ips → n = attack_count ip ∧ 0 < n)
  ∧ (∀ ip, 0 < attack_count ip → ip ∉ top_ips.*1 →
       length top_ips = 10%nat
       ∧ ∀ e, e ∈ top_ips → attack_count ip ≤ e.2).
Proof.
  intros attack_count top_ips.
  set (keys := RequestLog.ip_address
         <$> filter (λ row, RequestLog.request_type row
                            ∈ ["blank"; "dos_attack"]) df4_requests).
  assert (Hcount : ∀ ip, group_size ip keys = attack_count ip).
  { intros ip. unfold keys. rewrite group_size_fmap_filter.
    unfold attack_count. f_equal. apply list_filter_iff. intros row.
    by rewrite isin_blank_dos_attack. }
  assert (Htop : top_ips = head 10 (value_counts keys)) by done.
  assert (Hsorted : StronglySorted size_ge (value_counts keys))
    by apply sort_values_desc_sorted.
  assert (Hsub : top_ips `sublist_of` value_counts keys)
    by (rewrite Htop; apply sublist_take).
  split_and!.
  - intros row. unfold dos_attacks. rewrite list_elem_of_filter. tauto.
  - unfold dos_attacks. apply filter_app_complement.
  - rewrite Htop. unfold head. rewrite length_take. lia.
  - eapply sublist_NoDup; [apply NoDup_value_counts |].
    by apply fmap_sublist.
  - rewrite Htop. unfold head.
    rewrite <- (take_drop 10 (value_counts keys)) in Hsorted.
    by apply StronglySorted_app_1_l in Hsorted.
  - intros ip n Hin.
    pose proof (elem_of_sublist _ _ _ Hin Hsub) as Hin'.
    apply elem_of_value_counts in Hin' as [Hkey Hn].
    rewrite Hn, <- Hcount. split; [done | by apply group_size_pos].
  - intros ip Hpos Hout. rewrite Htop.
    apply (head_sorted_top 10 _ (ip, attack_count ip) Hsorted).
    + rewrite elem_of_value_counts, <- group_size_pos, Hcount. done.
    + intros Hin. apply Hout. rewrite Htop.
      apply list_elem_of_fmap. by exists (ip, attack_count ip).
Qed.

(** The ranking inside the DOS expander of the anomaly tab counts the
    dos_attack rows only, and exists only when there is such a row. *)
Lemma dos_by_ip_exact (df4_requests : list RequestLog.t) :
  match dos_by_ip df4_requests with
  | None => dos_attacks df4_requests = []
  | Some top =>
      dos_attacks df4_requests ≠ []
      ∧ (length top ≤ 10)%nat
      ∧ StronglySorted (λ a b, b.2 ≤ a.2) top
      ∧ ∀ ip n, (ip, n) ∈ top →
          n = len (filter (λ row, RequestLog.request_type row = "dos_attack"
                                  ∧ RequestLog.ip_address row = ip)
                     df4_requests)
  end.
Proof.
  unfold dos_by_ip. case_decide as Hlen.
  - split_and!.
    + intros E. rewrite E in Hlen. by vm_compute in Hlen.
    + unfold head. rewrite length_take. lia.
    + unfold head.
      pose proof (sort_values_desc_sorted
                    (groupby_size (RequestLog.ip_address
                                     <$> dos_attacks df4_requests))) as Hs.
      rewrite <- (take_drop 10 (sort_values_desc _)) in Hs.
      by apply StronglySorted_app_1_l in Hs.
    + intros ip n Hin. unfold head in Hin.
      pose proof (elem_of_sublist _ _ _ Hin (sublist_take _ _)) as Hin'.
      rewrite sort_values_desc_perm, elem_of_groupby_size in Hin'.
      destruct Hin' as [_ ->]. apply group_size_fmap_filter.
  - apply len_zero. pose proof (len_nonneg (dos_attacks df4_requests)). lia.
Qed.

(** ** The analysis pass and the session state *)

(** Loading, by contrast, does replace the tables. *)
Lemma store_tables_state (st : session_state)
    (l : list LoginEvent.t) (d : list SessionRecord.t)
    (u : list AuthAttempt.t) (r : list RequestLog.t)
    (s : list ServiceSubscription.t) :
  (store_tables l d u r s st).2 = mk_session_state l d u r s true.
Proof. reflexivity. Qed.

Lemma reads_only_read {A : Type} (key : session_state → A) :
  reads_only (read key).
Proof. by intros st. Qed.

Lemma reads_only_pure {A : Type} (r : result A) : reads_only (pure r).
Proof. by intros st. Qed.

Lemma reads_only_ret {A : Type} (a : A) : reads_only (mret a : app A).
Proof. by intros st. Qed.

Lemma reads_only_bind {A B : Type} (m : app A) (k : A → app B) :
  reads_only m → (∀ a, reads_only (k a)) → reads_only (m ≫= k).
Proof.
  intros Hm Hk st. unfold mbind, app_bind.
  specialize (Hm st). destruct (m st) as [[a | e] st']; simpl in Hm; subst st'.
  - apply Hk.
  - done.
Qed.

Create HintDb reads_only.
#[global] Hint Resolve reads_only_read reads_only_pure reads_only_ret
  : reads_only.
#[global] Hint Extern 2 (reads_only (_ ≫= _)) =>
  apply reads_only_bind; [| intros ?] : reads_only.

(** Tab 1, tab 5 and the pass hand back the session state they were
    given, whether the score is returned or the division raises: none of
    them assigns to an entry of [st.session_state].  The entries are lists
    here; the tables as objects that pandas could change are treated in
    the last part of the file. *)
Theorem analysis_leaves_tables_unchanged (st : session_state) :
  (tab1_fraud_score st).2 = st
  ∧ (tab5_anomaly_detection st).2 = st
  ∧ (analysis_pass st).2 = st.
Proof.
  assert (H1 : reads_only tab1_fraud_score).
  { unfold tab1_fraud_score. auto 10 with reads_only. }
  assert (H5 : reads_only tab5_anomaly_detection).
  { unfold tab5_anomaly_detection. auto 10 with reads_only. }
  assert (H : reads_only analysis_pass).
  { unfold analysis_pass. apply reads_only_bind; [auto with reads_only |].
    intros [|]; auto 10 with reads_only. }
  split_and!; [apply H1 | apply H5 | apply H].
Qed.

(** ** The definitions at work *)

(** The worked example of the spec: score 20.4, tier MEDIUM. *)
Example worked_example_score :
  ∃ score,
    create_fraud_score_gauge example_logins example_attempts example_requests
    = Ok (score, "MEDIUM")
    ∧ (score == 20.4)%Q.
Proof. eexists. split; [by vm_compute | by vm_compute]. Qed.

(** Seven, six and five failed logins from three addresses: the address
    with five is not critical, and neither is one with successes only. *)
Example critical_ips_example :
  critical_ips
    (replicate 6 (login_row "10.0.0.2" "failed")
     ++ replicate 7 (login_row "10.0.0.1" "failed")
     ++ replicate 5 (login_row "10.0.0.3" "failed")
     ++ replicate 9 (login_row "10.0.0.4" "success"))
  = [("10.0.0.1", 7); ("10.0.0.2", 6)].
Proof. by vm_compute. Qed.

(** An address sending blank requests only is ranked by
    [create_top_ips_chart] and absent from the ranking of the DOS
    expander. *)
Example top_ips_example :
  let df4_requests :=
    [request_row "10.0.0.1" "blank"; request_row "10.0.0.2" "dos_attack";
     request_row "10.0.0.1" "blank"; request_row "10.0.0.3" "normal"] in
  create_top_ips_chart df4_requests 10 = [("10.0.0.1", 2); ("10.0.0.2", 1)]
  ∧ dos_attacks df4_requests = [request_row "10.0.0.2" "dos_attack"]
  ∧ dos_by_ip df4_requests = Some [("10.0.0.2", 1)].
Proof. by vm_compute. Qed.

(** With an empty request table the run ends in tab 1, and the session
    state is still the one that was loaded. *)
Example analysis_pass_empty_requests :
  let st := mk_session_state example_logins [] example_attempts [] [] true in
  analysis_pass st = (Raise ZeroDivisionError, st).
Proof. by vm_compute. Qed.

(** ** Binary64 checks

    The constants assumed of the rounding in section [rounding], and the
    worked example, evaluated in binary64 itself. *)

Module binary64.
Import PrimFloat.
#[local] Set Warnings "-inexact-float".

Example weights_round_to_integers :
  (100 * 0.3 =? 30)%float = true
  ∧ (100 * 0.4 =? 40)%float = true
  ∧ (30 + 40 =? 70)%float = true
  ∧ (70 + 30 =? 100)%float = true.
Proof. by vm_compute. Qed.

Example worked_example :
  let score :=
    (8 / 100 * 100 * 0.3 + 60 / 200 * 100 * 0.4 + 30 / 150 * 100 * 0.3)%float
  in
  (score =? 20.4)%float = true
  ∧ (score <? 15)%float = false ∧ (score <? 30)%float = true.
Proof. by vm_compute. Qed.
End binary64.

(** * Further properties of the dashboard code *)

(** ** Counting rows *)

Lemma len_filter_zero {A : Type} (P : A → Prop) `{!∀ x, Decision (P x)}
    (df : list A) :
  len (filter P df) = 0 ↔ Forall (λ row, ¬ P row) df.
Proof.
  rewrite len_zero. induction df as [| row df IH]; [done |].
  rewrite filter_cons, Forall_cons. case_decide; [| tauto].
  split; [done | tauto].
Qed.

Lemma len_filter_all {A : Type} (P : A → Prop) `{!∀ x, Decision (P x)}
    (df : list A) :
  len (filter P df) = len df ↔ Forall P df.
Proof.
  induction df as [| row df IH]; [done |].
  rewrite filter_cons, Forall_cons.
  pose proof (len_filter_le P df) as Hle. unfold len in *.
  case_decide; simpl length.
  - rewrite <- IH. split; [intros; split; [done | lia] | lia].
  - split; [lia | tauto].
Qed.

Lemma len_filter_perm {A : Type} (P : A → Prop) `{!∀ x, Decision (P x)}
    (df df' : list A) :
  df ≡ₚ df' → len (filter P df) = len (filter P df').
Proof. intros Hperm. unfold len. by rewrite Hperm. Qed.

Lemma len_perm {A : Type} (df df' : list A) : df ≡ₚ df' → len df = len df'.
Proof. intros H. unfold len. by rewrite H. Qed.

(** Two rules that never fire together split what either flags. *)
Lemma len_filter_or {A : Type} (P R : A → Prop)
    `{!∀ x, Decision (P x)} `{!∀ x, Decision (R x)} (df : list A) :
  (∀ row, P row → R row → False) →
  len (filter (λ row, P row ∨ R row) df)
  = len (filter P df) + len (filter R df).
Proof.
  intros Hdisj. unfold len.
  induction df as [| row df IH]; [done |].
  rewrite !filter_cons. specialize (Hdisj row).
  repeat case_decide; simpl length; try tauto; lia.
Qed.

Lemma percentage_zero (a b : Z) :
  0 < b → (inject_Z a / inject_Z b * 100 == 0)%Q ↔ a = 0.
Proof.
  intros Hb.
  assert (Hb' : ¬ (inject_Z b == 0)%Q).
  { change 0%Q with (inject_Z 0). rewrite inject_Z_injective. lia. }
  assert (Hq : (inject_Z a / inject_Z b * inject_Z b == inject_Z a)%Q)
    by (by field).
  split.
  - intros H. apply inject_Z_injective. rewrite <- Hq.
    generalize dependent (inject_Z a / inject_Z b)%Q. intros q _ H.
    assert (Hq0 : (q == 0)%Q) by lra. rewrite Hq0. apply Qmult_0_l.
  - intros ->. unfold Qdiv. by rewrite !Qmult_0_l.
Qed.

Lemma percentage_hundred (a b : Z) :
  0 < b → (inject_Z a / inject_Z b * 100 == 100)%Q ↔ a = b.
Proof.
  intros Hb.
  assert (Hb' : ¬ (inject_Z b == 0)%Q).
  { change 0%Q with (inject_Z 0). rewrite inject_Z_injective. lia. }
  assert (Hq : (inject_Z a / inject_Z b * inject_Z b == inject_Z a)%Q)
    by (by field).
  split.
  - intros H. apply inject_Z_injective. rewrite <- Hq.
    generalize dependent (inject_Z a / inject_Z b)%Q. intros q _ H.
    assert (Hq1 : (q == 1)%Q) by lra. rewrite Hq1. apply Qmult_1_l.
  - intros ->. field. done.
Qed.

(** ** More on the fraud score *)

(** What a returned score and level say about the tables. *)
Lemma create_fraud_score_gauge_inv
    (login_df : list LoginEvent.t) (unauth_df : list AuthAttempt.t)
    (request_df : list RequestLog.t) (score : Q) (tier : string) :
  create_fraud_score_gauge login_df unauth_df request_df = Ok (score, tier) →
  login_df ≠ [] ∧ unauth_df ≠ [] ∧ request_df ≠ []
  ∧ score
    = fraud_score
        (inject_Z (len (filter (λ row, LoginEvent.login_status row = "failed")
                          login_df))
         / inject_Z (len login_df) * 100)%Q
        (inject_Z (len (filter (λ row, AuthAttempt.auth_status row
                                       = "unauthenticated") unauth_df))
         / inject_Z (len unauth_df) * 100)%Q
        (inject_Z (len (filter (λ row, RequestLog.request_type row
                                       ∈ ["blank"; "dos_attack"]) request_df))
         / inject_Z (len request_df) * 100)%Q
  ∧ tier = risk_level score.
Proof.
  intros H.
  destruct login_df as [| l login_df]; [done |].
  destruct unauth_df as [| u unauth_df]; [done |].
  destruct request_df as [| r request_df]; [done |].
  unfold create_fraud_score_gauge in H.
  rewrite failed_login_rate_ok, unauth_rate_ok, attack_rate_ok in H by done.
  simpl in H. injection H as <- <-. done.
Qed.

Lemma create_fraud_score_gauge_nonempty
    (login_df : list LoginEvent.t) (unauth_df : list AuthAttempt.t)
    (request_df : list RequestLog.t) :
  login_df ≠ [] → unauth_df ≠ [] → request_df ≠ [] →
  ∃ score,
    create_fraud_score_gauge login_df unauth_df request_df
    = Ok (score, risk_level score).
Proof.
  intros Hl Hu Hr. unfold create_fraud_score_gauge.
  rewrite failed_login_rate_ok, unauth_rate_ok, attack_rate_ok by done.
  simpl. eauto.
Qed.

(** An empty table makes the gauge raise. *)
Lemma create_fraud_score_gauge_empty_raise
    (login_df : list LoginEvent.t) (unauth_df : list AuthAttempt.t)
    (request_df : list RequestLog.t) :
  login_df = [] ∨ unauth_df = [] ∨ request_df = [] →
  create_fraud_score_gauge login_df unauth_df request_df
  = Raise ZeroDivisionError.
Proof.
  intros H. unfold create_fraud_score_gauge.
  destruct login_df as [| l login_df]; [done |].
  rewrite failed_login_rate_ok by done. simpl.
  destruct unauth_df as [| u unauth_df]; [done |].
  rewrite unauth_rate_ok by done. simpl.
  destruct request_df as [| r request_df]; [done |].
  destruct H as [H | [H | H]]; discriminate.
Qed.

(** X1.  The score and the level do not depend on the order of the rows:
    tables that are rearrangements of one another get the same result, an
    exception included. *)
Theorem create_fraud_score_gauge_order
    (login_df login_df' : list LoginEvent.t)
    (unauth_df unauth_df' : list AuthAttempt.t)
    (request_df request_df' : list RequestLog.t) :
  login_df ≡ₚ login_df' → unauth_df ≡ₚ unauth_df' →
  request_df ≡ₚ request_df' →
  create_fraud_score_gauge login_df unauth_df request_df
  = create_fraud_score_gauge login_df' unauth_df' request_df'.
Proof.
  intros Hl Hu Hr.
  unfold create_fraud_score_gauge, failed_login_rate, unauth_rate,
    attack_rate.
  rewrite (len_filter_perm _ _ _ Hl), (len_perm _ _ Hl).
  rewrite (len_filter_perm _ _ _ Hu), (len_perm _ _ Hu).
  rewrite (len_filter_perm _ _ _ Hr), (len_perm _ _ Hr).
  reflexivity.
Qed.

(** Two logins swapped, the other tables as they are. *)
Lemma create_fraud_score_gauge_order_witness :
  create_fraud_score_gauge
    [login_row "10.0.0.1" "failed"; login_row "10.0.0.2" "success"]
    example_attempts example_requests
  = create_fraud_score_gauge
      [login_row "10.0.0.2" "success"; login_row "10.0.0.1" "failed"]
      example_attempts example_requests.
Proof.
  apply (create_fraud_score_gauge_order
           [login_row "10.0.0.1" "failed"; login_row "10.0.0.2" "success"]
           [login_row "10.0.0.2" "success"; login_row "10.0.0.1" "failed"]
           example_attempts example_attempts
           example_requests example_requests);
    [apply perm_swap | reflexivity | reflexivity].
Defined.

(** X2.  A returned score is 0 exactly when no login failed, no attempt
    was unauthenticated and no request was blank or a DOS attack, and it is
    100 exactly when every row of the three tables is of that kind. *)
Theorem create_fraud_score_gauge_extremes
    (login_df : list LoginEvent.t) (unauth_df : list AuthAttempt.t)
    (request_df : list RequestLog.t) (score : Q) (tier : string) :
  create_fraud_score_gauge login_df unauth_df request_df = Ok (score, tier) →
  ((score == 0)%Q
   ↔ Forall (λ row, LoginEvent.login_status row ≠ "failed") login_df
     ∧ Forall (λ row, AuthAttempt.auth_status row ≠ "unauthenticated")
         unauth_df
     ∧ Forall (λ row, RequestLog.request_type row ≠ "blank"
                      ∧ RequestLog.request_type row ≠ "dos_attack")
         request_df)
  ∧ ((score == 100)%Q
     ↔ Forall (λ row, LoginEvent.login_status row = "failed") login_df
       ∧ Forall (λ row, AuthAttempt.auth_status row = "unauthenticated")
           unauth_df
       ∧ Forall (λ row, RequestLog.request_type row = "blank"
                        ∨ RequestLog.request_type row = "dos_attack")
           request_df).
Proof.
  intros H.
  apply create_fraud_score_gauge_inv in H as (Hl & Hu & Hr & -> & _).
  apply len_pos in Hl, Hu, Hr.
  pose (P1 := λ row, LoginEvent.login_status row = "failed").
  pose (P2 := λ row, AuthAttempt.auth_status row = "unauthenticated").
  pose (P3 := λ row, RequestLog.request_type row ∈ ["blank"; "dos_attack"]).
  pose proof (percentage_range (len (filter P1 login_df)) (len login_df)
                (conj (len_nonneg _) (len_filter_le P1 _)) Hl) as R1.
  pose proof (percentage_range (len (filter P2 unauth_df)) (len unauth_df)
                (conj (len_nonneg _) (len_filter_le P2 _)) Hu) as R2.
  pose proof (percentage_range (len (filter P3 request_df)) (len request_df)
                (conj (len_nonneg _) (len_filter_le P3 _)) Hr) as R3.
  pose proof (percentage_zero (len (filter P1 login_df)) _ Hl) as Z1.
  pose proof (percentage_zero (len (filter P2 unauth_df)) _ Hu) as Z2.
  pose proof (percentage_zero (len (filter P3 request_df)) _ Hr) as Z3.
  pose proof (percentage_hundred (len (filter P1 login_df)) _ Hl) as C1.
  pose proof (percentage_hundred (len (filter P2 unauth_df)) _ Hu) as C2.
  pose proof (percentage_hundred (len (filter P3 request_df)) _ Hr) as C3.
  rewrite len_filter_zero in Z1. rewrite len_filter_zero in Z2.
  rewrite len_filter_zero in Z3. rewrite len_filter_all in C1.
  rewrite len_filter_all in C2. rewrite len_filter_all in C3.
  assert (F3 : Forall (λ row, ¬ P3 row) request_df
               ↔ Forall (λ row, RequestLog.request_type row ≠ "blank"
                                ∧ RequestLog.request_type row ≠ "dos_attack")
                   request_df).
  { apply Forall_proper; [| done]. intros row. unfold P3.
    rewrite isin_blank_dos_attack. tauto. }
  assert (G3 : Forall P3 request_df
               ↔ Forall (λ row, RequestLog.request_type row = "blank"
                                ∨ RequestLog.request_type row = "dos_attack")
                   request_df).
  { apply Forall_proper; [| done]. intros row. apply isin_blank_dos_attack. }
  rewrite F3 in Z3. rewrite G3 in C3. clear F3 G3.
  subst P1 P2 P3. cbv beta in *.
  rewrite <- Z1, <- Z2, <- Z3, <- C1, <- C2, <- C3.
  unfold fraud_score.
  generalize dependent
    (inject_Z (len (filter (λ row, LoginEvent.login_status row = "failed")
                      login_df)) / inject_Z (len login_df) * 100)%Q.
  generalize dependent
    (inject_Z (len (filter (λ row, AuthAttempt.auth_status row
                                   = "unauthenticated") unauth_df))
     / inject_Z (len unauth_df) * 100)%Q.
  generalize dependent
    (inject_Z (len (filter (λ row, RequestLog.request_type row
                                   ∈ ["blank"; "dos_attack"]) request_df))
     / inject_Z (len request_df) * 100)%Q.
  intros a Ra _ _ u Ru _ _ f Rf _ _.
  split; split; intros; repeat split; lra.
Qed.

(** Nothing is flagged in any of the three tables: the score is 0. *)
Lemma create_fraud_score_gauge_extremes_witness : (0 # 1000 == 0)%Q.
Proof.
  apply (proj1 (create_fraud_score_gauge_extremes
                  [login_row "10.0.0.2" "success"]
                  [auth_row "authenticated" 1]
                  [request_row "10.0.0.2" "normal"]
                  (0 # 1000) "LOW" eq_refl)).
  repeat split; repeat constructor; discriminate.
Defined.

Lemma risk_rank_risk_level (score : Q) :
  risk_rank (risk_level score)
  = if Qltb score 15 then 0
    else if Qltb score 30 then 1
    else if Qltb score 50 then 2 else 3.
Proof.
  unfold risk_level.
  destruct (Qltb score 15); [done |].
  destruct (Qltb score 30); [done |].
  destruct (Qltb score 50); done.
Qed.

(** X3.  The level never drops when the score rises: of two returned
    results, the one with the larger score has a level at least as severe,
    and a returned level is always one of LOW, MEDIUM, HIGH, CRITICAL. *)
Theorem risk_level_monotone
    (login_df login_df' : list LoginEvent.t)
    (unauth_df unauth_df' : list AuthAttempt.t)
    (request_df request_df' : list RequestLog.t)
    (score score' : Q) (tier tier' : string) :
  create_fraud_score_gauge login_df unauth_df request_df = Ok (score, tier) →
  create_fraud_score_gauge login_df' unauth_df' request_df'
  = Ok (score', tier') →
  (score <= score')%Q →
  0 ≤ risk_rank tier ≤ risk_rank tier' ≤ 3.
Proof.
  intros H H' Hle.
  apply create_fraud_score_gauge_inv in H as (_ & _ & _ & _ & ->).
  apply create_fraud_score_gauge_inv in H' as (_ & _ & _ & _ & ->).
  rewrite !risk_rank_risk_level.
  destruct (Qltb score 15) eqn:H15, (Qltb score 30) eqn:H30,
    (Qltb score 50) eqn:H50, (Qltb score' 15) eqn:H15',
    (Qltb score' 30) eqn:H30', (Qltb score' 50) eqn:H50';
    rewrite ?Qltb_lt, ?Qltb_ge in *; first [ lia | lra ].
Qed.

(** The worked example against the same tables with one more failed
    login: 20.4 and about 20.67, both MEDIUM. *)
Lemma risk_level_monotone_witness :
  0 ≤ risk_rank "MEDIUM" ≤ risk_rank "MEDIUM" ≤ 3.
Proof.
  apply (risk_level_monotone
           example_logins (login_row "10.0.0.9" "failed" :: example_logins)
           example_attempts example_attempts
           example_requests example_requests
           (61200000000 # 3000000000) (62640000000 # 3030000000)
           "MEDIUM" "MEDIUM");
    [by vm_compute | by vm_compute | vm_compute; discriminate].
Defined.

(** X4.  One kind of event alone never makes the level CRITICAL.  With no
    failed login and no blank or DOS request the score is at most 40; with
    only failed logins, or only blank and DOS requests, at most 30.  And
    when every attempt is unauthenticated the score is at least 40, the
    level HIGH or CRITICAL. *)
Theorem create_fraud_score_gauge_single_kind
    (login_df : list LoginEvent.t) (unauth_df : list AuthAttempt.t)
    (request_df : list RequestLog.t) (score : Q) (tier : string) :
  create_fraud_score_gauge login_df unauth_df request_df = Ok (score, tier) →
  let no_failed_login :=
    Forall (λ row, LoginEvent.login_status row ≠ "failed") login_df in
  let no_unauthenticated :=
    Forall (λ row, AuthAttempt.auth_status row ≠ "unauthenticated")
      unauth_df in
  let no_attack :=
    Forall (λ row, RequestLog.request_type row ∉ ["blank"; "dos_attack"])
      request_df in
  (no_failed_login → no_attack → (score <= 40)%Q ∧ tier ≠ "CRITICAL")
  ∧ (no_unauthenticated → no_attack → (score <= 30)%Q ∧ tier ≠ "CRITICAL")
  ∧ (no_failed_login → no_unauthenticated
     → (score <= 30)%Q ∧ tier ≠ "CRITICAL")
  ∧ (Forall (λ row, AuthAttempt.auth_status row = "unauthenticated")
       unauth_df
     → (40 <= score)%Q ∧ (tier = "HIGH" ∨ tier = "CRITICAL")).
Proof.
  intros H.
  apply create_fraud_score_gauge_inv in H as (Hl & Hu & Hr & -> & ->).
  apply len_pos in Hl, Hu, Hr. cbv zeta.
  pose (P1 := λ row, LoginEvent.login_status row = "failed").
  pose (P2 := λ row, AuthAttempt.auth_status row = "unauthenticated").
  pose (P3 := λ row, RequestLog.request_type row ∈ ["blank"; "dos_attack"]).
  pose proof (percentage_range (len (filter P1 login_df)) (len login_df)
                (conj (len_nonneg _) (len_filter_le P1 _)) Hl) as R1.
  pose proof (percentage_range (len (filter P2 unauth_df)) (len unauth_df)
                (conj (len_nonneg _) (len_filter_le P2 _)) Hu) as R2.
  pose proof (percentage_range (len (filter P3 request_df)) (len request_df)
                (conj (len_nonneg _) (len_filter_le P3 _)) Hr) as R3.
  pose proof (percentage_zero (len (filter P1 login_df)) _ Hl) as Z1.
  pose proof (percentage_zero (len (filter P2 unauth_df)) _ Hu) as Z2.
  pose proof (percentage_zero (len (filter P3 request_df)) _ Hr) as Z3.
  pose proof (percentage_hundred (len (filter P2 unauth_df)) _ Hu) as C2.
  rewrite len_filter_zero in Z1. rewrite len_filter_zero in Z2.
  rewrite len_filter_zero in Z3. rewrite len_filter_all in C2.
  subst P1 P2 P3. cbv beta in *.
  rewrite <- Z1, <- Z2, <- Z3, <- C2.
  unfold risk_level, fraud_score.
  generalize dependent
    (inject_Z (len (filter (λ row, LoginEvent.login_status row = "failed")
                      login_df)) / inject_Z (len login_df) * 100)%Q.
  generalize dependent
    (inject_Z (len (filter (λ row, AuthAttempt.auth_status row
                                   = "unauthenticated") unauth_df))
     / inject_Z (len unauth_df) * 100)%Q.
  generalize dependent
    (inject_Z (len (filter (λ row, RequestLog.request_type row
                                   ∈ ["blank"; "dos_attack"]) request_df))
     / inject_Z (len request_df) * 100)%Q.
  intros a Ra _ u Ru _ _ f Rf _.
  set (score := (f * 0.3 + u * 0.4 + a * 0.3)%Q).
  destruct (Qltb score 15) eqn:H15, (Qltb score 30) eqn:H30,
    (Qltb score 50) eqn:H50;
    rewrite ?Qltb_lt, ?Qltb_ge in *; subst score;
    split_and!; intros; split; first [ lra | discriminate | tauto ].
Qed.

(** Every attempt unauthenticated and nothing else flagged: 40, HIGH. *)
Lemma create_fraud_score_gauge_single_kind_witness :
  (40000 # 1000 <= 40)%Q ∧ "HIGH" ≠ "CRITICAL".
Proof.
  apply (proj1 (create_fraud_score_gauge_single_kind
                  [login_row "10.0.0.2" "success"]
                  [auth_row "unauthenticated" 1]
                  [request_row "10.0.0.2" "normal"]
                  (40000 # 1000) "HIGH" eq_refl));
    apply Forall_singleton; [discriminate |].
  rewrite isin_blank_dos_attack. intros [? | ?]; discriminate.
Defined.

Lemma create_fraud_score_gauge_range
    (login_df : list LoginEvent.t) (unauth_df : list AuthAttempt.t)
    (request_df : list RequestLog.t) (score : Q) (tier : string) :
  create_fraud_score_gauge login_df unauth_df request_df = Ok (score, tier) →
  (0 <= score <= 100)%Q.
Proof.
  intros H.
  apply create_fraud_score_gauge_inv in H as (Hl & Hu & Hr & -> & _).
  apply fraud_score_range; apply percentage_range;
    first [ by apply len_pos
          | split; [apply len_nonneg | apply len_filter_le] ].
Qed.

(** X5.  The dial agrees with the level it is titled with: its bar is
    green, yellow, orange or red for LOW, MEDIUM, HIGH or CRITICAL; the red
    threshold line sits at the CRITICAL cutoff; and the score lies in the
    shaded band whose position among the four is that of the level. *)
Theorem gauge_dial_consistent
    (login_df : list LoginEvent.t) (unauth_df : list AuthAttempt.t)
    (request_df : list RequestLog.t) (score : Q) (tier : string) :
  create_fraud_score_gauge login_df unauth_df request_df = Ok (score, tier) →
  (tier, gauge_color score)
  ∈ [("LOW", "green"); ("MEDIUM", "yellow"); ("HIGH", "orange");
     ("CRITICAL", "red")]
  ∧ ((gauge_threshold <= score)%Q ↔ tier = "CRITICAL")
  ∧ ∃ (i : nat) (lo hi : Q) (shade : string),
      ["LOW"; "MEDIUM"; "HIGH"; "CRITICAL"] !! i = Some tier
      ∧ gauge_steps !! i = Some ((lo, hi), shade)
      ∧ (lo <= score <= hi)%Q.
Proof.
  intros H. pose proof (create_fraud_score_gauge_range _ _ _ _ _ H) as Hrange.
  apply create_fraud_score_gauge_inv in H as (_ & _ & _ & _ & ->).
  unfold risk_level, gauge_color, gauge_threshold.
  destruct (Qltb score 15) eqn:H15; [| destruct (Qltb score 30) eqn:H30;
    [| destruct (Qltb score 50) eqn:H50]];
    rewrite ?Qltb_lt, ?Qltb_ge in *.
  - split_and!; [repeat constructor | split; [lra | done] |].
    exists 0%nat, 0%Q, 15%Q, "lightgreen". split_and!; first [ done | lra ].
  - split_and!; [repeat constructor | split; [lra | done] |].
    exists 1%nat, 15%Q, 30%Q, "lightyellow". split_and!; first [ done | lra ].
  - split_and!; [repeat constructor | split; [lra | done] |].
    exists 2%nat, 30%Q, 50%Q, "orange". split_and!; first [ done | lra ].
  - split_and!; [repeat constructor | split; [done | lra] |].
    exists 3%nat, 50%Q, 100%Q, "lightcoral". split_and!; first [ done | lra ].
Qed.

(** The worked example: MEDIUM, a yellow bar, the second band. *)
Lemma gauge_dial_consistent_witness :
  ("MEDIUM", gauge_color (61200000000 # 3000000000))
  ∈ [("LOW", "green"); ("MEDIUM", "yellow"); ("HIGH", "orange");
     ("CRITICAL", "red")].
Proof.
  apply (proj1 (gauge_dial_consistent
                  example_logins example_attempts example_requests
                  (61200000000 # 3000000000) "MEDIUM"
                  ltac:(by vm_compute))).
Defined.

(** ** Tab 1: metrics and alert cards *)

(** A percentage compared with a whole number, without the division. *)
Lemma percentage_gt (a b c : Z) :
  0 < b →
  (inject_Z c < inject_Z a / inject_Z b * 100)%Q ↔ c * b < 100 * a.
Proof.
  intros Hb.
  assert (Hb' : (0 < inject_Z b)%Q).
  { change (inject_Z 0 < inject_Z b)%Q. by rewrite <- Zlt_Qlt. }
  assert (Hq : (inject_Z a / inject_Z b * 100
                == inject_Z (100 * a) / inject_Z b)%Q).
  { rewrite inject_Z_mult. field. lra. }
  rewrite Hq. split.
  - intros H. apply Z.nle_gt. intros Hle.
    apply (Qlt_not_le _ _ H). apply Qle_shift_div_r; [done |].
    rewrite <- inject_Z_mult. by rewrite <- Zle_Qle.
  - intros H. apply Qlt_shift_div_l; [done |].
    rewrite <- inject_Z_mult. by rewrite <- Zlt_Qlt.
Qed.

Lemma length_unique (keys : list string) :
  (length (unique keys) ≤ length keys)%nat.
Proof.
  induction keys as [| k keys IH]; simpl; [done |].
  pose proof (length_filter (λ x, x ≠ k) (unique keys)). lia.
Qed.

Lemma nunique_range (keys : list string) :
  keys ≠ [] → 1 ≤ nunique keys ≤ len keys.
Proof.
  intros Hne. unfold nunique, len. pose proof (length_unique keys).
  destruct keys as [| k keys]; [done |]. simpl in *. lia.
Qed.

Lemma mean_None (col : list Z) : mean col = None ↔ col = [].
Proof. unfold mean. by case_decide. Qed.

Lemma sum_bounds (col : list Z) (lo hi : Z) :
  Forall (λ x, lo ≤ x ≤ hi) col →
  lo * len col ≤ foldr Z.add 0 col ≤ hi * len col.
Proof.
  unfold len. induction 1 as [| x col Hx _ IH]; simpl foldr; simpl length;
    [lia | nia].
Qed.

(** The mean of a column lies between any two bounds of its values. *)
Lemma mean_bounds (col : list Z) (lo hi : Z) (m : Q) :
  mean col = Some m → Forall (λ x, lo ≤ x ≤ hi) col →
  (inject_Z lo <= m <= inject_Z hi)%Q.
Proof.
  unfold mean. case_decide as Hne; [done |]. intros [= <-] Hall.
  apply len_pos in Hne. pose proof (sum_bounds col lo hi Hall) as [Hlo Hhi].
  assert (Hn : (0 < inject_Z (len col))%Q).
  { change (inject_Z 0 < inject_Z (len col))%Q. by rewrite <- Zlt_Qlt. }
  split.
  - apply Qle_shift_div_l; [done |].
    rewrite <- inject_Z_mult. by rewrite <- Zle_Qle.
  - apply Qle_shift_div_r; [done |].
    rewrite <- inject_Z_mult. by rewrite <- Zle_Qle.
Qed.

(** What a returned overview holds. *)
Lemma tab1_overview_Ok
    (df1_login : list LoginEvent.t) (df2_duration : list SessionRecord.t)
    (df3_unauth : list AuthAttempt.t) (df4_requests : list RequestLog.t)
    (ov : overview) :
  tab1_overview df1_login df2_duration df3_unauth df4_requests = Ok ov →
  df1_login ≠ [] ∧ df3_unauth ≠ [] ∧ df4_requests ≠ []
  ∧ create_fraud_score_gauge df1_login df3_unauth df4_requests
    = Ok (ov_fraud_score ov, ov_risk_level ov)
  ∧ failed_login_rate df1_login = Ok (ov_failed_rate ov)
  ∧ unauth_rate df3_unauth = Ok (ov_unauth_rate ov)
  ∧ ov_avg_duration ov = mean (SessionRecord.duration_minutes <$> df2_duration)
  ∧ ov_login_alert ov
    = (if Qltb 10 (ov_failed_rate ov) then "alert-critical"
       else "alert-success")
  ∧ ov_unauth_alert ov
    = (if Qltb 30 (ov_unauth_rate ov) then "alert-critical"
       else "alert-warning").
Proof.
  unfold tab1_overview.
  destruct (create_fraud_score_gauge df1_login df3_unauth df4_requests)
    as [[score tier] | e] eqn:Hg; [| done].
  pose proof (create_fraud_score_gauge_inv _ _ _ _ _ Hg)
    as (Hl & Hu & Hr & _).
  rewrite failed_login_rate_ok, unauth_rate_ok by done. simpl.
  intros [= <-]. simpl. done.
Qed.

(** X6.  Tab 1 fails exactly when the gauge does, that is when the login,
    auth-attempt or request table is empty.  An empty session table is
    harmless: the average duration is then NaN and the rest is shown. *)
Theorem tab1_overview_raises
    (df1_login : list LoginEvent.t) (df2_duration : list SessionRecord.t)
    (df3_unauth : list AuthAttempt.t) (df4_requests : list RequestLog.t) :
  (tab1_overview df1_login df2_duration df3_unauth df4_requests
   = Raise ZeroDivisionError
   ↔ df1_login = [] ∨ df3_unauth = [] ∨ df4_requests = [])
  ∧ (∀ ov,
       tab1_overview df1_login df2_duration df3_unauth df4_requests = Ok ov
       → create_fraud_score_gauge df1_login df3_unauth df4_requests
         = Ok (ov_fraud_score ov, ov_risk_level ov)
         ∧ (ov_avg_duration ov = None ↔ df2_duration = [])).
Proof.
  split.
  - split.
    + intros H.
      destruct df1_login as [| l df1]; [tauto |].
      destruct df3_unauth as [| u df3]; [tauto |].
      destruct df4_requests as [| r df4]; [tauto |].
      exfalso. revert H. unfold tab1_overview.
      destruct (create_fraud_score_gauge_nonempty (l :: df1) (u :: df3)
                  (r :: df4)) as [score ->]; [done .. |].
      by rewrite failed_login_rate_ok, unauth_rate_ok.
    + intros H. unfold tab1_overview.
      by rewrite (create_fraud_score_gauge_empty_raise _ _ _ H).
  - intros ov H. apply tab1_overview_Ok in H
      as (_ & _ & _ & Hg & _ & _ & Havg & _).
    split; [done |]. rewrite Havg, mean_None.
    split; [apply fmap_nil_inv | by intros ->].
Qed.

(** X7.  On a returned overview the "Total Attacks" card is the sum of the
    "DOS Attacks" and "Blank Requests" metrics; failed logins and unique
    users are between 0, or 1, and the number of logins; the login card is
    critical exactly when more than one login in ten failed, the
    unauthenticated card exactly when more than three attempts in ten were
    unauthenticated, and the attack card exactly when there are more than
    100 blank or DOS requests. *)
Theorem tab1_overview_metrics
    (df1_login : list LoginEvent.t) (df2_duration : list SessionRecord.t)
    (df3_unauth : list AuthAttempt.t) (df4_requests : list RequestLog.t)
    (ov : overview) :
  tab1_overview df1_login df2_duration df3_unauth df4_requests = Ok ov →
  ov_attack_count ov = ov_dos_attacks ov + ov_blank_requests ov
  ∧ 0 ≤ ov_failed_logins ov ≤ ov_total_login_attempts ov
  ∧ 1 ≤ ov_unique_users ov ≤ ov_total_login_attempts ov
  ∧ (ov_login_alert ov = "alert-critical"
     ↔ ov_total_login_attempts ov < 10 * ov_failed_logins ov)
  ∧ (ov_unauth_alert ov = "alert-critical"
     ↔ 3 * len df3_unauth < 10 * ov_unauth_attempts ov)
  ∧ (ov_attack_alert ov = "alert-critical"
     ↔ 100 < ov_dos_attacks ov + ov_blank_requests ov).
Proof.
  intros H.
  pose proof (tab1_overview_Ok _ _ _ _ _ H)
    as (Hl & Hu & Hr & _ & Hf & Hun & _ & Hla & Hua).
  rewrite failed_login_rate_ok in Hf by done.
  rewrite unauth_rate_ok in Hun by done.
  injection Hf as Hf. injection Hun as Hun.
  assert (Hattack :
    len (filter (λ row, RequestLog.request_type row ∈ ["blank"; "dos_attack"])
           df4_requests)
    = len (filter (λ row, RequestLog.request_type row = "dos_attack")
             df4_requests)
      + len (filter (λ row, RequestLog.request_type row = "blank")
               df4_requests)).
  { rewrite <- len_filter_or by congruence. unfold len. do 2 f_equal.
    apply list_filter_iff. intros row. rewrite isin_blank_dos_attack.
    tauto. }
  revert H Hla Hua. unfold tab1_overview.
  destruct (create_fraud_score_gauge df1_login df3_unauth df4_requests)
    as [[score tier] | e]; [| done].
  rewrite failed_login_rate_ok, unauth_rate_ok by done. simpl.
  intros [= <-]. simpl. intros Hla Hua.
  split_and!.
  - exact Hattack.
  - apply len_nonneg.
  - apply len_filter_le.
  - apply nunique_range. by destruct df1_login.
  - pose proof (nunique_range (LoginEvent.user_id <$> df1_login)) as Hn.
    unfold len in *. rewrite length_fmap in Hn. apply Hn.
    by destruct df1_login.
  - destruct (Qltb 10 _) eqn:E.
    + apply Qltb_lt in E. apply (percentage_gt _ _ 10) in E;
        [| by apply len_pos]. split; [intros _; lia | done].
    + apply Qltb_ge in E. split; [done |]. intros Hlt. exfalso.
      apply (Qle_not_lt _ _ E). apply (percentage_gt _ _ 10);
        [by apply len_pos | lia].
  - destruct (Qltb 30 _) eqn:E.
    + apply Qltb_lt in E. apply (percentage_gt _ _ 30) in E;
        [| by apply len_pos]. split; [intros _; lia | done].
    + apply Qltb_ge in E. split; [done |]. intros Hlt. exfalso.
      apply (Qle_not_lt _ _ E). apply (percentage_gt _ _ 30);
        [by apply len_pos | lia].
  - rewrite Hattack.
    match goal with |- context [decide ?P] => destruct (decide P) end;
      split; intros; first [ done | lia ].
Qed.

(** The worked example: 8 in 100 failed, no critical login card. *)
Lemma tab1_overview_metrics_witness : 30 = 20 + 10.
Proof.
  pose proof (tab1_overview_metrics
                example_logins [session_row 5; session_row 10]
                example_attempts example_requests) as H.
  destruct (tab1_overview example_logins [session_row 5; session_row 10]
              example_attempts example_requests) as [ov | e] eqn:E;
    [| by vm_compute in E].
  vm_compute in E. injection E as <-.
  exact (proj1 (H _ eq_refl)).
Defined.



(** ** Tab 2: detailed analysis *)

(** X9.  In the session analysis the "Suspicious Sessions" metric is the
    sum of the "Very Short" and "Very Long" metrics, and it counts the very
    rows the anomaly tab flags. *)
Theorem suspicious_sessions_count (df2_duration : list SessionRecord.t) :
  len (suspicious_sessions df2_duration)
  = very_short df2_duration + very_long df2_duration.
Proof.
  unfold suspicious_sessions, very_short, very_long.
  apply len_filter_or. intros row. lia.
Qed.

#[global] Instance attempt_ge_trans : Transitive attempt_ge.
Proof. unfold attempt_ge. intros a b c. lia. Qed.

#[global] Instance attempt_ge_total : Total attempt_ge.
Proof. unfold attempt_ge. intros a b. lia. Qed.

(** X10.  The high-risk list holds exactly the rows with more than 5
    attempts, most attempts first, whatever their auth status; every row
    the brute-force rule flags is in it; and the ten rows shown have at
    least as many attempts as any row left out. *)
Theorem high_risk_exact (df3_unauth : list AuthAttempt.t) :
  high_risk df3_unauth
  ≡ₚ filter (λ row, AuthAttempt.attempt_count row > 5) df3_unauth
  ∧ StronglySorted
      (λ a b, AuthAttempt.attempt_count b ≤ AuthAttempt.attempt_count a)
      (high_risk df3_unauth)
  ∧ brute_force df3_unauth ⊆+ high_risk df3_unauth
  ∧ (∀ shown hidden,
       shown ∈ head 10 (high_risk df3_unauth) →
       hidden ∈ drop 10 (high_risk df3_unauth) →
       AuthAttempt.attempt_count hidden ≤ AuthAttempt.attempt_count shown).
Proof.
  assert (Hperm : high_risk df3_unauth
                  ≡ₚ filter (λ row, 5 < AuthAttempt.attempt_count row)
                       df3_unauth)
    by apply merge_sort_Permutation.
  assert (Hsorted : StronglySorted attempt_ge (high_risk df3_unauth))
    by (apply StronglySorted_merge_sort; apply _).
  split_and!.
  - rewrite Hperm.
    rewrite (list_filter_iff (λ row, AuthAttempt.attempt_count row > 5)
               (λ row, 5 < AuthAttempt.attempt_count row));
      [done | intros row; lia].
  - exact Hsorted.
  - rewrite Hperm. unfold brute_force. apply sublist_submseteq.
    clear Hperm Hsorted.
    induction df3_unauth as [| row df IH]; [done |].
    rewrite !filter_cons.
    repeat case_decide;
      first [ by apply sublist_skip | by apply sublist_cons | done
            | exfalso; intuition lia ].
  - intros shown hidden Hshown Hhidden. unfold head in Hshown.
    rewrite <- (take_drop 10 (high_risk df3_unauth)) in Hsorted.
    apply (StronglySorted_app_1_elem_of attempt_ge _ _ shown hidden
             Hsorted Hshown Hhidden).
Qed.

(** X11.  "Recent Failed Logins" and "Recent Attack Logs" show the last
    rows of their kind: at most ten, all of that kind, in table order, and
    every row of the kind that is not shown comes before them. *)
Theorem recent_rows_are_last
    (df1_login : list LoginEvent.t) (df4_requests : list RequestLog.t) :
  (∃ older,
     filter (λ row, LoginEvent.login_status row = "failed") df1_login
     = older ++ recent_failed_logins df1_login
     ∧ length (recent_failed_logins df1_login)
       = (10 `min` length (older ++ recent_failed_logins df1_login))%nat)
  ∧ (∃ older,
       filter (λ row, RequestLog.request_type row = "blank"
                      ∨ RequestLog.request_type row = "dos_attack")
         df4_requests
       = older ++ recent_attacks df4_requests
       ∧ length (recent_attacks df4_requests)
         = (10 `min` length (older ++ recent_attacks df4_requests))%nat)
  ∧ recent_failed_logins df1_login `sublist_of` df1_login
  ∧ recent_attacks df4_requests `sublist_of` df4_requests.
Proof.
  assert (Htail : ∀ (A : Type) (l : list A),
            l = take (length l - 10) l ++ tail 10 l
            ∧ length (tail 10 l) = (10 `min` length l)%nat).
  { intros A l. unfold tail. split; [by rewrite take_drop |].
    rewrite length_drop. lia. }
  assert (Hattacks :
    filter (λ row, RequestLog.request_type row = "blank"
                   ∨ RequestLog.request_type row = "dos_attack") df4_requests
    = filter (λ row, RequestLog.request_type row ∈ ["blank"; "dos_attack"])
        df4_requests).
  { apply list_filter_iff. intros row. by rewrite isin_blank_dos_attack. }
  unfold recent_failed_logins, recent_attacks. rewrite Hattacks.
  split_and!.
  - eexists. destruct (Htail _ (filter (λ row, LoginEvent.login_status row
                                              = "failed") df1_login))
      as [H1 H2].
    split; [exact H1 |]. by rewrite <- H1.
  - eexists. destruct (Htail _ (filter (λ row, RequestLog.request_type row
                                              ∈ ["blank"; "dos_attack"])
                                  df4_requests)) as [H1 H2].
    split; [exact H1 |]. by rewrite <- H1.
  - etrans; [apply sublist_drop | apply sublist_filter].
  - etrans; [apply sublist_drop | apply sublist_filter].
Qed.

(** X12.  The "Suspended/Inactive Services" list of tab 2 is the suspended
    rows of the anomaly tab together with the inactive rows, and nothing
    else; both lists keep the order of the table. *)
Theorem suspended_or_inactive_exact
    (df5_services : list ServiceSubscription.t) :
  suspended_services df5_services
  `sublist_of` suspended_or_inactive df5_services
  ∧ suspended_or_inactive df5_services `sublist_of` df5_services
  ∧ suspended_or_inactive df5_services
    ≡ₚ suspended_services df5_services
       ++ filter (λ row, ServiceSubscription.status row = "inactive")
            df5_services.
Proof.
  unfold suspended_services, suspended_or_inactive.
  assert (Hin : ∀ s : string,
            s ∈ ["suspended"; "inactive"]
            ↔ s = "suspended" ∨ s = "inactive").
  { intros s. rewrite !elem_of_cons, elem_of_nil. tauto. }
  split_and!.
  - induction df5_services as [| row df IH]; [done |].
    rewrite !filter_cons. repeat case_decide.
    + by apply sublist_skip.
    + exfalso. rewrite Hin in *. tauto.
    + by apply sublist_cons.
    + done.
  - apply sublist_filter.
  - induction df5_services as [| row df IH]; [done |].
    rewrite !filter_cons.
    repeat case_decide; rewrite ?Hin in *; simpl;
      first [ congruence | tauto | idtac ].
    + apply perm_skip, IH.
    + rewrite <- Permutation_middle. apply perm_skip, IH.
Qed.

(** ** Series of counts: the charts and the ranking *)

Lemma series_sum_cons (e : string * Z) (s : list (string * Z)) :
  series_sum (e :: s) = e.2 + series_sum s.
Proof. reflexivity. Qed.

Lemma series_sum_app (s1 s2 : list (string * Z)) :
  series_sum (s1 ++ s2) = series_sum s1 + series_sum s2.
Proof.
  unfold series_sum. induction s1 as [| e s1 IH]; simpl; [done | lia].
Qed.

Lemma series_sum_perm (s1 s2 : list (string * Z)) :
  s1 ≡ₚ s2 → series_sum s1 = series_sum s2.
Proof.
  unfold series_sum. induction 1; simpl; lia.
Qed.

Lemma series_sum_nonneg (s : list (string * Z)) :
  Forall (λ e, 0 ≤ e.2) s → 0 ≤ series_sum s.
Proof. unfold series_sum. induction 1; simpl; lia. Qed.

Lemma group_size_cons (k x : string) (keys : list string) :
  group_size k (x :: keys)
  = (if decide (x = k) then 1 else 0) + group_size k keys.
Proof.
  unfold group_size, len. rewrite filter_cons.
  case_decide; simpl length; lia.
Qed.

Lemma group_size_not_in (k : string) (keys : list string) :
  k ∉ keys → group_size k keys = 0.
Proof.
  intros Hk. pose proof (group_size_nonneg k keys).
  destruct (decide (0 < group_size k keys)) as [Hpos | ?]; [| lia].
  by apply group_size_pos in Hpos.
Qed.

(** The sizes of the groups of [keys], summed over the labels [ks]. *)
Lemma size_table_cons_fresh (x : string) (keys ks : list string) :
  x ∉ ks →
  series_sum ((λ k, (k, group_size k (x :: keys))) <$> ks)
  = series_sum ((λ k, (k, group_size k keys)) <$> ks).
Proof.
  induction ks as [| k ks IH]; [done |].
  rewrite not_elem_of_cons. intros [Hne Hks].
  rewrite !fmap_cons, !series_sum_cons. simpl snd.
  rewrite group_size_cons, decide_False by done. rewrite IH by done. lia.
Qed.

Lemma size_table_remove (x : string) (keys ks : list string) :
  NoDup ks →
  series_sum ((λ k, (k, group_size k keys)) <$> filter (λ k, k ≠ x) ks)
  + (if decide (x ∈ ks) then group_size x keys else 0)
  = series_sum ((λ k, (k, group_size k keys)) <$> ks).
Proof.
  induction 1 as [| k ks Hk Hnd IH]; [done |].
  rewrite filter_cons. destruct (decide (k = x)) as [-> | Hne].
  - rewrite decide_False by tauto.
    rewrite decide_True by left.
    rewrite fmap_cons, series_sum_cons. simpl snd.
    rewrite decide_False in IH by done. lia.
  - rewrite decide_True by done.
    rewrite !fmap_cons, !series_sum_cons. simpl snd.
    destruct (decide (x ∈ ks)) as [Hin | Hout].
    + rewrite decide_True by (by right). lia.
    + rewrite decide_False; [lia |].
      rewrite not_elem_of_cons. split; [congruence | done].
Qed.

Lemma size_table_sum (keys : list string) :
  series_sum ((λ k, (k, group_size k keys)) <$> unique keys) = len keys.
Proof.
  induction keys as [| x keys IH]; [done |].
  change (unique (x :: keys)) with (x :: filter (λ k, k ≠ x) (unique keys)).
  rewrite fmap_cons, series_sum_cons. simpl snd.
  rewrite size_table_cons_fresh
    by (rewrite list_elem_of_filter; tauto).
  pose proof (size_table_remove x keys (unique keys) (NoDup_unique keys))
    as Hrem.
  rewrite IH in Hrem. rewrite group_size_cons, decide_True by done.
  destruct (decide (x ∈ unique keys)) as [Hin | Hout].
  - unfold len in *. simpl length. lia.
  - rewrite elem_of_unique in Hout.
    rewrite (group_size_not_in x keys Hout).
    unfold len in *. simpl length. lia.
Qed.

Lemma value_counts_sum (keys : list string) :
  series_sum (value_counts keys) = len keys.
Proof.
  unfold value_counts.
  rewrite (series_sum_perm _ _ (sort_values_desc_perm _)).
  apply size_table_sum.
Qed.

Lemma value_counts_length (keys : list string) :
  length (value_counts keys) = length (unique keys).
Proof.
  unfold value_counts. rewrite sort_values_desc_perm. apply length_fmap.
Qed.

Lemma value_counts_nonneg (keys : list string) :
  Forall (λ e, 0 ≤ e.2) (value_counts keys).
Proof.
  apply Forall_forall. intros [k n] Hin.
  apply elem_of_value_counts in Hin as [_ ->]. apply group_size_nonneg.
Qed.

Lemma group_size_fmap {A : Type} (col : A → string) (df : list A)
    (k : string) :
  group_size k (col <$> df) = len (filter (λ row, col row = k) df).
Proof.
  unfold group_size, len. f_equal.
  induction df as [| row df IH]; [done |].
  rewrite fmap_cons, !filter_cons.
  destruct (decide (col row = k)); simpl length; by rewrite IH.
Qed.

(** [value_counts] of a column is the census of that column. *)
Lemma value_counts_census {A : Type} (col : A → string) (df : list A) :
  census col df (value_counts (col <$> df)).
Proof.
  unfold census. split_and!.
  - apply NoDup_value_counts.
  - apply sort_values_desc_sorted.
  - intros label n. rewrite elem_of_value_counts, <- group_size_pos.
    rewrite group_size_fmap. split; [intros [? ->]; done | intros [-> ?]; done].
  - rewrite value_counts_sum. unfold len. by rewrite length_fmap.
Qed.

(** X13.  Each chart that plots [value_counts] shows the census of its
    column: the auth-status pie, the request-type bars, the service bars,
    the browser pie, the subscription-status pie and, over the
    unauthenticated rows, the failure-reason bars.  So every label that
    occurs gets one slice, sized by its number of rows, and the slices add
    up to the whole table. *)
Theorem charts_show_census
    (df1_login : list LoginEvent.t) (df3_unauth : list AuthAttempt.t)
    (df4_requests : list RequestLog.t)
    (df5_services : list ServiceSubscription.t) :
  census AuthAttempt.auth_status df3_unauth
    (create_auth_pie_chart df3_unauth)
  ∧ census RequestLog.request_type df4_requests
      (create_request_type_chart df4_requests)
  ∧ census ServiceSubscription.service_name df5_services
      (create_service_chart df5_services)
  ∧ census LoginEvent.browser df1_login (browser_counts df1_login)
  ∧ census ServiceSubscription.status df5_services
      (status_counts df5_services)
  ∧ census AuthAttempt.failure_reason
      (filter (λ row, AuthAttempt.auth_status row = "unauthenticated")
         df3_unauth)
      (reason_counts df3_unauth).
Proof. split_and!; apply value_counts_census. Qed.

(** X14.  For any [top_n] the ranking of [create_top_ips_chart] has
    [top_n] entries, or one per attacking IP when there are fewer; its
    counts never add up to more than the number of blank and DOS requests,
    and add up to exactly that number when no attacking IP is cut off. *)
Theorem create_top_ips_chart_size
    (df : list RequestLog.t) (top_n : nat) :
  let attacks :=
    filter (λ row, RequestLog.request_type row = "blank"
                   ∨ RequestLog.request_type row = "dos_attack") df in
  let attackers := nunique (RequestLog.ip_address <$> attacks) in
  let top_ips := create_top_ips_chart df top_n in
  Z.of_nat (length top_ips) = Z.of_nat top_n `min` attackers
  ∧ 0 ≤ series_sum top_ips ≤ len attacks
  ∧ (attackers ≤ Z.of_nat top_n → series_sum top_ips = len attacks).
Proof.
  intros attacks attackers top_ips.
  assert (Hattacks :
    attacks
    = filter (λ row, RequestLog.request_type row ∈ ["blank"; "dos_attack"])
        df).
  { apply list_filter_iff. intros row. by rewrite isin_blank_dos_attack. }
  set (keys := RequestLog.ip_address <$> attacks).
  assert (Htop : top_ips = take top_n (value_counts keys)).
  { unfold top_ips, create_top_ips_chart, head, keys. by rewrite Hattacks. }
  assert (Hlen : len attacks = len keys)
    by (unfold len, keys; by rewrite length_fmap).
  assert (Hsum : series_sum (take top_n (value_counts keys))
                 + series_sum (drop top_n (value_counts keys))
                 = len keys).
  { rewrite <- series_sum_app, take_drop. apply value_counts_sum. }
  pose proof (value_counts_nonneg keys) as Hnn.
  assert (H1 : 0 ≤ series_sum (take top_n (value_counts keys))).
  { apply series_sum_nonneg.
    rewrite <- (take_drop top_n (value_counts keys)) in Hnn.
    by apply Forall_app in Hnn as [? _]. }
  assert (H2 : 0 ≤ series_sum (drop top_n (value_counts keys))).
  { apply series_sum_nonneg.
    rewrite <- (take_drop top_n (value_counts keys)) in Hnn.
    by apply Forall_app in Hnn as [_ ?]. }
  rewrite Htop, Hlen. split_and!.
  - rewrite length_take, value_counts_length.
    unfold attackers, nunique, len. fold keys. lia.
  - done.
  - lia.
  - intros Hall. rewrite take_ge; [apply value_counts_sum |].
    rewrite value_counts_length.
    unfold attackers, nunique, len in Hall. fold keys in Hall. lia.
Qed.

(** ** Tab 4: the summary report *)

(** X15.  In the summary, Successful + Failed never exceeds Total Logins
    and equals it exactly when every login status is "success" or
    "failed"; likewise Authenticated + Unauthenticated against Total
    Attempts, and Normal + Blank + DOS against Total Requests.  Short +
    Long never exceeds Total Sessions, nor Active + Suspended Total
    Subscriptions. *)
Theorem summary_report_totals
    (score : Q) (level : string)
    (df1_login : list LoginEvent.t) (df2_duration : list SessionRecord.t)
    (df3_unauth : list AuthAttempt.t) (df4_requests : list RequestLog.t)
    (df5_services : list ServiceSubscription.t) :
  let s := summary_report score level df1_login df2_duration df3_unauth
             df4_requests df5_services in
  sum_successful s + sum_failed s ≤ sum_total_logins s
  ∧ (sum_successful s + sum_failed s = sum_total_logins s
     ↔ Forall (λ row, LoginEvent.login_status row = "success"
                      ∨ LoginEvent.login_status row = "failed") df1_login)
  ∧ sum_authenticated s + sum_unauthenticated s ≤ sum_total_attempts s
  ∧ (sum_authenticated s + sum_unauthenticated s = sum_total_attempts s
     ↔ Forall (λ row, AuthAttempt.auth_status row = "authenticated"
                      ∨ AuthAttempt.auth_status row = "unauthenticated")
         df3_unauth)
  ∧ sum_normal s + sum_blank_requests s + sum_dos_attacks s
    ≤ sum_total_requests s
  ∧ (sum_normal s + sum_blank_requests s + sum_dos_attacks s
     = sum_total_requests s
     ↔ Forall (λ row, (RequestLog.request_type row = "normal"
                       ∨ RequestLog.request_type row = "blank")
                      ∨ RequestLog.request_type row = "dos_attack")
         df4_requests)
  ∧ sum_suspicious_short s + sum_suspicious_long s ≤ sum_total_sessions s
  ∧ sum_active s + sum_suspended s ≤ sum_total_subscriptions s.
Proof.
  simpl.
  rewrite <- (len_filter_or
                (λ row, LoginEvent.login_status row = "success")) by congruence.
  rewrite <- (len_filter_or
                (λ row, AuthAttempt.auth_status row = "authenticated"))
    by congruence.
  rewrite <- (len_filter_or
                (λ row, RequestLog.request_type row = "normal")) by congruence.
  rewrite <- (len_filter_or
                (λ row, RequestLog.request_type row = "normal"
                        ∨ RequestLog.request_type row = "blank"))
    by (intros row [? | ?]; congruence).
  rewrite <- (len_filter_or
                (λ row, SessionRecord.duration_minutes row < 3))
    by (intros row; lia).
  rewrite <- (len_filter_or
                (λ row, ServiceSubscription.status row = "active"))
    by congruence.
  split_and!; first [ apply len_filter_le | apply len_filter_all ].
Qed.

(** ** [main]: loading and re-running *)

(** The anomaly report of a session state. *)
Lemma tab5_anomaly_detection_run (st : session_state) :
  tab5_anomaly_detection st
  = (Ok (mk_anomaly_report
           (critical_ips (df1_login st))
           (suspicious_sessions (df2_duration st))
           (brute_force (df3_unauth st)) (dos_attacks (df4_requests st))
           (dos_by_ip (df4_requests st))
           (suspended_services (df5_services st))), st).
Proof. reflexivity. Qed.

Lemma analysis_pass_run (st : session_state) :
  analysis_pass st
  = if data_loaded st then
      match create_fraud_score_gauge (df1_login st) (df3_unauth st)
              (df4_requests st) with
      | Ok score =>
          (Ok (Some (score, mk_anomaly_report
                              (critical_ips (df1_login st))
                              (suspicious_sessions (df2_duration st))
                              (brute_force (df3_unauth st))
                              (dos_attacks (df4_requests st))
                              (dos_by_ip (df4_requests st))
                              (suspended_services (df5_services st)))), st)
      | Raise e => (Raise e, st)
      end
    else (Ok None, st).
Proof.
  unfold analysis_pass, tab1_fraud_score, tab5_anomaly_detection, read, pure,
    mbind, app_bind, mret, app_ret. simpl.
  destruct (data_loaded st); [| done].
  by destruct (create_fraud_score_gauge _ _ _).
Qed.

Lemma analysis_leaves_state (st : session_state) :
  (analysis_pass st).2 = st.
Proof.
  rewrite analysis_pass_run. destruct (data_loaded st); [| done].
  by destruct (create_fraud_score_gauge _ _ _).
Qed.

(** A run without a click shows what the state holds and keeps it. *)
Lemma main_no_click (source : data_source) (up : uploads)
    (synthetic : dataset) (st : session_state) :
  main false source up synthetic st
  = (match (analysis_pass st).1 with
     | Ok (Some (score, report)) => Ok (Dashboard score report)
     | Ok None => Ok WelcomeScreen
     | Raise e => Raise e
     end, st).
Proof.
  unfold main, mbind, app_bind, mret, app_ret. simpl.
  pose proof (analysis_leaves_state st) as Hst.
  destruct (analysis_pass st) as [[[[score report] |] | e] st'];
    simpl in *; by subst.
Qed.

(** The state a successful load leaves. *)
Lemma main_click (source : data_source) (up : uploads)
    (synthetic ds : dataset) (st : session_state) :
  (source = GenerateSyntheticData ∧ ds = synthetic)
  ∨ (source = UploadCsvFiles ∧ read_uploads up = Some ds) →
  let loaded :=
    mk_session_state (ds_login ds) (ds_duration ds) (ds_unauth ds)
      (ds_requests ds) (ds_services ds) true in
  main true source up synthetic st
  = main false source up synthetic loaded.
Proof.
  intros [[-> ->] | [-> Hup]]; unfold main, mbind at 1 3, app_bind at 1 3;
    simpl; rewrite ?Hup; reflexivity.
Qed.

(** X16.  With the upload source chosen and any of the five files
    missing, a click reports the error and stops: nothing is stored, and
    no dashboard is shown in that run even when data was loaded before. *)
Theorem main_missing_upload
    (up : uploads) (synthetic : dataset) (st : session_state) :
  uploaded_login up = None ∨ uploaded_duration up = None
  ∨ uploaded_unauth up = None ∨ uploaded_request up = None
  ∨ uploaded_service up = None →
  main true UploadCsvFiles up synthetic st = (Ok UploadError, st).
Proof.
  intros H.
  assert (Hnone : read_uploads up = None).
  { unfold read_uploads.
    destruct (uploaded_login up); [| done].
    destruct (uploaded_duration up); [| done].
    destruct (uploaded_unauth up); [| done].
    destruct (uploaded_request up); [| done].
    destruct (uploaded_service up); [| done].
    destruct H as [? | [? | [? | [? | ?]]]]; discriminate. }
  unfold main, mbind, app_bind. by rewrite Hnone.
Qed.

(** Four files chosen, the service file missing, data loaded earlier. *)
Lemma main_missing_upload_witness :
  let up := mk_uploads (Some example_logins) (Some []) (Some example_attempts)
              (Some example_requests) None in
  let st := mk_session_state example_logins [] example_attempts
              example_requests [] true in
  main true UploadCsvFiles up (mk_dataset [] [] [] [] []) st
  = (Ok UploadError, st).
Proof.
  apply (main_missing_upload
           (mk_uploads (Some example_logins) (Some [])
              (Some example_attempts) (Some example_requests) None)).
  do 4 right. reflexivity.
Defined.

(** X17.  A successful load, from the five uploaded files or from the
    synthetic data, replaces whatever the session held by the loaded
    tables, and every later run without a click shows the same page again
    and leaves the state as it is, whatever the widgets then hold. *)
Theorem main_load_then_rerun
    (source : data_source) (up : uploads) (synthetic ds : dataset)
    (st : session_state) :
  (source = GenerateSyntheticData ∧ ds = synthetic)
  ∨ (source = UploadCsvFiles ∧ read_uploads up = Some ds) →
  let loaded :=
    mk_session_state (ds_login ds) (ds_duration ds) (ds_unauth ds)
      (ds_requests ds) (ds_services ds) true in
  (main true source up synthetic st).2 = loaded
  ∧ ∀ source' up' synthetic',
      main false source' up' synthetic' loaded
      = main true source up synthetic st.
Proof.
  intros H loaded. rewrite (main_click _ _ _ ds st H). fold loaded.
  rewrite !main_no_click. split; [done |]. intros. by rewrite !main_no_click.
Qed.

(** The worked example generated as synthetic data into a fresh
    session. *)
Lemma main_load_then_rerun_witness :
  let ds := mk_dataset example_logins [] example_attempts example_requests
              [] in
  (main true GenerateSyntheticData (mk_uploads None None None None None) ds
     fresh_session).2
  = mk_session_state example_logins [] example_attempts example_requests []
      true.
Proof.
  apply (main_load_then_rerun GenerateSyntheticData
           (mk_uploads None None None None None)
           (mk_dataset example_logins [] example_attempts example_requests [])
           (mk_dataset example_logins [] example_attempts example_requests [])
           fresh_session).
  left. split; reflexivity.
Defined.

(** X18.  Whatever the widgets hold, a run of [main] never unloads data:
    once [data_loaded] is set it stays set.  A run without a click leaves
    the whole session state as it is, and it shows the welcome screen
    exactly when no data is loaded. *)
Theorem main_keeps_data
    (analyze_button : bool) (source : data_source) (up : uploads)
    (synthetic : dataset) (st : session_state) :
  (data_loaded st = true
   → data_loaded (main analyze_button source up synthetic st).2 = true)
  ∧ (main false source up synthetic st).2 = st
  ∧ ((main false source up synthetic st).1 = Ok WelcomeScreen
     ↔ data_loaded st = false).
Proof.
  split_and!.
  - intros Hloaded. destruct analyze_button; [| by rewrite main_no_click].
    destruct source.
    + destruct (read_uploads up) as [ds |] eqn:Hup.
      * by rewrite (main_click UploadCsvFiles up synthetic ds st),
          main_no_click by tauto.
      * unfold main, mbind, app_bind. by rewrite Hup.
    + by rewrite (main_click GenerateSyntheticData up synthetic synthetic st),
        main_no_click by tauto.
  - by rewrite main_no_click.
  - rewrite main_no_click, analysis_pass_run. simpl.
    destruct (data_loaded st); [| done].
    destruct (create_fraud_score_gauge _ _ _) as [[score tier] | e]; done.
Qed.



(** ** The synthetic data *)

Lemma gen_all_ret {A : Type} (a : A) (P : A → Prop) :
  P a → gen_all (mret a) P.
Proof. by intros Ha r. Qed.

Lemma gen_all_bind {A B : Type} (m : gen A) (k : A → gen B)
    (Q : A → Prop) (P : B → Prop) :
  gen_all m Q → (∀ a, Q a → gen_all (k a) P) → gen_all (m ≫= k) P.
Proof.
  intros Hm Hk r. unfold mbind, gen_bind.
  specialize (Hm r). destruct (m r) as [a r']. by apply Hk.
Qed.

Lemma gen_all_any {A : Type} (m : gen A) : gen_all m (λ _, True).
Proof. by intros r. Qed.

Lemma gen_all_randint (a b : Z) :
  a ≤ b → gen_all (random_randint a b) (λ x, a ≤ x ≤ b).
Proof.
  intros Hab r. unfold random_randint, mbind, gen_bind, py_draw. simpl.
  pose proof (Z.mod_pos_bound (py_stream r (py_pos r)) (b - a + 1)). lia.
Qed.

Lemma lookup_total_mod {A : Type} `{Inhabited A} (seq : list A) (k : Z) :
  seq ≠ [] → seq !!! Z.to_nat (k `mod` len seq) ∈ seq.
Proof.
  intros Hne. apply list_elem_of_lookup_total_2.
  pose proof (len_pos seq Hne) as Hpos.
  pose proof (Z.mod_pos_bound k (len seq) Hpos). unfold len in *. lia.
Qed.

Lemma gen_all_choice {A : Type} `{Inhabited A} (seq : list A) :
  seq ≠ [] → gen_all (random_choice seq) (λ x, x ∈ seq).
Proof. intros Hne r. by apply lookup_total_mod. Qed.

Lemma gen_all_np_choice {A : Type} `{Inhabited A} (a : list A) :
  a ≠ [] → gen_all (np_random_choice a) (λ x, x ∈ a).
Proof. intros Hne r. by apply lookup_total_mod. Qed.

Lemma gen_all_for {A : Type} (n : nat) (body : gen A) (P : A → Prop) :
  gen_all body P →
  gen_all (gen_for n body) (λ l, length l = n ∧ Forall P l).
Proof.
  intros Hbody. induction n as [| n IH]; simpl.
  - by apply gen_all_ret.
  - eapply gen_all_bind; [exact Hbody |]. intros x Hx.
    eapply gen_all_bind; [exact IH |]. intros xs [Hlen Hxs].
    apply gen_all_ret. simpl. split; [by rewrite Hlen | by constructor].
Qed.

Lemma gen_all_for_each {A B : Type} (xs : list A) (body : A → gen B)
    (P : B → Prop) :
  (∀ x, gen_all (body x) P) →
  gen_all (gen_for_each xs body) (λ l, length l = length xs ∧ Forall P l).
Proof.
  intros Hbody. induction xs as [| x xs IH]; simpl.
  - by apply gen_all_ret.
  - eapply gen_all_bind; [apply Hbody |]. intros y Hy.
    eapply gen_all_bind; [exact IH |]. intros ys [Hlen Hys].
    apply gen_all_ret. simpl. split; [by rewrite Hlen | by constructor].
Qed.

Lemma sort_by_column_perm {A : Type} (col : A → string) (df : list A) :
  sort_by_column col df ≡ₚ df.
Proof. apply merge_sort_Permutation. Qed.

#[global] Instance column_le_total {A : Type} (col : A → string) :
  Total (column_le col).
Proof. intros a b. apply String.leb_total. Qed.

Lemma sort_by_column_sorted {A : Type} (col : A → string) (df : list A) :
  Sorted (column_le col) (sort_by_column col df).
Proof. apply Sorted_merge_sort. apply _. Qed.

Lemma user_ids_nonempty : user_ids ≠ [] ∧ suspicious_users ≠ [].
Proof. split; discriminate. Qed.

(** A regular user id is never a suspicious one: they start with USR and
    with SUS. *)
Lemma user_ids_disjoint (u : string) :
  u ∈ user_ids → u ∈ suspicious_users → False.
Proof.
  unfold user_ids, suspicious_users. rewrite !list_elem_of_fmap.
  intros (i & -> & _) (j & Hj & _). discriminate.
Qed.

(** One step through a generator, keeping what the call guarantees. *)
Ltac gen_step :=
  lazymatch goal with
  | |- gen_all (mret _) _ => apply gen_all_ret
  | |- gen_all (random_random ≫= _) _ =>
      eapply gen_all_bind; [apply gen_all_any | intros ? _]
  | |- gen_all (random_randint ?a ?b ≫= _) _ =>
      eapply gen_all_bind; [apply (gen_all_randint a b); lia | intros ? ?]
  | |- gen_all (random_randint ?a ?b) _ =>
      intros ?; apply (gen_all_randint a b); lia
  | |- gen_all (random_choice ?l ≫= _) _ =>
      eapply gen_all_bind;
        [first [ apply (gen_all_choice l);
                 first [ apply user_ids_nonempty | discriminate ]
               | apply gen_all_any ]
        | intros ? ?]
  | |- gen_all (np_random_choice ?l ≫= _) _ =>
      eapply gen_all_bind;
        [apply (gen_all_np_choice l); discriminate | intros ? ?]
  end;
  cbv beta in *.

Lemma login_loop_body_row (normal_ips suspicious_ips : list string)
    (timestamp : string) :
  gen_all (login_loop_body normal_ips suspicious_ips timestamp)
    synthetic_login.
Proof.
  unfold login_loop_body. gen_step.
  apply (gen_all_bind _ _
           (λ t, (t.1.1 ∈ user_ids ∨ t.1.1 ∈ suspicious_users)
                 ∧ t.2 ∈ ["success"; "failed"])).
  - destruct (Qltb _ _); repeat gen_step; simpl; tauto.
  - intros [[u i] s] [Hu Hs]. simpl in *. repeat gen_step.
    unfold synthetic_login. simpl. tauto.
Qed.

Lemma session_loop_body_row (strftime : string → Z → string) (i : nat) :
  gen_all (session_loop_body strftime i) synthetic_session.
Proof.
  unfold session_loop_body. do 2 gen_step.
  apply (gen_all_bind _ _
           (λ t, (t.2 ∈ user_ids ∧ 5 ≤ t.1 ≤ 60)
                 ∨ (t.2 ∈ suspicious_users
                    ∧ (1 ≤ t.1 ≤ 3 ∨ 180 ≤ t.1 ≤ 480)))).
  - destruct (Qltb _ _).
    + repeat gen_step. simpl. tauto.
    + gen_step.
      apply (gen_all_bind _ _ (λ d, 1 ≤ d ≤ 3 ∨ 180 ≤ d ≤ 480)).
      * destruct (Qltb _ _); intros r.
        -- left. apply (gen_all_randint 1 3). lia.
        -- right. apply (gen_all_randint 180 480). lia.
      * intros d Hd. repeat gen_step. simpl. tauto.
  - intros [d u] Ht. simpl in *. gen_step.
    unfold synthetic_session. simpl. tauto.
Qed.

Lemma unauth_loop_body_row (normal_ips suspicious_ips : list string)
    (timestamp : string) :
  gen_all (unauth_loop_body normal_ips suspicious_ips timestamp)
    synthetic_auth.
Proof.
  unfold unauth_loop_body. gen_step.
  destruct (Qltb _ _); repeat gen_step; unfold synthetic_auth; simpl.
  - left. done.
  - right. done.
Qed.

Lemma request_loop_body_row (normal_ips suspicious_ips : list string)
    (timestamp : string) :
  gen_all (request_loop_body normal_ips suspicious_ips timestamp)
    synthetic_request.
Proof.
  unfold request_loop_body. gen_step.
  destruct (Qltb _ 0.75); [| destruct (Qltb _ 0.90)];
    repeat gen_step; unfold synthetic_request; simpl.
  - left. done.
  - right; left. done.
  - right; right. done.
Qed.

Lemma service_loop_body_row (strftime : string → Z → string) :
  gen_all (service_loop_body strftime) synthetic_service.
Proof.
  unfold service_loop_body. gen_step.
  apply (gen_all_bind _ _
           (λ t, (t.1 ∈ user_ids ∧ t.2 ∈ ["active"; "inactive"])
                 ∨ (t.1 ∈ suspicious_users
                    ∧ t.2 ∈ ["active"; "inactive"; "suspended";
                             "pending"]))).
  - destruct (Qltb _ _); repeat gen_step; simpl; tauto.
  - intros [u s] Ht. simpl in *. repeat gen_step.
    unfold synthetic_service. simpl. tauto.
Qed.

(** Whatever the two generators yield, the five tables are synthetic
    datasets in the sense above. *)
Lemma generate_synthetic_data_rows (strftime : string → Z → string) :
  gen_all (generate_synthetic_data strftime) synthetic_dataset.
Proof.
  unfold generate_synthetic_data.
  eapply gen_all_bind; [apply gen_all_any | intros normal_ips _].
  eapply gen_all_bind; [apply gen_all_any | intros suspicious_ips _].
  eapply gen_all_bind;
    [apply (gen_all_for 500 _ (λ _, True)), gen_all_any
    | intros login_ts [Hts1 _]].
  eapply gen_all_bind;
    [apply gen_all_for_each; intros; apply login_loop_body_row
    | intros login_rows [Hl1 Hl2]].
  eapply gen_all_bind;
    [apply gen_all_for_each; intros; apply session_loop_body_row
    | intros session_rows [Hs1 Hs2]].
  eapply gen_all_bind;
    [apply (gen_all_for 500 _ (λ _, True)), gen_all_any
    | intros unauth_ts [Hts2 _]].
  eapply gen_all_bind;
    [apply gen_all_for_each; intros; apply unauth_loop_body_row
    | intros unauth_rows [Hu1 Hu2]].
  eapply gen_all_bind;
    [apply (gen_all_for 500 _ (λ _, True)), gen_all_any
    | intros request_ts [Hts3 _]].
  eapply gen_all_bind;
    [apply gen_all_for_each; intros; apply request_loop_body_row
    | intros request_rows [Hr1 Hr2]].
  eapply gen_all_bind;
    [apply gen_all_for, service_loop_body_row
    | intros service_rows [Hv1 Hv2]].
  apply gen_all_ret. unfold synthetic_dataset. simpl.
  rewrite !sort_by_column_perm.
  rewrite Hl1, Hs1, Hu1, Hr1, Hv1, Hts1, Hts2, Hts3, length_seq. done.
Qed.

Lemma generate_synthetic_data_sorted (strftime : string → Z → string) :
  gen_all (generate_synthetic_data strftime)
    (λ ds,
       Sorted (column_le LoginEvent.timestamp) (ds_login ds)
       ∧ Sorted (column_le SessionRecord.start_time) (ds_duration ds)
       ∧ Sorted (column_le AuthAttempt.timestamp) (ds_unauth ds)
       ∧ Sorted (column_le RequestLog.timestamp) (ds_requests ds)
       ∧ Sorted (column_le ServiceSubscription.subscription_date)
           (ds_services ds)).
Proof.
  unfold generate_synthetic_data.
  do 10 (eapply gen_all_bind; [apply gen_all_any | intros ? _]).
  apply gen_all_ret. simpl. split_and!; apply sort_by_column_sorted.
Qed.

(** X20.  Whatever the random generators yield,
    [generate_synthetic_data] returns five tables of 500 rows each, every
    table in ascending order of the text of its time column; so the
    "Generate & Analyze" button always ends in the dashboard and never in
    a division error. *)
Theorem synthetic_data_always_shown
    (strftime : string → Z → string) (r : rng)
    (up : uploads) (st : session_state) :
  let ds := (generate_synthetic_data strftime r).1 in
  (length (ds_login ds) = 500%nat ∧ length (ds_duration ds) = 500%nat
   ∧ length (ds_unauth ds) = 500%nat ∧ length (ds_requests ds) = 500%nat
   ∧ length (ds_services ds) = 500%nat)
  ∧ (Sorted (λ a b, string_le (LoginEvent.timestamp a)
                      (LoginEvent.timestamp b)) (ds_login ds)
     ∧ Sorted (λ a b, string_le (SessionRecord.start_time a)
                        (SessionRecord.start_time b)) (ds_duration ds)
     ∧ Sorted (λ a b, string_le (AuthAttempt.timestamp a)
                        (AuthAttempt.timestamp b)) (ds_unauth ds)
     ∧ Sorted (λ a b, string_le (RequestLog.timestamp a)
                        (RequestLog.timestamp b)) (ds_requests ds)
     ∧ Sorted (λ a b, string_le (ServiceSubscription.subscription_date a)
                        (ServiceSubscription.subscription_date b))
         (ds_services ds))
  ∧ ∃ score report,
      main true GenerateSyntheticData up ds st
      = (Ok (Dashboard score report),
         mk_session_state (ds_login ds) (ds_duration ds) (ds_unauth ds)
           (ds_requests ds) (ds_services ds) true).
Proof.
  intros ds.
  pose proof (generate_synthetic_data_rows strftime r)
    as ((Hl & _) & (Hs & _) & (Hu & _) & (Hr & _) & (Hv & _)).
  pose proof (generate_synthetic_data_sorted strftime r) as Hsorted.
  fold ds in Hl, Hs, Hu, Hr, Hv, Hsorted. clearbody ds.
  split_and!; try done; try apply Hsorted.
  rewrite (main_click GenerateSyntheticData up ds ds st) by tauto.
  rewrite main_no_click, analysis_pass_run. simpl.
  destruct (create_fraud_score_gauge_nonempty (ds_login ds) (ds_unauth ds)
              (ds_requests ds)) as [score ->];
    [by destruct (ds_login ds) | by destruct (ds_unauth ds)
    | by destruct (ds_requests ds) |].
  eauto.
Qed.

(** X21.  Every synthetic session lasts 1 to 3, 5 to 60 or 180 to 480
    minutes.  The session rule flags it exactly when it lasts 1 or 2
    minutes or more than 180: the suspicious sessions generated with
    exactly 3 or exactly 180 minutes go unflagged, and a session of a
    regular user (an id from [user_ids]) is never flagged. *)
Theorem synthetic_sessions_flagged
    (strftime : string → Z → string) (r : rng) :
  let df2_duration := ds_duration (generate_synthetic_data strftime r).1 in
  ∀ row, row ∈ df2_duration →
    let d := SessionRecord.duration_minutes row in
    (1 ≤ d ≤ 3 ∨ 5 ≤ d ≤ 60 ∨ 180 ≤ d ≤ 480)
    ∧ (row ∈ suspicious_sessions df2_duration ↔ d ≤ 2 ∨ 181 ≤ d)
    ∧ (SessionRecord.user_id row ∈ user_ids
       → row ∉ suspicious_sessions df2_duration)
    ∧ (row ∈ suspicious_sessions df2_duration
       → SessionRecord.user_id row ∈ suspicious_users).
Proof.
  intros df2 row Hin d.
  pose proof (generate_synthetic_data_rows strftime r)
    as (_ & (_ & Hall) & _).
  fold df2 in Hall. clearbody df2. rewrite Forall_forall in Hall.
  specialize (Hall row Hin). unfold synthetic_session in Hall. fold d in Hall.
  unfold suspicious_sessions. rewrite list_elem_of_filter. fold d.
  pose proof (user_ids_disjoint (SessionRecord.user_id row)) as Hdisj.
  split_and!.
  - lia.
  - split; [lia |]. intros ?. split; [lia | done].
  - intros Hu [Hd _]. destruct Hall as [[_ ?] | [Hs _]]; [lia | tauto].
  - intros [Hd _]. destruct Hall as [[_ ?] | [Hs _]]; [lia | done].
Qed.

(** A run in which Python's generator keeps yielding 2^53 - 1: the first
    row of the table is a session of 421 minutes of a suspicious user, and
    it is flagged. *)
Lemma synthetic_sessions_flagged_witness :
  SessionRecord.mk "SES00497" "SUS0042" "" "" 421
  ∈ suspicious_sessions
      (ds_duration
         (generate_synthetic_data (λ _ _, "")
            (mk_rng (λ _, 2 ^ 53 - 1) 0%nat (λ _, 0) 0%nat)).1).
Proof.
  assert (Hin : SessionRecord.mk "SES00497" "SUS0042" "" "" 421
                ∈ ds_duration
                    (generate_synthetic_data (λ _ _, "")
                       (mk_rng (λ _, 2 ^ 53 - 1) 0%nat (λ _, 0) 0%nat)).1).
  { apply (list_elem_of_lookup_2 _ 0%nat). vm_compute. reflexivity. }
  destruct (synthetic_sessions_flagged _ _ _ Hin) as (_ & Hflag & _).
  apply Hflag. right. change (181 ≤ 421). lia.
Defined.

(** X22.  In the synthetic auth table an authenticated row always has
    attempt_count 1 and failure_reason "None", an unauthenticated row has
    1 to 15 attempts and one of the six failure reasons, and there is no
    other status.  So the rows the brute-force rule flags have 11 to 15
    attempts, and every row of the high-risk list is unauthenticated. *)
Theorem synthetic_auth_rows
    (strftime : string → Z → string) (r : rng) :
  let df3_unauth := ds_unauth (generate_synthetic_data strftime r).1 in
  (∀ row, row ∈ df3_unauth →
     (AuthAttempt.auth_status row = "authenticated"
      ∧ AuthAttempt.attempt_count row = 1
      ∧ AuthAttempt.failure_reason row = "None")
     ∨ (AuthAttempt.auth_status row = "unauthenticated"
        ∧ 1 ≤ AuthAttempt.attempt_count row ≤ 15
        ∧ AuthAttempt.failure_reason row ∈ failure_reasons))
  ∧ (∀ row, row ∈ brute_force df3_unauth
            → 11 ≤ AuthAttempt.attempt_count row ≤ 15)
  ∧ (∀ row, row ∈ high_risk df3_unauth
            → AuthAttempt.auth_status row = "unauthenticated"
              ∧ 6 ≤ AuthAttempt.attempt_count row ≤ 15).
Proof.
  intros df3.
  pose proof (generate_synthetic_data_rows strftime r)
    as (_ & _ & (_ & Hall) & _).
  fold df3 in Hall. clearbody df3. rewrite Forall_forall in Hall.
  unfold synthetic_auth in Hall. split_and!.
  - exact Hall.
  - intros row. unfold brute_force. rewrite list_elem_of_filter.
    intros [[_ Hc] Hin]. destruct (Hall row Hin) as [(_ & ? & _) | ?]; lia.
  - intros row. unfold high_risk, sort_by_attempt_count_desc.
    rewrite merge_sort_Permutation, list_elem_of_filter.
    intros [Hc Hin]. destruct (Hall row Hin) as [(_ & ? & _) | (? & ? & _)];
      [lia | split; [done | lia]].
Qed.

(** X23.  In the synthetic request table the request type fixes the
    payload and the status code: a dos_attack row carries 10000 to 50000
    bytes and status 429 or 503, a blank row 0 to 50 bytes and status 400
    or 403, a normal row 100 to 5000 bytes and status 200 or 400; there is
    no other type.  In particular every row the DOS rule flags has a
    payload of at least 10000. *)
Theorem synthetic_request_rows
    (strftime : string → Z → string) (r : rng) :
  let df4_requests := ds_requests (generate_synthetic_data strftime r).1 in
  (∀ row, row ∈ df4_requests →
     (RequestLog.request_type row = "normal"
      ∧ 100 ≤ RequestLog.payload_size row ≤ 5000
      ∧ RequestLog.status_code row ∈ [200; 400])
     ∨ (RequestLog.request_type row = "blank"
        ∧ 0 ≤ RequestLog.payload_size row ≤ 50
        ∧ RequestLog.status_code row ∈ [400; 403])
     ∨ (RequestLog.request_type row = "dos_attack"
        ∧ 10000 ≤ RequestLog.payload_size row ≤ 50000
        ∧ RequestLog.status_code row ∈ [429; 503]))
  ∧ (∀ row, row ∈ dos_attacks df4_requests
            → 10000 ≤ RequestLog.payload_size row ≤ 50000
              ∧ RequestLog.status_code row ∈ [429; 503]).
Proof.
  intros df4.
  pose proof (generate_synthetic_data_rows strftime r)
    as (_ & _ & _ & (_ & Hall) & _).
  fold df4 in Hall. clearbody df4. rewrite Forall_forall in Hall.
  unfold synthetic_request in Hall. split.
  - exact Hall.
  - intros row. unfold dos_attacks. rewrite list_elem_of_filter.
    intros [Ht Hin].
    destruct (Hall row Hin) as [(? & _) | [(? & _) | (_ & ? & ?)]];
      [congruence | congruence | done].
Qed.

(** X24.  On synthetic data the summary report adds up: Successful +
    Failed, Authenticated + Unauthenticated and Normal + Blank + DOS are
    each 500, as are the five totals, and the average session duration is
    a number between 1 and 480. *)
Theorem synthetic_summary_adds_up
    (strftime : string → Z → string) (r : rng) (score : Q) (level : string) :
  let ds := (generate_synthetic_data strftime r).1 in
  let s := summary_report score level (ds_login ds) (ds_duration ds)
             (ds_unauth ds) (ds_requests ds) (ds_services ds) in
  (sum_total_logins s = 500 ∧ sum_total_sessions s = 500
   ∧ sum_total_attempts s = 500 ∧ sum_total_requests s = 500
   ∧ sum_total_subscriptions s = 500)
  ∧ sum_successful s + sum_failed s = 500
  ∧ sum_authenticated s + sum_unauthenticated s = 500
  ∧ sum_normal s + sum_blank_requests s + sum_dos_attacks s = 500
  ∧ ∃ avg, sum_average_duration s = Some avg ∧ (1 <= avg <= 480)%Q.
Proof.
  intros ds.
  pose proof (generate_synthetic_data_rows strftime r)
    as ((Hl & Hlr) & (Hs & Hsr) & (Hu & Hur) & (Hr & Hrr) & (Hv & _)).
  fold ds in Hl, Hlr, Hs, Hsr, Hu, Hur, Hr, Hrr, Hv. clearbody ds.
  assert (Hlen : ∀ (A : Type) (l : list A), length l = 500%nat → len l = 500)
    by (intros A l Hlen; unfold len; by rewrite Hlen).
  simpl. split_and!; try by apply Hlen.
  - rewrite <- (len_filter_or
                  (λ row, LoginEvent.login_status row = "success"))
      by congruence.
    rewrite <- (Hlen _ _ Hl). apply len_filter_all.
    eapply Forall_impl; [exact Hlr |]. intros row (_ & Hst & _).
    revert Hst. rewrite !elem_of_cons, elem_of_nil. tauto.
  - rewrite <- (len_filter_or
                  (λ row, AuthAttempt.auth_status row = "authenticated"))
      by congruence.
    rewrite <- (Hlen _ _ Hu). apply len_filter_all.
    eapply Forall_impl; [exact Hur |]. unfold synthetic_auth. tauto.
  - rewrite <- (len_filter_or
                  (λ row, RequestLog.request_type row = "normal"))
      by congruence.
    rewrite <- (len_filter_or
                  (λ row, RequestLog.request_type row = "normal"
                          ∨ RequestLog.request_type row = "blank"))
      by (intros row [? | ?]; congruence).
    rewrite <- (Hlen _ _ Hr). apply len_filter_all.
    eapply Forall_impl; [exact Hrr |]. unfold synthetic_request. tauto.
  - destruct (mean (SessionRecord.duration_minutes <$> ds_duration ds))
      as [avg |] eqn:Hmean.
    + exists avg. split; [done |].
      apply (mean_bounds _ 1 480 avg Hmean), Forall_fmap.
      eapply Forall_impl; [exact Hsr |]. unfold synthetic_session.
      intros row. simpl. lia.
    + apply mean_None, fmap_nil_inv in Hmean. by rewrite Hmean in Hs.
Qed.

(** X25.  In the synthetic data every login status is "success" or
    "failed" and every subscription status one of active, inactive,
    suspended, pending.  Suspended and pending subscriptions belong to
    suspicious users only: a subscription of a regular user is active or
    inactive, so the suspended-service rule never flags it. *)
Theorem synthetic_status_values
    (strftime : string → Z → string) (r : rng) :
  let ds := (generate_synthetic_data strftime r).1 in
  (∀ row, row ∈ ds_login ds →
     (LoginEvent.login_status row = "success"
      ∨ LoginEvent.login_status row = "failed")
     ∧ LoginEvent.browser row ∈ browsers)
  ∧ (∀ row, row ∈ ds_services ds →
       ServiceSubscription.status row
       ∈ ["active"; "inactive"; "suspended"; "pending"]
       ∧ (ServiceSubscription.user_id row ∈ user_ids
          → ServiceSubscription.status row = "active"
            ∨ ServiceSubscription.status row = "inactive"))
  ∧ (∀ row, row ∈ suspended_services (ds_services ds)
            → ServiceSubscription.user_id row ∈ suspicious_users).
Proof.
  intros ds.
  pose proof (generate_synthetic_data_rows strftime r)
    as ((_ & Hlr) & _ & _ & _ & (_ & Hvr)).
  fold ds in Hlr, Hvr. clearbody ds.
  rewrite Forall_forall in Hlr. rewrite Forall_forall in Hvr.
  assert (Hservice : ∀ row, row ∈ ds_services ds →
            (ServiceSubscription.user_id row ∈ user_ids
             ∧ (ServiceSubscription.status row = "active"
                ∨ ServiceSubscription.status row = "inactive"))
            ∨ (ServiceSubscription.user_id row ∈ suspicious_users
               ∧ ServiceSubscription.status row
                 ∈ ["active"; "inactive"; "suspended"; "pending"])).
  { intros row Hin. destruct (Hvr row Hin) as ([[Hu Hs] | ?] & _); [| tauto].
    left. split; [done |]. revert Hs.
    rewrite !elem_of_cons, elem_of_nil. tauto. }
  split_and!.
  - intros row Hin. destruct (Hlr row Hin) as (_ & Hst & Hb).
    split; [| done]. revert Hst. rewrite !elem_of_cons, elem_of_nil. tauto.
  - intros row Hin. split.
    + destruct (Hservice row Hin) as [[_ [-> | ->]] | [_ ?]];
        [repeat constructor | repeat constructor | done].
    + intros Hu. destruct (Hservice row Hin) as [[_ ?] | [Hs _]]; [done |].
      by destruct (user_ids_disjoint _ Hu Hs).
  - intros row. unfold suspended_services. rewrite list_elem_of_filter.
    intros [Hst Hin].
    destruct (Hservice row Hin) as [[_ [? | ?]] | [? _]];
      [congruence | congruence | done].
Qed.

(** ** The anomaly tab once more *)

Lemma elem_of_critical_ips (df1_login : list LoginEvent.t)
    (ip : string) (n : Z) :
  (ip, n) ∈ critical_ips df1_login
  ↔ n = len (filter (λ row, LoginEvent.login_status row = "failed"
                            ∧ LoginEvent.ip_address row = ip) df1_login)
    ∧ 5 < n.
Proof.
  unfold critical_ips, failed_by_ip.
  rewrite sort_values_desc_perm, list_elem_of_filter, elem_of_groupby_size.
  rewrite <- group_size_pos, group_size_fmap_filter. simpl. lia.
Qed.

Lemma NoDup_critical_ips (df1_login : list LoginEvent.t) :
  NoDup (critical_ips df1_login).
Proof.
  apply (NoDup_fmap_1 fst). unfold critical_ips.
  rewrite sort_values_desc_perm.
  eapply sublist_NoDup; [apply NoDup_groupby_size |].
  apply fmap_sublist, sublist_filter.
Qed.

(** X26.  The anomaly lists do not depend on the order of the rows:
    rearranged tables give the same critical IPs with the same counts and
    the same flagged sessions, attempts, requests and services, up to the
    order of the entries; and the DOS ranking exists for one arrangement
    exactly when it exists for the other. *)
Theorem anomaly_lists_order
    (df1_login df1_login' : list LoginEvent.t)
    (df2_duration df2_duration' : list SessionRecord.t)
    (df3_unauth df3_unauth' : list AuthAttempt.t)
    (df4_requests df4_requests' : list RequestLog.t)
    (df5_services df5_services' : list ServiceSubscription.t) :
  df1_login ≡ₚ df1_login' → df2_duration ≡ₚ df2_duration' →
  df3_unauth ≡ₚ df3_unauth' → df4_requests ≡ₚ df4_requests' →
  df5_services ≡ₚ df5_services' →
  critical_ips df1_login ≡ₚ critical_ips df1_login'
  ∧ suspicious_sessions df2_duration ≡ₚ suspicious_sessions df2_duration'
  ∧ brute_force df3_unauth ≡ₚ brute_force df3_unauth'
  ∧ dos_attacks df4_requests ≡ₚ dos_attacks df4_requests'
  ∧ suspended_services df5_services ≡ₚ suspended_services df5_services'
  ∧ (dos_by_ip df4_requests = None ↔ dos_by_ip df4_requests' = None).
Proof.
  intros H1 H2 H3 H4 H5.
  assert (Hdos : dos_attacks df4_requests ≡ₚ dos_attacks df4_requests')
    by (unfold dos_attacks; by rewrite H4).
  split_and!.
  - apply NoDup_Permutation; [apply NoDup_critical_ips .. |].
    intros [ip n]. rewrite !elem_of_critical_ips.
    by rewrite (len_filter_perm _ _ _ H1).
  - unfold suspicious_sessions. by rewrite H2.
  - unfold brute_force. by rewrite H3.
  - exact Hdos.
  - unfold suspended_services. by rewrite H5.
  - unfold dos_by_ip. rewrite (len_perm _ _ Hdos).
    by destruct (decide (0 < len (dos_attacks df4_requests'))).
Qed.

(** Two failed logins of one address swapped with a later success. *)
Lemma anomaly_lists_order_witness :
  critical_ips [login_row "10.0.0.1" "failed"; login_row "10.0.0.2" "success"]
  ≡ₚ critical_ips
       [login_row "10.0.0.2" "success"; login_row "10.0.0.1" "failed"].
Proof.
  apply (anomaly_lists_order
           [login_row "10.0.0.1" "failed"; login_row "10.0.0.2" "success"]
           [login_row "10.0.0.2" "success"; login_row "10.0.0.1" "failed"]
           [] [] [] [] [] [] [] []);
    [apply perm_swap | reflexivity ..].
Defined.

(** X27.  The ranking inside the DOS expander exists exactly when some
    request is a dos_attack.  It lists at most ten distinct IPs, each with
    its number of dos_attack requests, larger numbers first; blank
    requests do not count, so an IP that only sent blank requests is never
    listed; and an IP with a dos_attack request is left out only when ten
    are listed, none of them with fewer. *)
Theorem dos_by_ip_ranking (df4_requests : list RequestLog.t) :
  let dos_count (ip : string) :=
    len (filter (λ row, RequestLog.request_type row = "dos_attack"
                        ∧ RequestLog.ip_address row = ip) df4_requests) in
  (dos_by_ip df4_requests = None ↔ dos_attacks df4_requests = [])
  ∧ ∀ top, dos_by_ip df4_requests = Some top →
      (length top ≤ 10)%nat
      ∧ NoDup top.*1
      ∧ StronglySorted (λ a b, b.2 ≤ a.2) top
      ∧ (∀ ip n, (ip, n) ∈ top → n = dos_count ip ∧ 0 < n)
      ∧ (∀ ip, 0 < dos_count ip → ip ∉ top.*1 →
           length top = 10%nat ∧ ∀ e, e ∈ top → dos_count ip ≤ e.2).
Proof.
  intros dos_count. unfold dos_by_ip.
  set (keys := RequestLog.ip_address <$> dos_attacks df4_requests).
  assert (Hcount : ∀ ip, group_size ip keys = dos_count ip).
  { intros ip. unfold keys, dos_attacks. apply group_size_fmap_filter. }
  pose proof (sort_values_desc_sorted (groupby_size keys)) as Hsorted.
  destruct (decide (0 < len (dos_attacks df4_requests))) as [Hpos | Hzero].
  - split.
    { split; [done |]. intros E. rewrite E in Hpos. by vm_compute in Hpos. }
    assert (Hnd : NoDup (sort_values_desc (groupby_size keys)).*1)
      by (rewrite sort_values_desc_perm; apply NoDup_groupby_size).
    intros top Htop.
    assert (top = head 10 (sort_values_desc (groupby_size keys))) as ->
      by congruence.
    clear Htop. split_and!.
    + unfold head. rewrite length_take. lia.
    + eapply sublist_NoDup; [exact Hnd |].
      apply fmap_sublist, sublist_take.
    + unfold head. rewrite <- (take_drop 10 (sort_values_desc _)) in Hsorted.
      by apply StronglySorted_app_1_l in Hsorted.
    + intros ip n Hin. unfold head in Hin.
      pose proof (elem_of_sublist _ _ _ Hin (sublist_take _ _)) as Hin'.
      rewrite sort_values_desc_perm, elem_of_groupby_size in Hin'.
      destruct Hin' as [Hkey ->]. rewrite <- Hcount.
      split; [done | by apply group_size_pos].
    + intros ip Hip Hout.
      apply (head_sorted_top 10 _ (ip, dos_count ip) Hsorted).
      * rewrite sort_values_desc_perm, elem_of_groupby_size,
          <- group_size_pos, Hcount. done.
      * intros Hin. apply Hout. apply list_elem_of_fmap.
        by exists (ip, dos_count ip).
  - split; [| done]. split; [| done]. intros _.
    apply len_zero. pose proof (len_nonneg (dos_attacks df4_requests)). lia.
Qed.

(** ** The score in rounded arithmetic *)

Lemma percentage_rounded_mono (rnd : Q → Q) (a a' b : Z) :
  (∀ x y : Q, (x <= y)%Q → (rnd x <= rnd y)%Q) →
  0 < b → a ≤ a' →
  (percentage_rounded rnd a b <= percentage_rounded rnd a' b)%Q.
Proof.
  intros Hmono Hb Ha. unfold percentage_rounded.
  assert (Hb' : (0 < inject_Z b)%Q).
  { change (inject_Z 0 < inject_Z b)%Q. by rewrite <- Zlt_Qlt. }
  apply Hmono, Qmult_le_compat_r; [| done].
  apply Hmono. unfold Qdiv. apply Qmult_le_compat_r.
  - by rewrite <- Zle_Qle.
  - apply Qinv_le_0_compat. by apply Qlt_le_weak.
Qed.

(** X28.  The range and the monotonicity of the score survive rounding.
    Let every operation of the computation (the two literals, each
    quotient, product and sum) be followed by a rounding that is
    monotone, keeps the integers from 0 to 100 and takes 100 x 0.3 to 30
    and 100 x 0.4 to 40, as binary64 round-to-nearest does.  Then the
    score computed from any counts lies between 0 and 100, and raising the
    counts of failed logins, unauthenticated attempts and blank or DOS
    requests never lowers it. *)
Theorem fraud_score_rounded_bounds (rnd : Q → Q)
    (failed logins unauthenticated attempts attacks requests : Z) :
  (∀ x y : Q, (x <= y)%Q → (rnd x <= rnd y)%Q) →
  (∀ n : Z, 0 ≤ n ≤ 100 → (rnd (inject_Z n) == inject_Z n)%Q) →
  (rnd (100 * rnd 0.3) == 30)%Q → (rnd (100 * rnd 0.4) == 40)%Q →
  0 ≤ failed ≤ logins → 0 < logins →
  0 ≤ unauthenticated ≤ attempts → 0 < attempts →
  0 ≤ attacks ≤ requests → 0 < requests →
  let score f u a :=
    fraud_score_rounded rnd (percentage_rounded rnd f logins)
      (percentage_rounded rnd u attempts)
      (percentage_rounded rnd a requests) in
  (0 <= score failed unauthenticated attacks <= 100)%Q
  ∧ ∀ failed' unauthenticated' attacks',
      failed ≤ failed' → unauthenticated ≤ unauthenticated' →
      attacks ≤ attacks' →
      (score failed unauthenticated attacks
       <= score failed' unauthenticated' attacks')%Q.
Proof.
  intros Hmono Hint H30 H40 Hf Hl Hu Ha Hk Hr score. split.
  - apply (fraud_score_rounded_range rnd Hmono Hint H30 H40);
      by apply (percentage_rounded_range rnd Hmono Hint).
  - intros f' u' a' Hf' Hu' Ha'. unfold score.
    apply (fraud_score_rounded_mono rnd Hmono Hint);
      by apply percentage_rounded_mono.
Qed.

(** No rounding at all, on the counts of the worked example. *)
Lemma fraud_score_rounded_bounds_witness :
  (0 <= fraud_score_rounded id (percentage_rounded id 8 100)
          (percentage_rounded id 60 200) (percentage_rounded id 30 150)
   <= 100)%Q.
Proof.
  apply (fraud_score_rounded_bounds id 8 100 60 200 30 150);
    first [ done | reflexivity | lia ].
Defined.

(** ** The session ids *)

Lemma gen_for_each_column {A B C : Type} (xs : list A) (body : A → gen B)
    (f : B → C) (g : A → C) :
  (∀ x, gen_all (body x) (λ y, f y = g x)) →
  gen_all (gen_for_each xs body) (λ l, f <$> l = g <$> xs).
Proof.
  intros Hbody. induction xs as [| x xs IH]; simpl.
  - by apply gen_all_ret.
  - eapply gen_all_bind; [apply Hbody |]. intros y Hy.
    eapply gen_all_bind; [exact IH |]. intros ys Hys.
    apply gen_all_ret. rewrite !fmap_cons. by f_equal.
Qed.

Lemma session_loop_body_id (strftime : string → Z → string) (i : nat) :
  gen_all (session_loop_body strftime i)
    (λ row, SessionRecord.session_id row = "SES" +:+ zfill 5 (pretty i)).
Proof.
  unfold session_loop_body.
  do 2 (eapply gen_all_bind; [apply gen_all_any | intros ? _]).
  eapply gen_all_bind; [apply gen_all_any | intros [d u] _].
  by apply gen_all_ret.
Qed.

Lemma generate_synthetic_data_session_ids
    (strftime : string → Z → string) :
  gen_all (generate_synthetic_data strftime)
    (λ ds, SessionRecord.session_id <$> ds_duration ds
           ≡ₚ (λ i : nat, "SES" +:+ zfill 5 (pretty i)) <$> seq 1 500).
Proof.
  unfold generate_synthetic_data.
  do 4 (eapply gen_all_bind; [apply gen_all_any | intros ? _]).
  eapply gen_all_bind;
    [apply (gen_for_each_column _ _ SessionRecord.session_id
              (λ i : nat, "SES" +:+ zfill 5 (pretty i)));
     intros; apply session_loop_body_id
    | intros session_rows Hids].
  do 5 (eapply gen_all_bind; [apply gen_all_any | intros ? _]).
  apply gen_all_ret. cbv beta. unfold ds_duration.
  by rewrite sort_by_column_perm, Hids.
Qed.

Lemma NoDup_session_ids :
  NoDup ((λ i : nat, "SES" +:+ zfill 5 (pretty i)) <$> seq 1 500).
Proof. apply (bool_decide_unpack _). vm_compute. exact I. Qed.

(** X29.  The session id is a key of the synthetic session table:
    whatever the random generators yield, and although the table is
    re-ordered by start time, its session ids are SES00001 to SES00500,
    each on exactly one row, so two different rows of the table never
    share an id. *)
Theorem synthetic_session_ids_key
    (strftime : string → Z → string) (r : rng) :
  let df2 := ds_duration (generate_synthetic_data strftime r).1 in
  SessionRecord.session_id <$> df2
    ≡ₚ (λ i : nat, "SES" +:+ zfill 5 (pretty i)) <$> seq 1 500
  ∧ NoDup (SessionRecord.session_id <$> df2)
  ∧ ∀ i j a b,
      df2 !! i = Some a → df2 !! j = Some b →
      SessionRecord.session_id a = SessionRecord.session_id b → i = j.
Proof.
  intros df2.
  pose proof (generate_synthetic_data_session_ids strftime r) as Hids.
  cbv beta in Hids. fold df2 in Hids. clearbody df2.
  assert (Hnd : NoDup (SessionRecord.session_id <$> df2))
    by (rewrite Hids; apply NoDup_session_ids).
  split_and!; [done | done |].
  intros i j a b Hi Hj Hab.
  apply (NoDup_lookup _ i j (SessionRecord.session_id a) Hnd).
  - by rewrite list_lookup_fmap, Hi.
  - by rewrite list_lookup_fmap, Hj, Hab.
Qed.

(** * The score in binary64 *)

(** ** Rounding to the nearest float *)

Lemma round_half_even_bounds (x : Q) :
  Qfloor x ≤ round_half_even x ≤ Qfloor x + 1.
Proof.
  unfold round_half_even.
  destruct (_ ?= _)%Q; [destruct (Z.even _) | |]; lia.
Qed.

Lemma Qfloor_spec (x : Q) :
  (inject_Z (Qfloor x) <= x)%Q ∧ (x < inject_Z (Qfloor x) + 1)%Q.
Proof.
  split; [apply Qfloor_le |].
  pose proof (Qlt_floor x) as H. rewrite inject_Z_plus in H. exact H.
Qed.

Lemma round_half_even_Z (n : Z) : round_half_even (inject_Z n) = n.
Proof.
  unfold round_half_even. rewrite Qfloor_Z.
  assert (E : (inject_Z n - inject_Z n ?= 1 # 2)%Q = Lt).
  { rewrite <- Qlt_alt. lra. }
  by rewrite E.
Qed.

Lemma round_half_even_near (x : Q) :
  (x - (1 # 2) <= inject_Z (round_half_even x) <= x + (1 # 2))%Q.
Proof.
  unfold round_half_even. destruct (Qfloor_spec x) as [Hlo Hhi].
  destruct (_ ?= _)%Q eqn:E.
  - apply Qeq_alt in E.
    destruct (Z.even _); rewrite ?inject_Z_plus; change (inject_Z 1) with 1%Q;
      lra.
  - apply Qlt_alt in E. lra.
  - apply Qgt_alt in E. rewrite inject_Z_plus. change (inject_Z 1) with 1%Q.
    lra.
Qed.

Lemma round_half_even_mono (x y : Q) :
  (x <= y)%Q → round_half_even x ≤ round_half_even y.
Proof.
  intros Hxy. pose proof (Qfloor_resp_le x y Hxy) as Hf.
  pose proof (round_half_even_bounds x) as Hx.
  pose proof (round_half_even_bounds y) as Hy.
  destruct (decide (Qfloor x = Qfloor y)) as [E | NE]; [| lia].
  unfold round_half_even in *. rewrite <- E in *.
  destruct (x - _ ?= _)%Q eqn:Ex; destruct (y - _ ?= _)%Q eqn:Ey;
    rewrite <- ?Qeq_alt, <- ?Qlt_alt, <- ?Qgt_alt in *;
    try destruct (Z.even _); first [ lia | lra ].
Qed.

Lemma pow2_pos (e : Z) : (0 < 2 ^ e)%Q.
Proof. by apply Qpower_0_lt. Qed.

Lemma pow2_succ (e : Z) : (2 ^ (e + 1) == 2 * 2 ^ e)%Q.
Proof. rewrite Qpower_plus by done. change (2 ^ 1)%Q with 2%Q. ring. Qed.

Lemma pow2_pred (e : Z) : (2 * 2 ^ (e - 1) == 2 ^ e)%Q.
Proof. rewrite <- pow2_succ. by replace (e - 1 + 1) with e by lia. Qed.

Lemma pow2_Z (n : Z) : 0 ≤ n → (inject_Z (2 ^ n) == 2 ^ n)%Q.
Proof. intros Hn. by rewrite Zpower_Qpower. Qed.

Lemma binade_spec (x : Q) :
  (0 < x)%Q → (2 ^ binade x <= x)%Q ∧ (x < 2 ^ (binade x + 1))%Q.
Proof.
  intros Hx. unfold binade.
  destruct x as [n d]. simpl Qnum. simpl Qden.
  assert (Hn : 0 < n).
  { unfold Qlt in Hx. simpl in Hx. lia. }
  pose proof (Z.log2_spec n Hn) as [Hn1 Hn2].
  pose proof (Z.log2_spec (Z.pos d) ltac:(lia)) as [Hd1 Hd2].
  pose proof (Z.log2_nonneg n) as Ha.
  pose proof (Z.log2_nonneg (Z.pos d)) as Hb.
  set (a := Z.log2 n) in *. set (b := Z.log2 (Z.pos d)) in *.
  rewrite Zle_Qle, pow2_Z in Hn1 by done.
  rewrite Zlt_Qlt, pow2_Z, <- Z.add_1_r, pow2_succ in Hn2 by lia.
  rewrite Zle_Qle, pow2_Z in Hd1 by done.
  rewrite Zlt_Qlt, pow2_Z, <- Z.add_1_r, pow2_succ in Hd2 by lia.
  assert (HP : (2 ^ (a - b) * 2 ^ b == 2 ^ a)%Q).
  { rewrite <- Qpower_plus by done. by replace (a - b + b) with a by lia. }
  assert (Hxd : ((n # d) * inject_Z (Z.pos d) == inject_Z n)%Q).
  { rewrite (Qmake_Qdiv n d). field.
    change 0%Q with (inject_Z 0). rewrite inject_Z_injective. lia. }
  pose proof (pow2_pos a) as HA. pose proof (pow2_pos b) as HB.
  pose proof (pow2_pos (a - b)) as HPpos.
  pose proof (pow2_pred (a - b)) as Hpred.
  pose proof (pow2_succ (a - b)) as Hsucc.
  destruct (Qle_bool _ _) eqn:E;
    [apply Qle_bool_iff in E
    | assert (E' : ¬ (2 ^ (a - b) <= n # d)%Q)
        by (rewrite <- Qle_bool_iff; congruence);
      apply Qnot_le_lt in E';
      replace (a - b - 1 + 1) with (a - b) by lia];
    set (X := (n # d)%Q) in *; set (N := inject_Z n) in *;
    set (D := inject_Z (Z.pos d)) in *;
    set (A := (2 ^ a)%Q) in *; set (B := (2 ^ b)%Q) in *;
    set (P := (2 ^ (a - b))%Q) in *;
    set (P' := (2 ^ (a - b - 1))%Q) in *;
    set (P'' := (2 ^ (a - b + 1))%Q) in *;
    clearbody X N D A B P P' P'';
    assert (Hup : (X < 2 * P)%Q) by nra;
    assert (Hlo : (P < 2 * X)%Q) by nra;
    split; lra.
Qed.

Lemma binade_unique (x : Q) (e : Z) :
  (2 ^ e <= x)%Q → (x < 2 ^ (e + 1))%Q → binade x = e.
Proof.
  intros Hlo Hhi.
  assert (Hx : (0 < x)%Q) by (pose proof (pow2_pos e); lra).
  destruct (binade_spec x Hx) as [Hlo' Hhi'].
  assert (e < binade x + 1).
  { apply (Qpower_lt_compat_l_inv 2); [lra | done]. }
  assert (binade x < e + 1).
  { apply (Qpower_lt_compat_l_inv 2); [lra | done]. }
  lia.
Qed.

Lemma round_half_even_proper (x y : Q) :
  (x == y)%Q → round_half_even x = round_half_even y.
Proof.
  intros Hxy. apply Z.le_antisymm; apply round_half_even_mono; lra.
Qed.

Lemma pow2_52 (e : Z) : (2 ^ e == inject_Z (2 ^ 52) * 2 ^ (e - 52))%Q.
Proof.
  rewrite pow2_Z, <- Qpower_plus by done.
  by replace (52 + (e - 52)) with e by lia.
Qed.

(** The scaled operand lies between 2^52 and 2^53. *)
Lemma scaled_range (x : Q) :
  (0 < x)%Q →
  let t := (x / 2 ^ (binade x - 52))%Q in
  (inject_Z (2 ^ 52) <= t)%Q ∧ (t < inject_Z (2 ^ 53))%Q.
Proof.
  intros Hx t. destruct (binade_spec x Hx) as [Hlo Hhi].
  rewrite pow2_succ, pow2_52 in Hhi. rewrite pow2_52 in Hlo.
  pose proof (pow2_pos (binade x - 52)) as Hu. unfold t.
  set (U := (2 ^ (binade x - 52))%Q) in *. clearbody U.
  change (inject_Z (2 ^ 53)) with (2 * inject_Z (2 ^ 52))%Q.
  set (K := inject_Z (2 ^ 52)) in *. clearbody K.
  split.
  - apply Qle_shift_div_l; [done | lra].
  - apply Qlt_shift_div_r; [done | lra].
Qed.

Lemma round53_binade (x : Q) :
  (0 < x)%Q →
  (2 ^ binade x <= round53 x)%Q ∧ (round53 x <= 2 ^ (binade x + 1))%Q.
Proof.
  intros Hx. destruct (scaled_range x Hx) as [Hlo Hhi].
  apply round_half_even_mono in Hlo. apply Qlt_le_weak in Hhi.
  apply round_half_even_mono in Hhi.
  rewrite round_half_even_Z in Hlo, Hhi.
  rewrite Zle_Qle in Hlo, Hhi.
  rewrite pow2_succ, pow2_52. unfold round53.
  pose proof (pow2_pos (binade x - 52)) as Hu.
  set (U := (2 ^ (binade x - 52))%Q) in *. clearbody U.
  set (R := inject_Z (round_half_even (x / U))) in *. clearbody R.
  change (inject_Z (2 ^ 53)) with (2 * inject_Z (2 ^ 52))%Q in Hhi.
  set (K := inject_Z (2 ^ 52)) in *. clearbody K.
  split; nra.
Qed.

Lemma round53_mono (x y : Q) :
  (0 < x)%Q → (x <= y)%Q → (round53 x <= round53 y)%Q.
Proof.
  intros Hx Hxy. assert (Hy : (0 < y)%Q) by lra.
  destruct (binade_spec x Hx) as [Hx1 Hx2].
  destruct (binade_spec y Hy) as [Hy1 Hy2].
  destruct (round53_binade x Hx) as [_ Hrx].
  destruct (round53_binade y Hy) as [Hry _].
  assert (Hle : binade x < binade y + 1).
  { apply (Qpower_lt_compat_l_inv 2); [lra | done]. }
  destruct (decide (binade x = binade y)) as [E | NE].
  - unfold round53. rewrite E.
    pose proof (pow2_pos (binade y - 52)) as Hu.
    set (U := (2 ^ (binade y - 52))%Q) in *. clearbody U.
    apply Qmult_le_compat_r; [| lra].
    rewrite <- Zle_Qle. apply round_half_even_mono.
    unfold Qdiv. apply Qmult_le_compat_r; [done |].
    apply Qlt_le_weak, Qinv_lt_0_compat. done.
  - assert (H : (2 ^ (binade x + 1) <= 2 ^ binade y)%Q).
    { apply Qpower_le_compat_l; [lia | done]. }
    lra.
Qed.

(** The relative error of one rounding is at most 2^-53. *)
Lemma round53_error (x : Q) :
  (0 < x)%Q →
  (x * (1 - (1 # 2 ^ 53)) <= round53 x)%Q
  ∧ (round53 x <= x * (1 + (1 # 2 ^ 53)))%Q.
Proof.
  intros Hx. destruct (binade_spec x Hx) as [Hlo _].
  rewrite pow2_52 in Hlo.
  pose proof (round_half_even_near (x / 2 ^ (binade x - 52))) as [Hn1 Hn2].
  unfold round53.
  pose proof (pow2_pos (binade x - 52)) as Hu.
  set (U := (2 ^ (binade x - 52))%Q) in *. clearbody U.
  set (R := inject_Z (round_half_even (x / U))) in *. clearbody R.
  assert (Ht : (x / U * U == x)%Q) by (field; lra).
  set (t := (x / U)%Q) in *. clearbody t.
  change (inject_Z (2 ^ 52)) with 4503599627370496%Q in Hlo.
  change (1 # 2 ^ 53)%Q with (1 # 9007199254740992)%Q.
  split; nra.
Qed.

Lemma round64_pos (x : Q) : (0 < x)%Q → (round64 x == round53 x)%Q.
Proof.
  intros Hx. unfold round64. rewrite Qred_correct.
  destruct x as [[| n | n] d]; [done | done | done].
Qed.

Lemma round64_zero (x : Q) : (x == 0)%Q → (round64 x == 0)%Q.
Proof.
  intros Hx. unfold round64. rewrite Qred_correct.
  destruct x as [[| n | n] d]; [done | done | done].
Qed.

Lemma round64_neg (x : Q) : (x < 0)%Q → (round64 x == - round53 (- x))%Q.
Proof.
  intros Hx. unfold round64. rewrite Qred_correct.
  destruct x as [[| n | n] d]; [done | done | done].
Qed.

Lemma round53_pos (x : Q) : (0 < x)%Q → (0 < round53 x)%Q.
Proof.
  intros Hx. destruct (round53_binade x Hx) as [H _].
  pose proof (pow2_pos (binade x)). lra.
Qed.

Lemma round64_mono (x y : Q) : (x <= y)%Q → (round64 x <= round64 y)%Q.
Proof.
  intros Hxy.
  destruct (Q_dec x 0) as [[Hx | Hx] | Hx];
    destruct (Q_dec y 0) as [[Hy | Hy] | Hy];
    rewrite ?(round64_neg x), ?(round64_pos x), ?(round64_zero x),
      ?(round64_neg y), ?(round64_pos y), ?(round64_zero y) by done;
    try lra.
  - assert (H : (round53 (- y) <= round53 (- x))%Q)
      by (apply round53_mono; lra).
    lra.
  - pose proof (round53_pos (- x)). pose proof (round53_pos y). lra.
  - pose proof (round53_pos (- x)). lra.
  - by apply round53_mono.
  - pose proof (round53_pos y). lra.
Qed.

Lemma round64_error (x : Q) :
  (0 <= x)%Q →
  (x * (1 - (1 # 2 ^ 53)) <= round64 x)%Q
  ∧ (round64 x <= x * (1 + (1 # 2 ^ 53)))%Q.
Proof.
  intros Hx. destruct (Q_dec x 0) as [[Hx' | Hx'] | Hx']; [lra | |].
  - rewrite round64_pos by done. by apply round53_error.
  - rewrite round64_zero by done. rewrite Hx'. split; lra.
Qed.

Lemma round64_small_int (n : Z) :
  0 ≤ n ≤ 100 → (round64 (inject_Z n) == inject_Z n)%Q.
Proof.
  intros Hn.
  assert (H : Forall (λ k : nat, Qeq_bool (round64 (inject_Z (Z.of_nat k)))
                                   (inject_Z (Z.of_nat k)) = true)
                (seq 0 101)).
  { apply (bool_decide_unpack _). by vm_compute. }
  rewrite Forall_forall in H. specialize (H (Z.to_nat n)).
  rewrite Z2Nat.id in H by lia. apply Qeq_bool_iff, H.
  apply elem_of_seq. lia.
Qed.

Lemma round64_weights :
  (round64 (100 * round64 0.3) == 30)%Q ∧ (round64 (100 * round64 0.4) == 40)%Q.
Proof. split; by vm_compute. Qed.

(** ** The error of a rounded expression *)

Lemma within_refl (x : Q) : within 1 1 x x.
Proof. unfold within. lra. Qed.

Lemma within_weaken (lo hi lo' hi' xh x : Q) :
  (0 <= x)%Q → (lo' <= lo)%Q → (hi <= hi')%Q →
  within lo hi xh x → within lo' hi' xh x.
Proof. unfold within. intros Hx Hlo Hhi [H1 H2]. split; nra. Qed.

Lemma within_round (lo hi xh x : Q) :
  (0 <= x)%Q → (0 <= lo)%Q → within lo hi xh x →
  within (lo * (1 - (1 # 2 ^ 53))) (hi * (1 + (1 # 2 ^ 53))) (round64 xh) x.
Proof.
  unfold within. intros Hx Hlo [H1 H2].
  assert (Hxh : (0 <= xh)%Q) by nra.
  destruct (round64_error xh Hxh) as [E1 E2].
  set (r := round64 xh) in *. clearbody r.
  change (1 # 2 ^ 53)%Q with (1 # 9007199254740992)%Q in *.
  split; nra.
Qed.

Lemma within_mul (lo1 hi1 lo2 hi2 ah a bh b : Q) :
  (0 <= a)%Q → (0 <= b)%Q → (0 <= lo1)%Q → (0 <= lo2)%Q →
  within lo1 hi1 ah a → within lo2 hi2 bh b →
  within (lo1 * lo2) (hi1 * hi2) (ah * bh) (a * b).
Proof.
  unfold within. intros Ha Hb Hl1 Hl2 [A1 A2] [B1 B2].
  assert (0 <= a * lo1)%Q by nra. assert (0 <= b * lo2)%Q by nra.
  split.
  - setoid_replace (a * b * (lo1 * lo2))%Q with ((a * lo1) * (b * lo2))%Q
      using relation Qeq by ring.
    apply Qmult_le_compat_nonneg; split; lra.
  - setoid_replace (a * b * (hi1 * hi2))%Q with ((a * hi1) * (b * hi2))%Q
      using relation Qeq by ring.
    apply Qmult_le_compat_nonneg; split; lra.
Qed.

Lemma within_add (lo hi ah a bh b : Q) :
  within lo hi ah a → within lo hi bh b → within lo hi (ah + bh) (a + b).
Proof.
  unfold within. intros [A1 A2] [B1 B2].
  rewrite !Qmult_plus_distr_l. split; lra.
Qed.

Ltac approx :=
  lazymatch goal with
  | |- within _ _ ?x ?x => apply within_refl
  | |- within _ _ (round64 _) _ => eapply within_round; [ | | approx ]
  | |- within _ _ (_ * _)%Q (_ * _)%Q =>
      eapply within_mul; [ | | | | approx | approx ]
  | |- within _ _ (_ + _)%Q (_ + _)%Q =>
      eapply within_add; [approx | eapply within_weaken; [ | | | approx]]
  end.

Lemma fraud_score_rounded_within (qf qu qa : Q) :
  (0 <= qf)%Q → (0 <= qu)%Q → (0 <= qa)%Q →
  within (1 - (1 # 10 ^ 15)) (1 + (1 # 10 ^ 15))
    (fraud_score_rounded round64
       (round64 (round64 qf * 100)) (round64 (round64 qu * 100))
       (round64 (round64 qa * 100)))
    (qf * 100 * 0.3 + qu * 100 * 0.4 + qa * 100 * 0.3).
Proof.
  intros Hf Hu Ha. unfold fraud_score_rounded.
  eapply within_weaken; [ | | | approx ];
    first [ lra | by vm_compute ].
Qed.

(** ** The score the code returns *)

Lemma pyfloat_truediv_ok (a b : Z) :
  b ≠ 0 → pyfloat.truediv a b = Ok (round64 (inject_Z a / inject_Z b)).
Proof. intros Hb. unfold pyfloat.truediv. by rewrite decide_False. Qed.

Lemma quotient_nonneg (a b : Z) :
  0 ≤ a → 0 < b → (0 <= inject_Z a / inject_Z b)%Q.
Proof.
  intros Ha Hb. apply Qle_shift_div_l.
  - change (inject_Z 0 < inject_Z b)%Q. by rewrite <- Zlt_Qlt.
  - rewrite Qmult_0_l. change (inject_Z 0 <= inject_Z a)%Q.
    by rewrite <- Zle_Qle.
Qed.

Lemma pyfloat_percentage (part whole : Z) :
  pyfloat.mul (round64 (inject_Z part / inject_Z whole)) 100
  = percentage_rounded round64 part whole.
Proof. reflexivity. Qed.

Lemma pyfloat_fraud_score (f u a : Q) :
  pyfloat.fraud_score f u a = fraud_score_rounded round64 f u a.
Proof. reflexivity. Qed.

(** C1 as stated fails in the arithmetic of the code: with one of three
    logins failed, one of eight attempts unauthenticated and no attack, the
    score the call returns is not
    0.3 x 100 x 1/3 + 0.4 x 100 x 1/8 + 0.3 x 100 x 0/1 = 15. *)
Lemma create_fraud_score_gauge_score_inexact :
  ¬ (let failed :=
       len (filter (λ row, LoginEvent.login_status row = "failed")
              inexact_logins) in
     let unauthenticated :=
       len (filter (λ row, AuthAttempt.auth_status row = "unauthenticated")
              inexact_attempts) in
     let attacks :=
       len (filter (λ row, RequestLog.request_type row = "blank"
                           ∨ RequestLog.request_type row = "dos_attack")
              inexact_requests) in
     ∃ (score : Q) (tier : string),
       pyfloat.create_fraud_score_gauge
         inexact_logins inexact_attempts inexact_requests
       = Ok (score, tier)
       ∧ (score == 0.3 * (100 * inject_Z failed / inject_Z (len inexact_logins))
                   + 0.4 * (100 * inject_Z unauthenticated
                            / inject_Z (len inexact_attempts))
                   + 0.3 * (100 * inject_Z attacks
                            / inject_Z (len inexact_requests)))%Q
       ∧ (0 <= score <= 100)%Q).
Proof.
  intros (score & tier & Hrun & Hscore & _).
  vm_compute in Hrun. injection Hrun as <- _.
  vm_compute in Hscore. discriminate.
Qed.

(** The counts of that example and what the call returns on it:
    8444249301319679 / 2^49 = 14.999999999999998..., the float next below
    15, hence LOW, where the exact score 15 is MEDIUM. *)
Example inexact_score :
  len (filter (λ row, LoginEvent.login_status row = "failed") inexact_logins)
  = 1
  ∧ len inexact_logins = 3
  ∧ len (filter (λ row, AuthAttempt.auth_status row = "unauthenticated")
           inexact_attempts) = 1
  ∧ len inexact_attempts = 8
  ∧ len (filter (λ row, RequestLog.request_type row ∈ ["blank"; "dos_attack"])
           inexact_requests) = 0
  ∧ len inexact_requests = 1
  ∧ pyfloat.create_fraud_score_gauge
      inexact_logins inexact_attempts inexact_requests
    = Ok ((8444249301319679 # 562949953421312)%Q, "LOW")
  ∧ create_fraud_score_gauge inexact_logins inexact_attempts inexact_requests
    = Ok ((360000 # 24000)%Q, "MEDIUM").
Proof. by vm_compute. Qed.

(** C1, amended.  On non-empty logins, auth attempts and requests,
    [create_fraud_score_gauge] returns a score, and the score is
    failed_login_rate * 0.3 + unauth_rate * 0.4 + attack_rate * 0.3
    evaluated in binary64, where each rate is
    (matching rows) / (all rows) * 100 of its table (failed logins,
    unauthenticated attempts, blank or dos_attack requests) evaluated in
    binary64: every quotient, product and sum is rounded to the nearest
    float.  The score lies between 0 and 100, and it differs from the
    exact value of 0.3 x failed_login_rate + 0.4 x unauth_rate
    + 0.3 x attack_rate by 10^-13 at most. *)
Theorem create_fraud_score_gauge_binary64
    (login_df : list LoginEvent.t) (unauth_df : list AuthAttempt.t)
    (request_df : list RequestLog.t) :
  login_df ≠ [] → unauth_df ≠ [] → request_df ≠ [] →
  let failed :=
    len (filter (λ row, LoginEvent.login_status row = "failed") login_df) in
  let unauthenticated :=
    len (filter (λ row, AuthAttempt.auth_status row = "unauthenticated")
           unauth_df) in
  let attacks :=
    len (filter (λ row, RequestLog.request_type row = "blank"
                        ∨ RequestLog.request_type row = "dos_attack")
           request_df) in
  let exact :=
    (0.3 * (100 * inject_Z failed / inject_Z (len login_df))
     + 0.4 * (100 * inject_Z unauthenticated / inject_Z (len unauth_df))
     + 0.3 * (100 * inject_Z attacks / inject_Z (len request_df)))%Q in
  ∃ (score : Q) (tier : string),
    pyfloat.create_fraud_score_gauge login_df unauth_df request_df
    = Ok (score, tier)
    ∧ score
      = fraud_score_rounded round64
          (percentage_rounded round64 failed (len login_df))
          (percentage_rounded round64 unauthenticated (len unauth_df))
          (percentage_rounded round64 attacks (len request_df))
    ∧ (0 <= score <= 100)%Q
    ∧ (Qabs (score - exact) <= 1 # 10 ^ 13)%Q.
Proof.
  intros Hl Hu Hr failed unauthenticated attacks exact.
  assert (Hattacks : attacks
    = len (filter (λ row, RequestLog.request_type row
                          ∈ ["blank"; "dos_attack"]) request_df)).
  { unfold attacks. f_equal. apply list_filter_iff. intros row.
    rewrite !elem_of_cons, elem_of_nil. tauto. }
  pose proof (len_pos _ Hl) as Hl'. pose proof (len_pos _ Hu) as Hu'.
  pose proof (len_pos _ Hr) as Hr'.
  assert (Hf : 0 ≤ failed ≤ len login_df)
    by (split; [apply len_nonneg | apply len_filter_le]).
  assert (Hun : 0 ≤ unauthenticated ≤ len unauth_df)
    by (split; [apply len_nonneg | apply len_filter_le]).
  assert (Ha : 0 ≤ attacks ≤ len request_df)
    by (rewrite Hattacks; split; [apply len_nonneg | apply len_filter_le]).
  assert (Hexact : (exact
    == inject_Z failed / inject_Z (len login_df) * 100 * 0.3
       + inject_Z unauthenticated / inject_Z (len unauth_df) * 100 * 0.4
       + inject_Z attacks / inject_Z (len request_df) * 100 * 0.3)%Q).
  { unfold exact. field. repeat split;
      (change 0%Q with (inject_Z 0); rewrite inject_Z_injective; lia). }
  clearbody exact.
  unfold pyfloat.create_fraud_score_gauge, pyfloat.failed_login_rate,
    pyfloat.unauth_rate, pyfloat.attack_rate.
  rewrite !pyfloat_truediv_ok by lia. cbn [mbind result_bind].
  rewrite <- Hattacks. fold failed unauthenticated.
  rewrite !pyfloat_percentage, pyfloat_fraud_score.
  eexists _, _. split; [reflexivity |]. split; [reflexivity |].
  split.
  - destruct round64_weights as [H30 H40].
    apply (fraud_score_rounded_range round64 round64_mono round64_small_int
             H30 H40);
      by apply (percentage_rounded_range round64 round64_mono
                  round64_small_int).
  - pose proof (quotient_nonneg failed (len login_df) (proj1 Hf) Hl') as Hqf.
    pose proof (quotient_nonneg unauthenticated (len unauth_df)
                  (proj1 Hun) Hu') as Hqu.
    pose proof (quotient_nonneg attacks (len request_df) (proj1 Ha) Hr')
      as Hqa.
    pose proof (percentage_range failed (len login_df) Hf Hl') as Hpf.
    pose proof (percentage_range unauthenticated (len unauth_df) Hun Hu')
      as Hpu.
    pose proof (percentage_range attacks (len request_df) Ha Hr') as Hpa.
    destruct (fraud_score_rounded_within _ _ _ Hqf Hqu Hqa) as [Hlo Hhi].
    unfold percentage_rounded.
    set (score := fraud_score_rounded _ _ _ _) in *. clearbody score.
    set (qf := (inject_Z failed / inject_Z (len login_df))%Q) in *.
    set (qu := (inject_Z unauthenticated / inject_Z (len unauth_df))%Q) in *.
    set (qa := (inject_Z attacks / inject_Z (len request_df))%Q) in *.
    clearbody qf qu qa.
    apply (proj2 (Qabs_Qle_condition _ _)).
    change (1 # 10 ^ 15)%Q with (1 # 1000000000000000)%Q in *.
    change (1 # 10 ^ 13)%Q with (1 # 10000000000000)%Q.
    split; lra.
Qed.

(** The worked example of the spec: its three tables are non-empty, with
    8 of 100, 60 of 200 and 30 of 150 matching rows. *)
Lemma create_fraud_score_gauge_binary64_witness :
  ∃ (score : Q) (tier : string),
    pyfloat.create_fraud_score_gauge
      example_logins example_attempts example_requests
    = Ok (score, tier)
    ∧ score
      = fraud_score_rounded round64
          (percentage_rounded round64 8 100)
          (percentage_rounded round64 60 200)
          (percentage_rounded round64 30 150)
    ∧ (0 <= score <= 100)%Q
    ∧ (Qabs (score
             - (0.3 * (100 * inject_Z 8 / inject_Z 100)
                + 0.4 * (100 * inject_Z 60 / inject_Z 200)
                + 0.3 * (100 * inject_Z 30 / inject_Z 150)))
       <= 1 # 10 ^ 13)%Q.
Proof.
  apply (create_fraud_score_gauge_binary64
           example_logins example_attempts example_requests);
    vm_compute; discriminate.
Defined.

(** [round64] against the floating-point unit: on every fraction
    [part / whole] with [whole <= 60], the percentage computed with
    [round64] is the one the machine computes. *)
Example round64_agrees_with_machine :
  forallb (λ '(part, whole),
             float_is (machine.percentage part whole)
                      (percentage_rounded round64 part whole))
          (machine.fractions 60)
  = true.
Proof. by vm_compute. Qed.

(** The same for the score, on the two examples above and a few more. *)
Example fraud_score_agrees_with_machine :
  forallb (λ '(f, u, a),
     float_is
       (machine.fraud_score
          (machine.percentage f.1 f.2) (machine.percentage u.1 u.2)
          (machine.percentage a.1 a.2))
       (fraud_score_rounded round64
          (percentage_rounded round64 f.1 f.2)
          (percentage_rounded round64 u.1 u.2)
          (percentage_rounded round64 a.1 a.2)))
    [((1, 3), (1, 8), (0, 1)); ((8, 100), (60, 200), (30, 150));
     ((1, 3), (1, 7), (2, 9)); ((3, 10), (3, 10), (3, 10));
     ((1, 2), (1, 2), (1, 2)); ((7, 13), (11, 17), (19, 23))]
  = true.
Proof. by vm_compute. Qed.

(** * The tables as shared objects *)

(** ** Sorting and renaming of keys *)

Section merge_sort_fmap.
Context {A B : Type} (R : relation A) (R' : relation B).
Context `{!RelDecision R, !RelDecision R'}.
Context (f : A → B).
Hypothesis R_fmap : ∀ x y, R x y ↔ R' (f x) (f y).

Lemma list_merge_fmap (l1 l2 : list A) :
  f <$> list_merge R l1 l2 = list_merge R' (f <$> l1) (f <$> l2).
Proof.
  revert l2. induction l1 as [| x1 l1 IH1]; intros l2; [by destruct l2 |].
  induction l2 as [| x2 l2 IH2]; [done |].
  rewrite !fmap_cons. simpl.
  destruct (decide (R x1 x2)) as [HR | HR];
    destruct (decide (R' (f x1) (f x2))) as [HR' | HR'];
    try (exfalso; rewrite R_fmap in HR; tauto).
  - rewrite fmap_cons. f_equal. apply (IH1 (x2 :: l2)).
  - rewrite fmap_cons. f_equal. exact IH2.
Qed.

Lemma merge_list_to_stack_fmap (st : list (option (list A))) (l : list A) :
  fmap (M:=list) (fmap (M:=option) (fmap (M:=list) f)) (merge_list_to_stack R st l)
  = merge_list_to_stack R' (fmap (M:=list) (fmap (M:=option) (fmap (M:=list) f)) st) (f <$> l).
Proof.
  revert l. induction st as [| [l' |] st IH]; intros l; [done | | done].
  simpl. f_equal. rewrite <- list_merge_fmap. apply IH.
Qed.

Lemma merge_stack_fmap (st : list (option (list A))) :
  f <$> merge_stack R st = merge_stack R' (fmap (M:=list) (fmap (M:=option) (fmap (M:=list) f)) st).
Proof.
  induction st as [| [l |] st IH]; [done | | done].
  simpl. by rewrite list_merge_fmap, IH.
Qed.

Lemma merge_sort_aux_fmap (st : list (option (list A))) (l : list A) :
  f <$> merge_sort_aux R st l
  = merge_sort_aux R' (fmap (M:=list) (fmap (M:=option) (fmap (M:=list) f)) st) (f <$> l).
Proof.
  revert st. induction l as [| x l IH]; intros st; simpl.
  - apply merge_stack_fmap.
  - by rewrite IH, merge_list_to_stack_fmap.
Qed.

Lemma merge_sort_fmap (l : list A) :
  f <$> merge_sort R l = merge_sort R' (f <$> l).
Proof. apply merge_sort_aux_fmap. Qed.
End merge_sort_fmap.

(** ** Code that only allocates *)

Lemma allocates_only_ret {A : Type} (a : A) : allocates_only (mret a : py A).
Proof. intros h. exists []. by rewrite app_nil_r. Qed.

Lemma allocates_only_fail {A : Type} (f : fault) : allocates_only (@fail A f).
Proof. intros h. exists []. by rewrite app_nil_r. Qed.

Lemma allocates_only_load (r : ref) : allocates_only (load r).
Proof.
  intros h. exists []. unfold load. rewrite app_nil_r.
  by destruct (h !! r).
Qed.

Lemma allocates_only_alloc (o : object) : allocates_only (alloc o).
Proof. intros h. by exists [o]. Qed.

Lemma allocates_only_lift {A : Type} (r : result A) : allocates_only (lift r).
Proof.
  destruct r; [apply allocates_only_ret | apply allocates_only_fail].
Qed.

Lemma allocates_only_bind {A B : Type} (m : py A) (k : A → py B) :
  allocates_only m → (∀ a, allocates_only (k a)) → allocates_only (m ≫= k).
Proof.
  intros Hm Hk h. unfold mbind, py_bind.
  destruct (Hm h) as [new1 H1]. destruct (m h) as [[a | f] h1]; simpl in H1.
  - destruct (Hk a h1) as [new2 H2]. exists (new1 ++ new2).
    by rewrite H2, H1, app_assoc.
  - by exists new1.
Qed.

(** One step through code that allocates: a bind, a case distinction on
    what was loaded, or one of the primitives. *)
Ltac allocates :=
  repeat first
    [ apply allocates_only_ret | apply allocates_only_fail
    | apply allocates_only_load | apply allocates_only_alloc
    | apply allocates_only_lift
    | apply allocates_only_bind; [| intros ?]
    | match goal with
      | |- allocates_only (match ?x with _ => _ end) => destruct x
      end ].

Lemma allocates_only_getitem (df : ref) (name : string) :
  allocates_only (pandas.getitem df name).
Proof. unfold pandas.getitem. allocates. Qed.

Lemma allocates_only_series_map (f : value → option value) (s : ref) :
  allocates_only (pandas.series_map f s).
Proof. unfold pandas.series_map. allocates. Qed.

Lemma allocates_only_series_zip (f : bool → bool → bool) (a b : ref) :
  allocates_only (pandas.series_zip f a b).
Proof. unfold pandas.series_zip. allocates. Qed.

Lemma allocates_only_getitem_mask (obj mask : ref) :
  allocates_only (pandas.getitem_mask obj mask).
Proof. unfold pandas.getitem_mask. allocates. Qed.

Lemma allocates_only_len (obj : ref) : allocates_only (pandas.len_ obj).
Proof. unfold pandas.len_. allocates. Qed.

Lemma allocates_only_groupby_size (df : ref) (names : list string) :
  allocates_only (pandas.groupby_size df names).
Proof. unfold pandas.groupby_size. allocates. Qed.

Lemma allocates_only_sort_values (s : ref) :
  allocates_only (pandas.sort_values_descending s).
Proof. unfold pandas.sort_values_descending. allocates. Qed.

Lemma allocates_only_head (obj : ref) (n : nat) :
  allocates_only (pandas.head obj n).
Proof. unfold pandas.head. allocates. Qed.

Lemma allocates_only_reset_index (s : ref) (name : string) :
  allocates_only (pandas.reset_index s name).
Proof. unfold pandas.reset_index. allocates. Qed.

Lemma allocates_only_rename (df : ref) (old new : string) :
  allocates_only (pandas.rename df old new).
Proof. unfold pandas.rename. allocates. Qed.

Lemma allocates_only_copy (df : ref) : allocates_only (pandas.copy df).
Proof. unfold pandas.copy. allocates. Qed.

Lemma allocates_only_st_dataframe (obj : ref) :
  allocates_only (st_dataframe obj).
Proof. unfold st_dataframe. allocates. Qed.

Ltac allocates_pandas :=
  repeat first
    [ apply allocates_only_getitem | apply allocates_only_series_map
    | apply allocates_only_series_zip | apply allocates_only_getitem_mask
    | apply allocates_only_len | apply allocates_only_groupby_size
    | apply allocates_only_sort_values | apply allocates_only_head
    | apply allocates_only_reset_index | apply allocates_only_rename
    | apply allocates_only_copy | apply allocates_only_st_dataframe
    | apply allocates_only_ret | apply allocates_only_lift
    | apply allocates_only_bind; [| intros ?]
    | match goal with
      | |- allocates_only (if ?c then _ else _) => destruct c
      end ].

Lemma allocates_only_gauge (login_df unauth_df request_df : ref) :
  allocates_only
    (by_reference.create_fraud_score_gauge login_df unauth_df request_df).
Proof.
  unfold by_reference.create_fraud_score_gauge,
    by_reference.failed_login_rate, by_reference.unauth_rate,
    by_reference.attack_rate, pandas.series_eq, pandas.series_isin.
  allocates_pandas.
Qed.

Lemma allocates_only_tab5
    (df1_login df2_duration df3_unauth df4_requests df5_services : ref) :
  allocates_only
    (by_reference.tab5_anomaly_detection df1_login df2_duration df3_unauth
       df4_requests df5_services).
Proof.
  unfold by_reference.tab5_anomaly_detection,
    pandas.series_eq, pandas.series_gt, pandas.series_lt,
    pandas.series_or, pandas.series_and.
  allocates_pandas.
Qed.

(** Assigning a column is another matter: the frame is changed where it
    stands. *)
Lemma setitem_in_place (h : heap) (df s : ref) (name : string)
    (columns : list (string * list value)) (data : list value) :
  h !! df = Some (DataFrame columns) → h !! s = Some (Series data) →
  length data = pandas.nrows columns →
  pandas.setitem df name s h
  = (Returns (), <[df := DataFrame (pandas.assign name data columns)]> h).
Proof.
  intros Hdf Hs Hlen. unfold pandas.setitem, mbind, py_bind, load, store.
  rewrite Hdf, Hs. rewrite decide_True by tauto.
  rewrite decide_True; [done |]. by eapply lookup_lt_Some.
Qed.

(** ** Running the code on known objects *)

Lemma wp_ret {A : Type} (a : A) (h : heap) (Q : outcome A → heap → Prop) :
  Q (Returns a) h → wp (mret a) h Q.
Proof. intros HQ. by exists (Returns a), h. Qed.

Lemma wp_fail {A : Type} (f : fault) (h : heap)
    (Q : outcome A → heap → Prop) :
  Q (Fails f) h → wp (fail f) h Q.
Proof. intros HQ. by exists (Fails f), h. Qed.

Lemma wp_lift {A : Type} (r : result A) (h : heap)
    (Q : outcome A → heap → Prop) :
  Q (outcome_of r) h → wp (lift r) h Q.
Proof. destruct r; [apply wp_ret | apply wp_fail]. Qed.

Lemma wp_bind {A B : Type} (m : py A) (k : A → py B) (h : heap)
    (Q : outcome B → heap → Prop) :
  wp m h (λ o h', match o with
                  | Returns a => wp (k a) h' Q
                  | Fails f => Q (Fails f) h'
                  end) →
  wp (m ≫= k) h Q.
Proof.
  intros (o & h1 & Hm & Hpre & HQ). unfold wp, mbind, py_bind. rewrite Hm.
  destruct o as [a | f].
  - destruct HQ as (o & h2 & Hk & Hpre' & HQ). exists o, h2.
    split; [done |]. split; [by etrans | done].
  - by exists (Fails f), h1.
Qed.

Lemma wp_load (r : ref) (o : object) (h : heap)
    (Q : outcome object → heap → Prop) :
  h !! r = Some o → Q (Returns o) h → wp (load r) h Q.
Proof.
  intros Hr HQ. exists (Returns o), h. unfold load. by rewrite Hr.
Qed.

Lemma wp_alloc (o : object) (h : heap) (Q : outcome ref → heap → Prop) :
  (∀ r h', h `prefix_of` h' → h' !! r = Some o → Q (Returns r) h') →
  wp (alloc o) h Q.
Proof.
  intros HQ. exists (Returns (length h)), (h ++ [o]).
  split; [done |]. split; [by apply prefix_app_r |].
  apply HQ; [by apply prefix_app_r |]. by rewrite lookup_app_r, Nat.sub_diag.
Qed.

Lemma wp_mono {A : Type} (m : py A) (h : heap)
    (Q Q' : outcome A → heap → Prop) :
  (∀ o h', h `prefix_of` h' → Q o h' → Q' o h') → wp m h Q → wp m h Q'.
Proof. intros HQ (o & h' & Hm & Hpre & H). exists o, h'. eauto. Qed.

(** The result of running code that meets [wp]. *)
Lemma wp_run {A : Type} (m : py A) (h : heap) (Q : outcome A → heap → Prop) :
  wp m h Q → ∃ new, (m h).2 = h ++ new ∧ Q (m h).1 (h ++ new).
Proof.
  intros (o & h' & Hm & [new Hnew] & HQ). exists new. rewrite Hm. simpl.
  by subst h'.
Qed.

Lemma mapM_fmap_Some {A B C : Type} (f : B → option C) (c : A → B)
    (g : A → C) (rows : list A) :
  (∀ x, f (c x) = Some (g x)) → mapM f (c <$> rows) = Some (g <$> rows).
Proof.
  intros Hf. induction rows as [| x rows IH]; [done |].
  rewrite !fmap_cons. simpl. rewrite Hf. simpl. by rewrite IH.
Qed.

Lemma mask_filter_fmap {A B : Type} (P : A → Prop) `{!∀ x, Decision (P x)}
    (g : A → B) (rows : list A) :
  pandas.mask_filter ((λ x, bool_decide (P x)) <$> rows) (g <$> rows)
  = g <$> filter P rows.
Proof.
  induction rows as [| x rows IH]; [done |].
  rewrite !fmap_cons, filter_cons. simpl.
  destruct (decide (P x)) as [HP | HP].
  - rewrite bool_decide_eq_true_2 by done. by rewrite fmap_cons, IH.
  - by rewrite bool_decide_eq_false_2.
Qed.

Lemma nrows_frame {A : Type} (schema : list (string * (A → value)))
    (rows : list A) :
  schema ≠ [] → pandas.nrows (frame schema rows) = length rows.
Proof. destruct schema as [| [n c] schema]; [done |]. intros _. simpl. by rewrite length_fmap. Qed.

Lemma mask_frame {A : Type} (P : A → Prop) `{!∀ x, Decision (P x)}
    (schema : list (string * (A → value))) (rows : list A) :
  (λ c, (c.1, pandas.mask_filter ((λ x, bool_decide (P x)) <$> rows) c.2))
    <$> frame schema rows
  = frame schema (filter P rows).
Proof.
  unfold frame. rewrite <- list_fmap_compose. apply list_fmap_ext.
  intros i [n c] _. simpl. by rewrite mask_filter_fmap.
Qed.

Lemma wp_getitem (h : heap) (df : ref) (name : string)
    (columns : list (string * list value)) (data : list value)
    (Q : outcome ref → heap → Prop) :
  h !! df = Some (DataFrame columns) →
  pandas.column name columns = Some data →
  (∀ r h', h `prefix_of` h' → h' !! r = Some (Series data)
           → Q (Returns r) h') →
  wp (pandas.getitem df name) h Q.
Proof.
  intros Hdf Hcol HQ. unfold pandas.getitem.
  apply wp_bind, (wp_load _ _ _ _ Hdf). rewrite Hcol. by apply wp_alloc.
Qed.

Lemma wp_series_map {A : Type} (f : value → option value) (s : ref)
    (h : heap) (o : object) (c g : A → value) (rows : list A)
    (Q : outcome ref → heap → Prop) :
  h !! s = Some o → pandas.values o = Some (c <$> rows) →
  (∀ x, f (c x) = Some (g x)) →
  (∀ r h', h `prefix_of` h' → h' !! r = Some (Series (g <$> rows))
           → Q (Returns r) h') →
  wp (pandas.series_map f s) h Q.
Proof.
  intros Hs Hv Hf HQ. unfold pandas.series_map.
  apply wp_bind, (wp_load _ _ _ _ Hs). rewrite Hv. simpl.
  rewrite (mapM_fmap_Some f c g) by done. by apply wp_alloc.
Qed.

Lemma zip_with_fmap_same {A B C D : Type} (f : B → C → D) (p : A → B)
    (q : A → C) (rows : list A) :
  zip_with f (p <$> rows) (q <$> rows) = (λ x, f (p x) (q x)) <$> rows.
Proof. induction rows as [| x rows IH]; [done |]. csimpl. by rewrite IH. Qed.

Lemma wp_series_zip {A : Type} (f : bool → bool → bool) (a b : ref)
    (h : heap) (p q : A → bool) (rows : list A)
    (Q : outcome ref → heap → Prop) :
  h !! a = Some (Series ((λ x, VBool (p x)) <$> rows)) →
  h !! b = Some (Series ((λ x, VBool (q x)) <$> rows)) →
  (∀ r h', h `prefix_of` h'
           → h' !! r = Some (Series ((λ x, VBool (f (p x) (q x))) <$> rows))
           → Q (Returns r) h') →
  wp (pandas.series_zip f a b) h Q.
Proof.
  intros Ha Hb HQ. unfold pandas.series_zip.
  apply wp_bind, (wp_load _ _ _ _ Ha).
  apply wp_bind, (wp_load _ _ _ _ Hb). simpl.
  rewrite (mapM_fmap_Some pandas.as_bool _ p) by done.
  rewrite (mapM_fmap_Some pandas.as_bool _ q) by done.
  rewrite decide_True by (by rewrite !length_fmap).
  rewrite zip_with_fmap_same, <- list_fmap_compose. by apply wp_alloc.
Qed.

Lemma wp_getitem_mask_frame {A : Type} (P : A → Prop)
    `{!∀ x, Decision (P x)} (schema : list (string * (A → value)))
    (rows : list A) (h : heap) (obj mask : ref)
    (Q : outcome ref → heap → Prop) :
  h !! obj = Some (DataFrame (frame schema rows)) → schema ≠ [] →
  h !! mask = Some (Series ((λ x, VBool (bool_decide (P x))) <$> rows)) →
  (∀ r h', h `prefix_of` h'
           → h' !! r = Some (DataFrame (frame schema (filter P rows)))
           → Q (Returns r) h') →
  wp (pandas.getitem_mask obj mask) h Q.
Proof.
  intros Hobj Hschema Hmask HQ. unfold pandas.getitem_mask.
  apply wp_bind, (wp_load _ _ _ _ Hobj).
  apply wp_bind, (wp_load _ _ _ _ Hmask). simpl.
  rewrite (mapM_fmap_Some pandas.as_bool _ (λ x, bool_decide (P x))) by done.
  rewrite decide_True by (by rewrite nrows_frame, length_fmap).
  rewrite mask_frame. by apply wp_alloc.
Qed.

Lemma wp_getitem_mask_sizes (P : string * Z → Prop)
    `{!∀ e, Decision (P e)} (name : string) (sizes : list (string * Z))
    (h : heap) (obj mask : ref) (Q : outcome ref → heap → Prop) :
  h !! obj = Some (size_series name sizes) →
  h !! mask = Some (Series ((λ e, VBool (bool_decide (P e))) <$> sizes)) →
  (∀ r h', h `prefix_of` h'
           → h' !! r = Some (size_series name (filter P sizes))
           → Q (Returns r) h') →
  wp (pandas.getitem_mask obj mask) h Q.
Proof.
  intros Hobj Hmask HQ. unfold pandas.getitem_mask.
  apply wp_bind, (wp_load _ _ _ _ Hobj).
  apply wp_bind, (wp_load _ _ _ _ Hmask). simpl.
  rewrite (mapM_fmap_Some pandas.as_bool _ (λ x, bool_decide (P x))) by done.
  rewrite decide_True by (by rewrite !length_fmap).
  rewrite mask_filter_fmap. by apply wp_alloc.
Qed.

Lemma wp_len_frame {A : Type} (schema : list (string * (A → value)))
    (rows : list A) (h : heap) (obj : ref)
    (Q : outcome Z → heap → Prop) :
  h !! obj = Some (DataFrame (frame schema rows)) → schema ≠ [] →
  Q (Returns (len rows)) h →
  wp (pandas.len_ obj) h Q.
Proof.
  intros Hobj Hschema HQ. unfold pandas.len_.
  apply wp_bind, (wp_load _ _ _ _ Hobj). apply wp_ret.
  by rewrite nrows_frame.
Qed.

Lemma wp_len_sizes (name : string) (sizes : list (string * Z)) (h : heap)
    (obj : ref) (Q : outcome Z → heap → Prop) :
  h !! obj = Some (size_series name sizes) →
  Q (Returns (len sizes)) h →
  wp (pandas.len_ obj) h Q.
Proof.
  intros Hobj HQ. unfold pandas.len_.
  apply wp_bind, (wp_load _ _ _ _ Hobj). apply wp_ret. simpl.
  by rewrite length_fmap.
Qed.

Lemma wp_series_gt_sizes (n : Z) (name : string) (sizes : list (string * Z))
    (h : heap) (s : ref) (Q : outcome ref → heap → Prop) :
  h !! s = Some (size_series name sizes) →
  (∀ r h', h `prefix_of` h'
           → h' !! r
             = Some (Series ((λ e, VBool (bool_decide (n < e.2))) <$> sizes))
           → Q (Returns r) h') →
  wp (pandas.series_gt s n) h Q.
Proof.
  intros Hs HQ. unfold pandas.series_gt.
  eapply (wp_series_map _ _ _ _ (λ e : string * Z, VInt e.2)); [exact Hs | | | exact HQ].
  - simpl. by rewrite <- list_fmap_compose.
  - done.
Qed.

Lemma filter_fmap_iff {A B : Type} (P : A → Prop) (Q : B → Prop)
    `{!∀ x, Decision (P x), !∀ y, Decision (Q y)} (f : A → B)
    (l : list A) :
  (∀ x, Q (f x) ↔ P x) → filter Q (f <$> l) = f <$> filter P l.
Proof.
  intros HPQ. induction l as [| x l IH]; [done |].
  rewrite fmap_cons, !filter_cons.
  destruct (decide (P x)) as [HP | HP];
    destruct (decide (Q (f x))) as [HQ | HQ];
    try (exfalso; rewrite HPQ in HQ; tauto).
  - by rewrite fmap_cons, IH.
  - done.
Qed.

(** Grouping by one text column is grouping its labels. *)
Lemma unique_keys_fmap (keys : list string) :
  pandas.unique_keys ((λ k, [VStr k]) <$> keys)
  = (λ k, [VStr k]) <$> unique keys.
Proof.
  induction keys as [| k keys IH]; [done |].
  rewrite fmap_cons. simpl. rewrite IH. f_equal.
  apply (filter_fmap_iff (λ x, x ≠ k) (λ x, x ≠ [VStr k])
           (λ k, [VStr k])). intros x.
  split; [congruence | intros H [= E]; done].
Qed.

Lemma count_keys_fmap (k : string) (keys : list string) :
  len (filter (λ x, x = [VStr k]) ((λ k, [VStr k]) <$> keys))
  = group_size k keys.
Proof.
  unfold group_size, len. f_equal.
  rewrite (filter_fmap_iff (λ x, x = k) (λ x, x = [VStr k])
             (λ k, [VStr k])), length_fmap; [done |].
  intros x. split; [by intros [= ->] | by intros ->].
Qed.

Lemma group_sizes_fmap (keys : list string) :
  pandas.group_sizes ((λ k, [VStr k]) <$> keys)
  = (λ e, ([VStr e.1], e.2)) <$> groupby_size keys.
Proof.
  unfold pandas.group_sizes, groupby_size.
  rewrite unique_keys_fmap.
  rewrite <- (merge_sort_fmap string_le pandas.key_le).
  - rewrite <- !list_fmap_compose. apply list_fmap_ext.
    intros i k _. simpl. by rewrite count_keys_fmap.
  - intros x y. unfold pandas.key_le, string_le. simpl.
    destruct (decide (VStr x = VStr y)) as [[= ->] | ?]; [| done].
    split; [done | intros _]. destruct (String.leb_total y y); done.
Qed.

Lemma key_rows_one {A : Type} (c : A → value) (rows : list A) :
  pandas.key_rows (length rows) [c <$> rows] = (λ x, [c x]) <$> rows.
Proof.
  unfold pandas.key_rows.
  induction rows as [| x rows IH]; [done |]. csimpl. by rewrite IH.
Qed.

Lemma wp_groupby_size {A : Type} (schema : list (string * (A → value)))
    (key : A → string) (rows : list A) (name : string) (h : heap)
    (df : ref) (Q : outcome ref → heap → Prop) :
  h !! df = Some (DataFrame (frame schema rows)) → schema ≠ [] →
  pandas.column name (frame schema rows) = Some ((VStr ∘ key) <$> rows) →
  (∀ r h', h `prefix_of` h'
           → h' !! r = Some (size_series name (groupby_size (key <$> rows)))
           → Q (Returns r) h') →
  wp (pandas.groupby_size df [name]) h Q.
Proof.
  intros Hdf Hschema Hcol HQ. unfold pandas.groupby_size.
  apply wp_bind, (wp_load _ _ _ _ Hdf). simpl. rewrite Hcol.
  rewrite nrows_frame by done.
  rewrite (key_rows_one (VStr ∘ key)).
  rewrite (list_fmap_compose key (λ k, [VStr k])), group_sizes_fmap.
  by apply wp_alloc.
Qed.

Lemma wp_sort_values_descending (name : string) (sizes : list (string * Z))
    (h : heap) (s : ref) (Q : outcome ref → heap → Prop) :
  h !! s = Some (size_series name sizes) →
  (∀ r h', h `prefix_of` h'
           → h' !! r = Some (size_series name (sort_values_desc sizes))
           → Q (Returns r) h') →
  wp (pandas.sort_values_descending s) h Q.
Proof.
  intros Hs HQ. unfold pandas.sort_values_descending.
  apply wp_bind, (wp_load _ _ _ _ Hs). simpl.
  rewrite <- (merge_sort_fmap size_ge pandas.count_ge) by done.
  by apply wp_alloc.
Qed.

Lemma wp_head_frame {A : Type} (schema : list (string * (A → value)))
    (rows : list A) (n : nat) (h : heap) (obj : ref)
    (Q : outcome ref → heap → Prop) :
  h !! obj = Some (DataFrame (frame schema rows)) →
  (∀ r h', h `prefix_of` h'
           → h' !! r = Some (DataFrame (frame schema (take n rows)))
           → Q (Returns r) h') →
  wp (pandas.head obj n) h Q.
Proof.
  intros Hobj HQ. unfold pandas.head.
  apply wp_bind, (wp_load _ _ _ _ Hobj). apply wp_alloc.
  intros r h' Hpre Hr. apply HQ; [done |]. rewrite Hr. do 2 f_equal.
  unfold frame. rewrite <- list_fmap_compose. apply list_fmap_ext.
  intros i [c f] _. simpl. by rewrite fmap_take.
Qed.

Lemma wp_head_sizes (name : string) (sizes : list (string * Z)) (n : nat)
    (h : heap) (obj : ref) (Q : outcome ref → heap → Prop) :
  h !! obj = Some (size_series name sizes) →
  (∀ r h', h `prefix_of` h'
           → h' !! r = Some (size_series name (take n sizes))
           → Q (Returns r) h') →
  wp (pandas.head obj n) h Q.
Proof.
  intros Hobj HQ. unfold pandas.head.
  apply wp_bind, (wp_load _ _ _ _ Hobj). apply wp_alloc.
  intros r h' Hpre Hr. apply HQ; [done |]. rewrite Hr.
  unfold size_series. by rewrite fmap_take.
Qed.

Lemma wp_reset_index (names : list string) (sizes : list (list value * Z))
    (name : string) (h : heap) (s : ref) (Q : outcome ref → heap → Prop) :
  h !! s = Some (SizeSeries names sizes) →
  (∀ r h', h `prefix_of` h'
           → h' !! r
             = Some (DataFrame
                       (imap (λ i n, (n, (λ e, default (VInt 0) (e.1 !! i))
                                           <$> sizes)) names
                        ++ [(name, VInt ∘ snd <$> sizes)]))
           → Q (Returns r) h') →
  wp (pandas.reset_index s name) h Q.
Proof.
  intros Hs HQ. unfold pandas.reset_index.
  apply wp_bind, (wp_load _ _ _ _ Hs). by apply wp_alloc.
Qed.

Lemma wp_rename (columns : list (string * list value)) (old new : string)
    (h : heap) (df : ref) (Q : outcome ref → heap → Prop) :
  h !! df = Some (DataFrame columns) →
  (∀ r h', h `prefix_of` h'
           → h' !! r
             = Some (DataFrame
                       ((λ c, (if decide (c.1 = old) then new else c.1, c.2))
                          <$> columns))
           → Q (Returns r) h') →
  wp (pandas.rename df old new) h Q.
Proof.
  intros Hdf HQ. unfold pandas.rename.
  apply wp_bind, (wp_load _ _ _ _ Hdf). by apply wp_alloc.
Qed.

Lemma wp_st_dataframe (o : object) (h : heap) (obj : ref)
    (Q : outcome unit → heap → Prop) :
  h !! obj = Some o → Q (Returns ()) h → wp (st_dataframe obj) h Q.
Proof.
  intros Hobj HQ. unfold st_dataframe.
  apply wp_bind, (wp_load _ _ _ _ Hobj). by apply wp_ret.
Qed.

(** Facts about the objects of a heap hold in every heap that extends
    it. *)
Ltac forward Hpre :=
  repeat match goal with
         | H : ?h !! _ = Some _ |- _ =>
             lazymatch type of Hpre with
             | h `prefix_of` _ =>
                 eapply prefix_lookup_Some in H; [| exact Hpre]
             end
         end;
  clear Hpre.

(** One step of a run: the primitive at the head of the code, by its
    rule; what it allocates is named and the known objects are carried
    over. *)
Ltac wp_step rule :=
  apply wp_bind; eapply rule;
  [ try eassumption; try done; try reflexivity ..
  | let Hpre := fresh "Hpre" in intros ? ? Hpre ?; forward Hpre ].

Ltac wp_len rule :=
  apply wp_bind; eapply rule; [ try eassumption; try done .. | ].

Ltac wp_truediv :=
  apply wp_bind, wp_lift;
  lazymatch goal with
  | |- context [pyfloat.truediv ?n ?d] =>
      destruct (pyfloat.truediv n d) as [? | ?]; simpl; [apply wp_ret | done]
  end.

Lemma wp_failed_login_rate (login_df : ref) (rows : list LoginEvent.t)
    (h : heap) (Q : outcome Q → heap → Prop) :
  h !! login_df = Some (login_frame rows) →
  (∀ h', h `prefix_of` h'
         → Q (outcome_of (pyfloat.failed_login_rate rows)) h') →
  wp (by_reference.failed_login_rate login_df) h Q.
Proof.
  intros Hdf HQ. unfold by_reference.failed_login_rate, pandas.series_eq,
    login_frame in *.
  apply (wp_mono _ _ (λ o _, o = outcome_of (pyfloat.failed_login_rate rows)));
    [intros o h' Hpre ->; by apply HQ |]. clear HQ.
  unfold pyfloat.failed_login_rate.
  rewrite <- (list_filter_iff
               (λ row, (VStr ∘ LoginEvent.login_status) row = VStr "failed")
               (λ row, LoginEvent.login_status row = "failed"))
    by (intros row; unfold compose; split;
        [intros [= H]; exact H | intros H; by rewrite H]).
  wp_step (wp_getitem h).
  wp_step (wp_series_map (A := LoginEvent.t)).
  wp_step (wp_getitem_mask_frame
             (λ row, (VStr ∘ LoginEvent.login_status) row = VStr "failed")).
  wp_len (wp_len_frame login_schema). wp_len (wp_len_frame login_schema).
  wp_truediv. done.
Qed.

Lemma wp_unauth_rate (unauth_df : ref) (rows : list AuthAttempt.t)
    (h : heap) (Q : outcome Q → heap → Prop) :
  h !! unauth_df = Some (auth_frame rows) →
  (∀ h', h `prefix_of` h' → Q (outcome_of (pyfloat.unauth_rate rows)) h') →
  wp (by_reference.unauth_rate unauth_df) h Q.
Proof.
  intros Hdf HQ. unfold by_reference.unauth_rate, pandas.series_eq,
    auth_frame in *.
  apply (wp_mono _ _ (λ o _, o = outcome_of (pyfloat.unauth_rate rows)));
    [intros o h' Hpre ->; by apply HQ |]. clear HQ.
  unfold pyfloat.unauth_rate.
  rewrite <- (list_filter_iff
               (λ row, (VStr ∘ AuthAttempt.auth_status) row
                       = VStr "unauthenticated")
               (λ row, AuthAttempt.auth_status row = "unauthenticated"))
    by (intros row; unfold compose; split;
        [intros [= H]; exact H | intros H; by rewrite H]).
  wp_step (wp_getitem h).
  wp_step (wp_series_map (A := AuthAttempt.t)).
  wp_step (wp_getitem_mask_frame
             (λ row, (VStr ∘ AuthAttempt.auth_status) row
                     = VStr "unauthenticated")).
  wp_len (wp_len_frame auth_schema). wp_len (wp_len_frame auth_schema).
  wp_truediv. done.
Qed.

Lemma wp_attack_rate (request_df : ref) (rows : list RequestLog.t)
    (h : heap) (Q : outcome Q → heap → Prop) :
  h !! request_df = Some (request_frame rows) →
  (∀ h', h `prefix_of` h' → Q (outcome_of (pyfloat.attack_rate rows)) h') →
  wp (by_reference.attack_rate request_df) h Q.
Proof.
  intros Hdf HQ. unfold by_reference.attack_rate, pandas.series_isin,
    request_frame in *.
  apply (wp_mono _ _ (λ o _, o = outcome_of (pyfloat.attack_rate rows)));
    [intros o h' Hpre ->; by apply HQ |]. clear HQ.
  unfold pyfloat.attack_rate.
  rewrite <- (list_filter_iff
               (λ row, (VStr ∘ RequestLog.request_type) row
                       ∈ [VStr "blank"; VStr "dos_attack"])
               (λ row, RequestLog.request_type row
                       ∈ ["blank"; "dos_attack"]))
    by (intros row; unfold compose;
        rewrite !elem_of_cons, !elem_of_nil;
        split; (intros [H | [H | []]]; [left | right; left]; congruence)).
  wp_step (wp_getitem h).
  wp_step (wp_series_map (A := RequestLog.t)).
  wp_step (wp_getitem_mask_frame
             (λ row, (VStr ∘ RequestLog.request_type) row
                     ∈ [VStr "blank"; VStr "dos_attack"])).
  wp_len (wp_len_frame request_schema).
  wp_len (wp_len_frame request_schema).
  wp_truediv. done.
Qed.

(** On the tables of spec section 3, the code on shared objects computes
    what the code on lists computes, exceptions included. *)
Lemma wp_create_fraud_score_gauge (login_df unauth_df request_df : ref)
    (logins : list LoginEvent.t) (attempts : list AuthAttempt.t)
    (requests : list RequestLog.t) (h : heap)
    (Q : outcome (Q * string) → heap → Prop) :
  h !! login_df = Some (login_frame logins) →
  h !! unauth_df = Some (auth_frame attempts) →
  h !! request_df = Some (request_frame requests) →
  (∀ h', h `prefix_of` h'
         → Q (outcome_of
                (pyfloat.create_fraud_score_gauge logins attempts requests))
             h') →
  wp (by_reference.create_fraud_score_gauge login_df unauth_df request_df)
     h Q.
Proof.
  intros Hl Hu Hr HQ.
  apply (wp_mono _ _
           (λ o _, o = outcome_of (pyfloat.create_fraud_score_gauge
                                     logins attempts requests)));
    [intros o h' Hpre ->; by apply HQ |]. clear HQ.
  unfold by_reference.create_fraud_score_gauge,
    pyfloat.create_fraud_score_gauge.
  apply wp_bind, (wp_failed_login_rate _ logins); [done |].
  intros h1 Hpre. forward Hpre.
  destruct (pyfloat.failed_login_rate logins) as [f | e]; simpl; [| done].
  apply wp_bind, (wp_unauth_rate _ attempts); [done |].
  intros h2 Hpre. forward Hpre.
  destruct (pyfloat.unauth_rate attempts) as [u | e]; simpl; [| done].
  apply wp_bind, (wp_attack_rate _ requests); [done |].
  intros h3 Hpre. forward Hpre.
  destruct (pyfloat.attack_rate requests) as [a | e]; simpl; [| done].
  by apply wp_ret.
Qed.

Lemma wp_series_or {A : Type} (P R : A → Prop)
    `{!∀ x, Decision (P x), !∀ x, Decision (R x)} (a b : ref) (h : heap)
    (rows : list A) (Q : outcome ref → heap → Prop) :
  h !! a = Some (Series ((λ x, VBool (bool_decide (P x))) <$> rows)) →
  h !! b = Some (Series ((λ x, VBool (bool_decide (R x))) <$> rows)) →
  (∀ r h', h `prefix_of` h'
           → h' !! r
             = Some (Series ((λ x, VBool (bool_decide (P x ∨ R x))) <$> rows))
           → Q (Returns r) h') →
  wp (pandas.series_or a b) h Q.
Proof.
  intros Ha Hb HQ.
  apply (wp_series_zip orb a b h (λ x, bool_decide (P x))
           (λ x, bool_decide (R x)) rows); [done | done |].
  intros r h' Hpre Hr. apply HQ; [done |]. rewrite Hr. do 2 f_equal.
  apply list_fmap_ext. intros i x _. simpl. by rewrite bool_decide_or.
Qed.

Lemma wp_series_and {A : Type} (P R : A → Prop)
    `{!∀ x, Decision (P x), !∀ x, Decision (R x)} (a b : ref) (h : heap)
    (rows : list A) (Q : outcome ref → heap → Prop) :
  h !! a = Some (Series ((λ x, VBool (bool_decide (P x))) <$> rows)) →
  h !! b = Some (Series ((λ x, VBool (bool_decide (R x))) <$> rows)) →
  (∀ r h', h `prefix_of` h'
           → h' !! r
             = Some (Series ((λ x, VBool (bool_decide (P x ∧ R x))) <$> rows))
           → Q (Returns r) h') →
  wp (pandas.series_and a b) h Q.
Proof.
  intros Ha Hb HQ.
  apply (wp_series_zip andb a b h (λ x, bool_decide (P x))
           (λ x, bool_decide (R x)) rows); [done | done |].
  intros r h' Hpre Hr. apply HQ; [done |]. rewrite Hr. do 2 f_equal.
  apply list_fmap_ext. intros i x _. simpl. by rewrite bool_decide_and.
Qed.

Lemma wp_series_lt {A : Type} (f : A → Z) (n : Z) (rows : list A)
    (h : heap) (s : ref) (Q : outcome ref → heap → Prop) :
  h !! s = Some (Series ((VInt ∘ f) <$> rows)) →
  (∀ r h', h `prefix_of` h'
           → h' !! r
             = Some (Series ((λ x, VBool (bool_decide (f x < n))) <$> rows))
           → Q (Returns r) h') →
  wp (pandas.series_lt s n) h Q.
Proof.
  intros Hs HQ. unfold pandas.series_lt.
  by eapply (wp_series_map _ _ _ _ (VInt ∘ f)); [exact Hs | | | exact HQ].
Qed.

Lemma wp_series_gt {A : Type} (f : A → Z) (n : Z) (rows : list A)
    (h : heap) (s : ref) (Q : outcome ref → heap → Prop) :
  h !! s = Some (Series ((VInt ∘ f) <$> rows)) →
  (∀ r h', h `prefix_of` h'
           → h' !! r
             = Some (Series ((λ x, VBool (bool_decide (n < f x))) <$> rows))
           → Q (Returns r) h') →
  wp (pandas.series_gt s n) h Q.
Proof.
  intros Hs HQ. unfold pandas.series_gt.
  by eapply (wp_series_map _ _ _ _ (VInt ∘ f)); [exact Hs | | | exact HQ].
Qed.

Lemma wp_series_eq {A : Type} (c : A → value) (v : value) (rows : list A)
    (h : heap) (s : ref) (Q : outcome ref → heap → Prop) :
  h !! s = Some (Series (c <$> rows)) →
  (∀ r h', h `prefix_of` h'
           → h' !! r
             = Some (Series ((λ x, VBool (bool_decide (c x = v))) <$> rows))
           → Q (Returns r) h') →
  wp (pandas.series_eq s v) h Q.
Proof.
  intros Hs HQ. unfold pandas.series_eq.
  by eapply (wp_series_map _ _ _ _ c); [exact Hs | | | exact HQ].
Qed.

(** Code whose result is not used further: it returns, and the known
    objects are carried over to what follows. *)
Ltac wp_block :=
  apply wp_bind;
  apply (wp_mono _ _ (λ o _, o = Returns ()));
  [ let Hpre := fresh "Hpre" in intros ? ? Hpre ->; forward Hpre | ].

(** Tab 5 on the tables of spec section 3: the objects it binds to its
    variables hold what the rules of the list model select. *)
Lemma wp_tab5_anomaly_detection
    (df1_login df2_duration df3_unauth df4_requests df5_services : ref)
    (logins : list LoginEvent.t) (sessions : list SessionRecord.t)
    (attempts : list AuthAttempt.t) (requests : list RequestLog.t)
    (services : list ServiceSubscription.t) (h : heap) :
  h !! df1_login = Some (login_frame logins) →
  h !! df2_duration = Some (session_frame sessions) →
  h !! df3_unauth = Some (auth_frame attempts) →
  h !! df4_requests = Some (request_frame requests) →
  h !! df5_services = Some (service_frame services) →
  wp (by_reference.tab5_anomaly_detection df1_login df2_duration df3_unauth
        df4_requests df5_services) h
     (λ o h', ∃ refs,
        o = Returns refs
        ∧ holds_report refs
            (mk_anomaly_report (critical_ips logins)
               (suspicious_sessions sessions) (brute_force attempts)
               (dos_attacks requests) (dos_by_ip requests)
               (suspended_services services)) h').
Proof.
  intros H1 H2 H3 H4 H5.
  unfold holds_report, critical_ips, failed_by_ip, suspicious_sessions,
    brute_force, dos_by_ip, dos_attacks, suspended_services.
  cbn [rep_critical_ips rep_suspicious_sessions rep_brute_force
       rep_dos_attacks rep_dos_by_ip rep_suspended_services].
  rewrite <- (list_filter_iff
               (λ row, (VStr ∘ LoginEvent.login_status) row = VStr "failed")
               (λ row, LoginEvent.login_status row = "failed"))
    by (intros row; unfold compose; split;
        [intros [= H]; exact H | intros H; by rewrite H]).
  rewrite <- (list_filter_iff
               (λ row, (VStr ∘ AuthAttempt.auth_status) row
                       = VStr "unauthenticated"
                       ∧ 10 < AuthAttempt.attempt_count row)
               (λ row, AuthAttempt.auth_status row = "unauthenticated"
                       ∧ 10 < AuthAttempt.attempt_count row))
    by (intros row; unfold compose; split;
        (intros [H ?]; split; [congruence | done])).
  rewrite <- !(list_filter_iff
                (λ row, (VStr ∘ RequestLog.request_type) row
                        = VStr "dos_attack")
                (λ row, RequestLog.request_type row = "dos_attack"))
    by (intros row; unfold compose; split;
        [intros [= H]; exact H | intros H; by rewrite H]).
  rewrite <- (list_filter_iff
               (λ row, (VStr ∘ ServiceSubscription.status) row
                       = VStr "suspended")
               (λ row, ServiceSubscription.status row = "suspended"))
    by (intros row; unfold compose; split;
        [intros [= H]; exact H | intros H; by rewrite H]).
  unfold by_reference.tab5_anomaly_detection,
    login_frame, session_frame, auth_frame, request_frame, service_frame
    in *.
  (* critical IPs *)
  wp_step wp_getitem.
  wp_step (wp_series_eq (VStr ∘ LoginEvent.login_status)).
  wp_step (wp_getitem_mask_frame
             (λ row, (VStr ∘ LoginEvent.login_status) row = VStr "failed")).
  wp_step (wp_groupby_size login_schema LoginEvent.ip_address).
  wp_step (wp_series_gt_sizes 5).
  wp_step (wp_getitem_mask_sizes (λ e, 5 < e.2)).
  wp_step wp_sort_values_descending.
  wp_len wp_len_sizes.
  wp_block.
  2: { destruct (decide _); [| by apply wp_ret].
       wp_step wp_reset_index. wp_step wp_rename.
       eapply wp_st_dataframe; [eassumption | done]. }
  match goal with
  | H : _ !! ?r = Some (size_series _ (sort_values_desc _)) |- _ =>
      rename H into Hcritical
  end.
  repeat match goal with
         | H : _ !! _ = Some (Series _) |- _ => clear H
         | H : _ !! _ = Some (size_series _ (groupby_size _)) |- _ => clear H
         | H : _ !! _ = Some (size_series _ (filter _ _)) |- _ => clear H
         | H : _ !! _ = Some (DataFrame (frame _ (filter _ _))) |- _ => clear H
         end.
  (* suspicious sessions *)
  wp_step wp_getitem.
  wp_step (wp_series_lt SessionRecord.duration_minutes).
  wp_step wp_getitem.
  wp_step (wp_series_gt SessionRecord.duration_minutes).
  wp_step (wp_series_or (λ row, SessionRecord.duration_minutes row < 3)
             (λ row, 180 < SessionRecord.duration_minutes row)).
  wp_step (wp_getitem_mask_frame
             (λ row, SessionRecord.duration_minutes row < 3
                     ∨ 180 < SessionRecord.duration_minutes row)
             session_schema).
  wp_len (wp_len_frame session_schema).
  wp_block.
  2: { destruct (decide _); [| by apply wp_ret].
       wp_step (wp_head_frame session_schema).
       eapply wp_st_dataframe; [eassumption | done]. }
  match goal with
  | H : _ !! ?r = Some (DataFrame (frame session_schema (filter _ _))) |- _ =>
      rename H into Hsessions
  end.
  repeat match goal with
         | H : _ !! _ = Some (Series _) |- _ => clear H
         end.
  (* brute force *)
  wp_step wp_getitem.
  wp_step (wp_series_eq (VStr ∘ AuthAttempt.auth_status)).
  wp_step wp_getitem.
  wp_step (wp_series_gt AuthAttempt.attempt_count).
  wp_step (wp_series_and
             (λ row, (VStr ∘ AuthAttempt.auth_status) row
                     = VStr "unauthenticated")
             (λ row, 10 < AuthAttempt.attempt_count row)).
  wp_step (wp_getitem_mask_frame
             (λ row, (VStr ∘ AuthAttempt.auth_status) row
                     = VStr "unauthenticated"
                     ∧ 10 < AuthAttempt.attempt_count row)
             auth_schema).
  wp_len (wp_len_frame auth_schema).
  wp_block.
  2: { destruct (decide _); [| by apply wp_ret].
       eapply wp_st_dataframe; [eassumption | done]. }
  match goal with
  | H : _ !! ?r = Some (DataFrame (frame auth_schema (filter _ _))) |- _ =>
      rename H into Hbrute
  end.
  repeat match goal with
         | H : _ !! _ = Some (Series _) |- _ => clear H
         end.
  (* DOS attacks *)
  wp_step wp_getitem.
  wp_step (wp_series_eq (VStr ∘ RequestLog.request_type)).
  wp_step (wp_getitem_mask_frame
             (λ row, (VStr ∘ RequestLog.request_type) row
                     = VStr "dos_attack")
             request_schema).
  wp_len (wp_len_frame request_schema).
  match goal with
  | H : _ !! ?r = Some (DataFrame (frame request_schema (filter _ _))) |- _ =>
      rename H into Hdos
  end.
  repeat match goal with
         | H : _ !! _ = Some (Series _) |- _ => clear H
         end.
  apply wp_bind.
  apply (wp_mono _ _
           (λ o h', ∃ r,
              o = Returns r
              ∧ match r,
                  (if decide
                        (0 < len (filter
                                    (λ row, (VStr ∘ RequestLog.request_type)
                                              row = VStr "dos_attack")
                                    requests))
                   then Some
                          (head 10
                             (sort_values_desc
                                (groupby_size
                                   (RequestLog.ip_address
                                      <$> filter
                                            (λ row,
                                               (VStr ∘ RequestLog.request_type)
                                                 row = VStr "dos_attack")
                                            requests))))
                   else None) with
                | Some r, Some s => h' !! r = Some (size_series "ip_address" s)
                | None, None => True
                | _, _ => False
                end)).
  2: { destruct (decide _).
       - wp_step (wp_groupby_size request_schema RequestLog.ip_address).
         wp_step wp_sort_values_descending.
         wp_step wp_head_sizes.
         wp_step wp_reset_index. wp_step wp_rename.
         apply wp_bind. eapply wp_st_dataframe; [eassumption |].
         apply wp_ret. eexists. split; [done |]. eassumption.
       - apply wp_ret. by exists None. }
  intros o hdos Hpre (ranking & -> & Hranking). revert Hranking.
  generalize (if decide
                    (0 < len (filter
                                (λ row, (VStr ∘ RequestLog.request_type) row
                                        = VStr "dos_attack")
                                requests))
               then Some
                      (head 10
                         (sort_values_desc
                            (groupby_size
                               (RequestLog.ip_address
                                  <$> filter
                                        (λ row,
                                           (VStr ∘ RequestLog.request_type)
                                             row = VStr "dos_attack")
                                        requests))))
               else None).
  intros pure_ranking Hranking.
  destruct ranking as [ranking |], pure_ranking as [sizes |]; try done;
    forward Hpre.
  (* suspended services *)
  all: wp_step wp_getitem.
  all: wp_step (wp_series_eq (VStr ∘ ServiceSubscription.status)).
  all: wp_step (wp_getitem_mask_frame
                  (λ row, (VStr ∘ ServiceSubscription.status) row
                          = VStr "suspended")
                  service_schema).
  all: wp_len (wp_len_frame service_schema).
  all: wp_block;
    [| destruct (decide _); [| by apply wp_ret];
       wp_step (wp_head_frame service_schema);
       eapply wp_st_dataframe; [eassumption | done] ].
  all: apply wp_ret; eexists; split; [done |];
    cbn [by_reference.critical_ips by_reference.suspicious_sessions
         by_reference.brute_force by_reference.dos_attacks
         by_reference.dos_by_ip by_reference.suspended_services].
  all: split_and!; first [ eassumption | done ].
Qed.

(** ** The tables after the analysis *)

(** The run of one analysis pass on the five tables of spec section 3:
    it ends as the code on lists ends, with the score and the findings
    that code computes, and the heap it leaves is the one it found with
    new objects after it. *)
Lemma analysis_pass_on_objects
    (df1_login df2_duration df3_unauth df4_requests df5_services : ref)
    (logins : list LoginEvent.t) (sessions : list SessionRecord.t)
    (attempts : list AuthAttempt.t) (requests : list RequestLog.t)
    (services : list ServiceSubscription.t) (h : heap) :
  h !! df1_login = Some (login_frame logins) →
  h !! df2_duration = Some (session_frame sessions) →
  h !! df3_unauth = Some (auth_frame attempts) →
  h !! df4_requests = Some (request_frame requests) →
  h !! df5_services = Some (service_frame services) →
  ∃ new,
    (by_reference.analysis_pass df1_login df2_duration df3_unauth
       df4_requests df5_services h).2 = h ++ new
    ∧ match pyfloat.create_fraud_score_gauge logins attempts requests,
            (by_reference.analysis_pass df1_login df2_duration df3_unauth
               df4_requests df5_services h).1 with
      | Ok score, Returns (score', refs) =>
          score' = score
          ∧ holds_report refs
              (mk_anomaly_report (critical_ips logins)
                 (suspicious_sessions sessions) (brute_force attempts)
                 (dos_attacks requests) (dos_by_ip requests)
                 (suspended_services services)) (h ++ new)
      | Raise e, Fails f => f = Exception e
      | _, _ => False
      end.
Proof.
  intros H1 H2 H3 H4 H5.
  apply (wp_run (by_reference.analysis_pass df1_login df2_duration
                   df3_unauth df4_requests df5_services) h
           (λ o h',
              match pyfloat.create_fraud_score_gauge logins attempts requests,
                    o with
              | Ok score, Returns (score', refs) =>
                  score' = score
                  ∧ holds_report refs
                      (mk_anomaly_report (critical_ips logins)
                         (suspicious_sessions sessions) (brute_force attempts)
                         (dos_attacks requests) (dos_by_ip requests)
                         (suspended_services services)) h'
              | Raise e, Fails f => f = Exception e
              | _, _ => False
              end)).
  unfold by_reference.analysis_pass.
  apply wp_bind, (wp_create_fraud_score_gauge _ _ _ logins attempts requests);
    [done .. |].
  intros h1 Hpre.
  destruct (pyfloat.create_fraud_score_gauge logins attempts requests)
    as [score | e]; simpl; [| done].
  apply wp_bind.
  eapply wp_mono;
    [| apply (wp_tab5_anomaly_detection _ _ _ _ _ logins sessions attempts
                requests services);
       by eapply prefix_lookup_Some].
  intros o h2 Hpre2 (refs & -> & Hrefs). simpl.
  by apply wp_ret.
Qed.

(** C9.  Every analysis operation leaves the five tables unchanged.
    Whatever objects the heap [h] holds and whichever of them the five
    variables refer to, the fraud-score computation
    ([create_fraud_score_gauge]), the five anomaly detections of tab 5 and
    the two one after the other end in a heap of the form [h ++ new]: each
    object that was there, the five tables among them, is still at its
    reference, with the same columns, the same rows and the same order,
    and what the run created are the objects [new] after them (the masks,
    the selections and the group sizes).  This holds also for a run that
    ends in an exception. *)
Theorem analysis_leaves_objects_unchanged
    (df1_login df2_duration df3_unauth df4_requests df5_services : ref)
    (h : heap) :
  (∃ new,
     (by_reference.create_fraud_score_gauge df1_login df3_unauth df4_requests
        h).2 = h ++ new)
  ∧ (∃ new,
       (by_reference.tab5_anomaly_detection df1_login df2_duration df3_unauth
          df4_requests df5_services h).2 = h ++ new)
  ∧ (∃ new,
       (by_reference.analysis_pass df1_login df2_duration df3_unauth
          df4_requests df5_services h).2 = h ++ new).
Proof.
  split_and!.
  - apply allocates_only_gauge.
  - apply allocates_only_tab5.
  - apply allocates_only_bind; [apply allocates_only_gauge |].
    intros score. apply allocates_only_bind; [apply allocates_only_tab5 |].
    intros refs. apply allocates_only_ret.
Qed.

(** The pass on the worked example: the score and the tier come out, the
    five tables are the first five objects of the heap afterwards, 43
    objects have been created, and the one [critical_ips] refers to holds
    the address with eight failed logins. *)
Example analysis_pass_example :
  let run :=
    by_reference.analysis_pass 0%nat 1%nat 2%nat 3%nat 4%nat example_heap in
  (∃ refs,
     run.1
     = Returns ((2871044762448691 # 140737488355328)%Q, "MEDIUM", refs)
     ∧ run.2 !! by_reference.critical_ips refs
       = Some (size_series "ip_address" [("10.0.0.1", 8)]))
  ∧ take 5 run.2 = example_heap
  ∧ length run.2 = 48%nat.
Proof. vm_compute. split; [by eexists | done]. Qed.

(** The property is one of the code, not of the model: assigning a column
    changes the frame where it stands, so a pass that did to a table what
    [create_login_trend_chart] does to its copy would not leave it
    unchanged. *)
Example setitem_changes_the_frame :
  let h := [DataFrame [("hour", [VInt 0])]; Series [VInt 7]] in
  (pandas.setitem 0%nat "hour" 1%nat h).2
  = [DataFrame [("hour", [VInt 7])]; Series [VInt 7]]
  ∧ ¬ allocates_only (pandas.setitem 0%nat "hour" 1%nat).
Proof.
  split; [done |].
  intros H.
  destruct (H [DataFrame [("hour", [VInt 0])]; Series [VInt 7]])
    as [new Hnew].
  vm_compute in Hnew. discriminate.
Qed.

(** ** The login trend chart: a copy is changed, the table is not *)

Lemma allocates_only_to_datetime (parse : string → option Z) (s : ref) :
  allocates_only (pandas.to_datetime parse s).
Proof. unfold pandas.to_datetime. allocates. Qed.

Lemma allocates_only_dt_hour (s : ref) : allocates_only (pandas.dt_hour s).
Proof. unfold pandas.dt_hour. allocates. Qed.

Lemma keeps_allocates {A : Type} (h : heap) (m : py A) :
  allocates_only m → keeps h m.
Proof.
  intros Hm o new. destruct (Hm (h ++ o :: new)) as [new' ->].
  exists o, (new ++ new'). by rewrite <- app_assoc.
Qed.

Lemma keeps_ret {A : Type} (h : heap) (a : A) : keeps h (mret a : py A).
Proof. apply keeps_allocates, allocates_only_ret. Qed.

Lemma keeps_bind {A B : Type} (h : heap) (m : py A) (k : A → py B) :
  keeps h m → (∀ a, keeps h (k a)) → keeps h (m ≫= k).
Proof.
  intros Hm Hk o new. unfold mbind, py_bind.
  destruct (Hm o new) as (o1 & new1 & H1).
  destruct (m (h ++ o :: new)) as [[a | f] h1]; simpl in H1; subst h1.
  - apply Hk.
  - by exists o1, new1.
Qed.

(** An assignment to the object allocated right after [h] changes that
    object and nothing else. *)
Lemma keeps_setitem (h : heap) (name : string) (s : ref) :
  keeps h (pandas.setitem (length h) name s).
Proof.
  intros o new. unfold pandas.setitem, mbind, py_bind, load, store, fail.
  unfold ref, heap in *. rewrite list_lookup_middle by done.
  destruct ((h ++ o :: new) !! s) as [d |]; [| by exists o, new].
  destruct o as [columns | |], d as [| cells |]; try by eexists _, new.
  destruct (decide _); [| by eexists _, new].
  rewrite decide_True by (rewrite length_app; simpl; lia).
  eexists _, new. simpl.
  by rewrite (insert_app_r_alt h) by lia; rewrite Nat.sub_diag.
Qed.

Lemma run_bind {A B : Type} (m : py A) (k : A → py B) (h : heap) :
  (m ≫= k) h
  = match m h with
    | (Returns a, h') => k a h'
    | (Fails f, h') => (Fails f, h')
    end.
Proof. reflexivity. Qed.

Lemma keeps_create_login_trend_chart (parse : string → option Z)
    (h : heap) (df : ref) :
  ∃ new, (by_reference.create_login_trend_chart parse df h).2 = h ++ new.
Proof.
  unfold by_reference.create_login_trend_chart, pandas.copy.
  rewrite !run_bind. unfold load.
  destruct (h !! df) as [o |]; [| exists []; by rewrite app_nil_r].
  unfold alloc at 1.
  assert (Hrest : keeps h
            (s ← pandas.getitem (length h) "timestamp" ;
             t ← pandas.to_datetime parse s ;
             _ ← pandas.setitem (length h) "timestamp" t ;
             s ← pandas.getitem (length h) "timestamp" ;
             hour ← pandas.dt_hour s ;
             _ ← pandas.setitem (length h) "hour" hour ;
             sizes ← pandas.groupby_size (length h) ["hour"; "login_status"] ;
             trend ← pandas.reset_index sizes "count" ;
             mret trend)).
  { repeat first
      [ apply keeps_ret
      | apply keeps_setitem
      | apply keeps_allocates;
        first [ apply allocates_only_getitem
              | apply allocates_only_to_datetime
              | apply allocates_only_dt_hour
              | apply allocates_only_groupby_size
              | apply allocates_only_reset_index ]
      | apply keeps_bind; [| intros ?] ]. }
  destruct (Hrest o []) as (o' & new' & H). eauto.
Qed.

(** *** What the call does on a login table *)

Lemma run_load (h : heap) (r : ref) (o : object) :
  h !! r = Some o → load r h = (Returns o, h).
Proof. intros Hr. unfold load. by rewrite Hr. Qed.

Lemma run_getitem (h : heap) (df : ref) (name : string)
    (columns : list (string * list value)) (data : list value) :
  h !! df = Some (DataFrame columns) →
  pandas.column name columns = Some data →
  pandas.getitem df name h = (Returns (length h), h ++ [Series data]).
Proof.
  intros Hdf Hcol. unfold pandas.getitem.
  by rewrite run_bind, (run_load _ _ _ Hdf), Hcol.
Qed.

Lemma mapM_fmap_Forall {A B C : Type} (f : B → option C) (c : A → B)
    (g : A → C) (rows : list A) :
  Forall (λ x, f (c x) = Some (g x)) rows →
  mapM f (c <$> rows) = Some (g <$> rows).
Proof.
  induction 1 as [| x rows Hx _ IH]; [done |].
  rewrite !fmap_cons. simpl. rewrite Hx. simpl. by rewrite IH.
Qed.

(** The time a row's timestamp stands for, and its hour of the day. *)
Lemma run_to_datetime {A : Type} (parse : string → option Z) (h : heap)
    (s : ref) (c : A → string) (rows : list A) :
  h !! s = Some (Series ((VStr ∘ c) <$> rows)) →
  Forall (λ x, is_Some (parse (c x))) rows →
  pandas.to_datetime parse s h
  = (Returns (length h),
     h ++ [Series ((λ x, VTime (default 0 (parse (c x)))) <$> rows)]).
Proof.
  intros Hs Hparse. unfold pandas.to_datetime.
  rewrite run_bind, (run_load _ _ _ Hs).
  rewrite (mapM_fmap_Forall _ _ (λ x, VTime (default 0 (parse (c x))))); [done |].
  eapply Forall_impl; [exact Hparse |]. intros x [t Ht]. simpl.
  by rewrite Ht.
Qed.

Lemma run_dt_hour {A : Type} (h : heap) (s : ref) (t : A → Z)
    (rows : list A) :
  h !! s = Some (Series ((VTime ∘ t) <$> rows)) →
  pandas.dt_hour s h
  = (Returns (length h),
     h ++ [Series ((λ x, VInt ((t x `div` 3600) `mod` 24)) <$> rows)]).
Proof.
  intros Hs. unfold pandas.dt_hour.
  rewrite run_bind, (run_load _ _ _ Hs).
  by rewrite (mapM_fmap_Some _ (VTime ∘ t)
                (λ x, VInt ((t x `div` 3600) `mod` 24))).
Qed.

Ltac heap_lookup :=
  repeat first [ apply list_lookup_middle; reflexivity
               | apply lookup_app_l_Some ].

Lemma insert_fresh (h : heap) (o o' : object) :
  <[length h := o']> (h ++ [o]) = h ++ [o'].
Proof. by rewrite insert_app_r_alt, Nat.sub_diag by lia. Qed.

Ltac heap_insert :=
  unfold ref, heap in *;
  rewrite ?insert_app_l by (rewrite ?length_app; simpl; lia);
  rewrite insert_fresh.

Lemma assign_timestamp (logins : list LoginEvent.t) (data : list value) :
  pandas.assign "timestamp" data (frame login_schema logins)
  = [("timestamp", data);
     ("user_id", VStr ∘ LoginEvent.user_id <$> logins);
     ("ip_address", VStr ∘ LoginEvent.ip_address <$> logins);
     ("login_status", VStr ∘ LoginEvent.login_status <$> logins);
     ("browser", VStr ∘ LoginEvent.browser <$> logins)].
Proof. reflexivity. Qed.

Lemma assign_hour (timestamp user_id ip_address login_status browser
    data : list value) :
  pandas.assign "hour" data
    [("timestamp", timestamp); ("user_id", user_id);
     ("ip_address", ip_address); ("login_status", login_status);
     ("browser", browser)]
  = [("timestamp", timestamp); ("user_id", user_id);
     ("ip_address", ip_address); ("login_status", login_status);
     ("browser", browser); ("hour", data)].
Proof. reflexivity. Qed.

Lemma run_groupby_size (h : heap) (df : ref) (names : list string)
    (columns : list (string * list value)) (cs : list (list value)) :
  h !! df = Some (DataFrame columns) →
  pandas.key_columns names columns = inr cs →
  pandas.groupby_size df names h
  = (Returns (length h),
     h ++ [SizeSeries names
             (pandas.group_sizes
                (pandas.key_rows (pandas.nrows columns) cs))]).
Proof.
  intros Hdf Hcs. unfold pandas.groupby_size.
  by rewrite run_bind, (run_load _ _ _ Hdf), Hcs.
Qed.

Lemma run_reset_index (h : heap) (s : ref) (names : list string)
    (sizes : list (list value * Z)) (name : string) :
  h !! s = Some (SizeSeries names sizes) →
  pandas.reset_index s name h
  = (Returns (length h),
     h ++ [DataFrame
             (imap (λ i n, (n, (λ e, default (VInt 0) (e.1 !! i)) <$> sizes))
                   names
              ++ [(name, VInt ∘ snd <$> sizes)])]).
Proof.
  intros Hs. unfold pandas.reset_index.
  by rewrite run_bind, (run_load _ _ _ Hs).
Qed.

Lemma key_rows_two {A : Type} (c1 c2 : A → value) (rows : list A) :
  pandas.key_rows (length rows) [c1 <$> rows; c2 <$> rows]
  = (λ x, [c1 x; c2 x]) <$> rows.
Proof.
  unfold pandas.key_rows.
  induction rows as [| x rows IH]; [done |]. csimpl. by rewrite IH.
Qed.

(** On a login table whose timestamps can be read, the call returns the
    trend table.  The first object it allocates is the copy, and the copy
    ends up with datetimes in its timestamp column and with an hour
    column. *)
Lemma create_login_trend_chart_run (parse : string → option Z) (h : heap)
    (df : ref) (logins : list LoginEvent.t) :
  h !! df = Some (login_frame logins) →
  Forall (λ row, is_Some (parse (LoginEvent.timestamp row))) logins →
  let time row := default 0 (parse (LoginEvent.timestamp row)) in
  let hour row := (time row `div` 3600) `mod` 24 in
  let df_copy :=
    DataFrame
      [("timestamp", (λ row, VTime (time row)) <$> logins);
       ("user_id", VStr ∘ LoginEvent.user_id <$> logins);
       ("ip_address", VStr ∘ LoginEvent.ip_address <$> logins);
       ("login_status", VStr ∘ LoginEvent.login_status <$> logins);
       ("browser", VStr ∘ LoginEvent.browser <$> logins);
       ("hour", (λ row, VInt (hour row)) <$> logins)] in
  let sizes :=
    pandas.group_sizes
      ((λ row, [VInt (hour row); VStr (LoginEvent.login_status row)])
         <$> logins) in
  ∃ trend rest,
    by_reference.create_login_trend_chart parse df h
    = (Returns trend, h ++ df_copy :: rest)
    ∧ (h ++ df_copy :: rest) !! trend
      = Some (DataFrame
                [("hour", (λ e, default (VInt 0) (e.1 !! 0%nat)) <$> sizes);
                 ("login_status",
                  (λ e, default (VInt 0) (e.1 !! 1%nat)) <$> sizes);
                 ("count", VInt ∘ snd <$> sizes)]).
Proof.
  intros Hdf Hparse time hour df_copy sizes.
  unfold by_reference.create_login_trend_chart.
  unfold pandas.copy. rewrite !run_bind, (run_load _ _ _ Hdf).
  unfold alloc at 1. unfold login_frame.
  rewrite run_bind.
  erewrite (run_getitem _ (length h) "timestamp"); [| heap_lookup | reflexivity].
  rewrite run_bind.
  erewrite (run_to_datetime parse _ _ LoginEvent.timestamp logins);
    [| heap_lookup | done].
  rewrite run_bind.
  erewrite setitem_in_place; [| heap_lookup | heap_lookup | ].
  2: { simpl. by rewrite !length_fmap. }
  heap_insert. rewrite assign_timestamp.
  rewrite run_bind.
  erewrite (run_getitem _ (length h) "timestamp"); [| heap_lookup | reflexivity].
  rewrite run_bind.
  erewrite (run_dt_hour _ _ time logins); [| heap_lookup].
  rewrite run_bind.
  erewrite setitem_in_place; [| heap_lookup | heap_lookup | ].
  2: { simpl. by rewrite !length_fmap. }
  heap_insert. rewrite assign_hour. fold hour. fold df_copy.
  rewrite run_bind.
  erewrite (run_groupby_size _ (length h)); [| heap_lookup | reflexivity].
  cbn [pandas.nrows]. rewrite length_fmap.
  rewrite (key_rows_two (λ row, VInt (hour row))
             (VStr ∘ LoginEvent.login_status)).
  fold sizes.
  rewrite run_bind.
  erewrite run_reset_index; [| heap_lookup].
  cbn [imap app]. unfold mret, py_ret.
  eexists _, _. split.
  - f_equal. rewrite <- !app_assoc. reflexivity.
  - rewrite <- !app_assoc. simpl app.
    rewrite lookup_app_r by (rewrite !length_app; simpl; lia).
    rewrite !length_app. simpl length.
    match goal with
    | |- _ !! ?n = _ => replace n with 6%nat by lia
    end.
    reflexivity.
Qed.


